(** * Streaming video processors ([readers/processors.py])

    A shallow embedding of [ProcessorBase], [OnlineStats], [PixelCatcher]
    and [BoxCatcher], together with the part of NumPy they rely on, and
    the properties of the specification checked against that embedding.

    Conventions of the embedding.

    - A NumPy array is a shape and a flat row-major buffer ([ndarray]).
    - An array element is an extended rational ([num]): float64 with its
      special values [inf], [-inf] and [nan] kept, and rounding left out.
      A finite result is exact: it is neither rounded nor does it
      overflow to [inf].  Evaluations at a concrete input therefore give
      the float64 result up to rounding.  The general properties name the
      value of an element only as an input copied, as one operation of
      the code applied to inputs (a difference, a quotient, the mean over
      a region), or as [nan]; none rests on an identity that holds for
      exact numbers and fails for float64.
      Every zero divisor of the program is [+0.0]: a converted integer 0
      or the difference of two equal clock readings.
    - A Python exception is a value of [exn]; a function that can raise
      returns a [res]; a method is a function from the object's fields to
      a result and the fields after the call ([M]).
    - [time.perf_counter()] is an argument of the operations that read it. *)

From Stdlib Require Import List ZArith QArith Qreduction Lia Bool Arith.
Import ListNotations.

Local Close Scope Q_scope.
Local Open Scope nat_scope.

(** ** Numbers *)

Inductive num : Type :=
| Fin (q : Q)
| PInf
| NInf
| NaN.

(** Finite results are kept in lowest terms, so that equal values are
    equal terms. *)
Definition fin (q : Q) : num := Fin (Qred q).

Definition of_Z (z : Z) : num := Fin (inject_Z z).
Definition of_nat (n : nat) : num := of_Z (Z.of_nat n).

Definition fneg (x : num) : num :=
  match x with
  | Fin a => fin (- a)
  | PInf => NInf
  | NInf => PInf
  | NaN => NaN
  end.

Definition fadd (x y : num) : num :=
  match x, y with
  | NaN, _ | _, NaN => NaN
  | Fin a, Fin b => fin (a + b)
  | PInf, NInf | NInf, PInf => NaN
  | PInf, _ | _, PInf => PInf
  | NInf, _ | _, NInf => NInf
  end.

Definition fsub (x y : num) : num :=
  match x, y with
  | NaN, _ | _, NaN => NaN
  | Fin a, Fin b => fin (a - b)
  | PInf, PInf | NInf, NInf => NaN
  | PInf, _ | _, NInf => PInf
  | NInf, _ | _, PInf => NInf
  end.

(** [inf] times a finite number: the sign of the finite factor decides,
    and [inf * 0] is [nan]. *)
Definition inf_times (positive : bool) (a : Q) : num :=
  match (a ?= 0)%Q with
  | Eq => NaN
  | Gt => if positive then PInf else NInf
  | Lt => if positive then NInf else PInf
  end.

Definition fmul (x y : num) : num :=
  match x, y with
  | NaN, _ | _, NaN => NaN
  | Fin a, Fin b => fin (a * b)
  | Fin a, PInf | PInf, Fin a => inf_times true a
  | Fin a, NInf | NInf, Fin a => inf_times false a
  | PInf, PInf | NInf, NInf => PInf
  | PInf, NInf | NInf, PInf => NInf
  end.

(** Division as NumPy does it on arrays and on its scalars: nothing is
    raised, [x / 0] is [inf], [-inf] or [nan] by the sign of [x]. *)
Definition fdiv (x y : num) : num :=
  match x, y with
  | NaN, _ | _, NaN => NaN
  | Fin a, Fin b =>
      if Qeq_bool b 0 then
        match (a ?= 0)%Q with Eq => NaN | Gt => PInf | Lt => NInf end
      else fin (a / b)
  | Fin _, (PInf | NInf) => Fin 0
  | PInf, Fin b => match (b ?= 0)%Q with Lt => NInf | _ => PInf end
  | NInf, Fin b => match (b ?= 0)%Q with Lt => PInf | _ => NInf end
  | (PInf | NInf), (PInf | NInf) => NaN
  end.

(** [x ** 2] *)
Definition fsquare (x : num) : num := fmul x x.

Definition is_finite (x : num) : bool :=
  match x with Fin _ => true | _ => false end.

Definition is_nan (x : num) : bool :=
  match x with NaN => true | _ => false end.

(** The same element: equal rationals, or the same special value. *)
Definition same_num (x y : num) : Prop :=
  match x, y with
  | Fin a, Fin b => (a == b)%Q
  | PInf, PInf | NInf, NInf | NaN, NaN => True
  | _, _ => False
  end.

(** ** Exceptions and results *)

Inductive exn : Type :=
| ValueError
| IndexError
| AxisError
| ZeroDivisionError
| UnboundLocalError.

Inductive res (A : Type) : Type :=
| Ok (a : A)
| Raise (e : exn).
Arguments Ok {A} a.
Arguments Raise {A} e.

Definition rbind {A B} (r : res A) (k : A -> res B) : res B :=
  match r with
  | Ok a => k a
  | Raise e => Raise e
  end.

Declare Scope res_scope.
Delimit Scope res_scope with res.
Notation "x <- r ;; k" := (rbind r (fun x => k))
  (at level 61, r at next level, right associativity) : res_scope.

(** A list comprehension whose body can raise: left to right, the first
    exception ends it. *)
Fixpoint rmap {A B} (f : A -> res B) (l : list A) : res (list B) :=
  match l with
  | [] => Ok []
  | x :: l' =>
      (y <- f x ;; ys <- rmap f l' ;; Ok (y :: ys))%res
  end.

(** ** Python indices, slices and tuples *)

(** [a[i]] on an axis of length [n]: negative indices count from the end. *)
Definition wrap_index (i : Z) (n : nat) : Z :=
  if (i <? 0)%Z then (i + Z.of_nat n)%Z else i.

Definition norm_index (i : Z) (n : nat) : res nat :=
  let j := wrap_index i n in
  if ((0 <=? j) && (j <? Z.of_nat n))%Z then Ok (Z.to_nat j)
  else Raise IndexError.

(** An [axis=] argument for an array of [nd] dimensions. *)
Definition norm_axis (ax : Z) (nd : nat) : res nat :=
  let j := wrap_index ax nd in
  if ((0 <=? j) && (j <? Z.of_nat nd))%Z then Ok (Z.to_nat j)
  else Raise AxisError.

(** A bound of [slice(start, stop)] on an axis of length [n]: wrapped
    once when negative, then clamped to [0 .. n]. *)
Definition slice_bound (i : Z) (n : nat) : nat :=
  Z.to_nat (Z.min (Z.max (wrap_index i n) 0) (Z.of_nat n)).

(** First index and length selected by [slice(start, stop)]. *)
Definition slice_indices (start stop : Z) (n : nat) : nat * nat :=
  let lo := slice_bound start n in
  let hi := slice_bound stop n in
  (lo, hi - lo).

(** [t[-k:]] for [k >= 0]; [t[-0:]] is [t[0:]], the whole tuple. *)
Definition tuple_suffix {A} (k : nat) (t : list A) : list A :=
  if k =? 0 then t else skipn (length t - k) t.

(** [t[:-k]] for [k > 0]. *)
Definition tuple_drop_last {A} (k : nat) (t : list A) : list A :=
  firstn (length t - k) t.

(** ** Arrays *)

Module np.

Record ndarray : Type := mkarr { shape : list nat; data : list num }.

Definition size (sh : list nat) : nat := fold_right Nat.mul 1 sh.

Definition ndim (a : ndarray) : nat := length (shape a).

(** The element at a flat position of the buffer. *)
Definition item (a : ndarray) (i : nat) : num := nth i (data a) NaN.

Definition well_formed (a : ndarray) : Prop :=
  length (data a) = size (shape a).

Definition shape_eqb (s t : list nat) : bool :=
  if list_eq_dec Nat.eq_dec s t then true else false.

Definition zeros (sh : list nat) : ndarray :=
  mkarr sh (repeat (Fin 0) (size sh)).

(** [a.reshape(new)], where one entry of [new] may be [-1]: NumPy infers
    it from the size of the array, and refuses when the other entries
    multiply to 0 or do not divide the size.  (The program passes no
    entry below -1.) *)
Definition known_size (new : list Z) : Z :=
  fold_right (fun d acc => if (d =? -1)%Z then acc else (d * acc)%Z) 1%Z new.

Definition count_unknown (new : list Z) : nat :=
  length (filter (fun d => (d =? -1)%Z) new).

Definition reshape (a : ndarray) (new : list Z) : res ndarray :=
  let n := Z.of_nat (size (shape a)) in
  let k := known_size new in
  if existsb (fun d => (d <? -1)%Z) new then Raise ValueError
  else
    match count_unknown new with
    | 0 =>
        if (k =? n)%Z then Ok (mkarr (map Z.to_nat new) (data a))
        else Raise ValueError
    | 1 =>
        if ((k =? 0) || negb (n mod k =? 0))%Z then Raise ValueError
        else
          Ok (mkarr
                (map (fun d => Z.to_nat (if (d =? -1)%Z then (n / k)%Z else d))
                     new)
                (data a))
    | _ => Raise ValueError
    end.

(** Reduction of one axis.  The shape is [pre ++ [d] ++ post]; the
    element [(o, i, j)] of the buffer is at [(o * d + i) * inner + j]. *)
Definition lane (a : ndarray) (d inner o j : nat) : list num :=
  map (fun i => item a ((o * d + i) * inner + j)) (seq 0 d).

Definition reduce_axis (f : list num -> num) (ax : nat) (a : ndarray)
  : ndarray :=
  let pre := firstn ax (shape a) in
  let d := nth ax (shape a) 0 in
  let post := skipn (S ax) (shape a) in
  let inner := size post in
  mkarr (pre ++ post)
        (flat_map
           (fun o => map (fun j => f (lane a d inner o j)) (seq 0 inner))
           (seq 0 (size pre))).

Definition fsum (l : list num) : num := fold_left fadd l (Fin 0).

Definition mean_of (l : list num) : num := fdiv (fsum l) (of_nat (length l)).

(** Population variance ([ddof = 0]), as [np.var] computes it: the mean
    of the squared deviations from the mean. *)
Definition var_of (l : list num) : num :=
  let m := mean_of l in
  mean_of (map (fun x => fsquare (fsub x m)) l).

Definition mean (a : ndarray) (axis : Z) : res ndarray :=
  (ax <- norm_axis axis (ndim a) ;; Ok (reduce_axis mean_of ax a))%res.

Definition var (a : ndarray) (axis : Z) : res ndarray :=
  (ax <- norm_axis axis (ndim a) ;; Ok (reduce_axis var_of ax a))%res.

(** Broadcasting.  Shapes are aligned on their last axes; an axis of
    length 1 is stretched. *)
Fixpoint bshape_rev (r1 r2 : list nat) : option (list nat) :=
  match r1, r2 with
  | [], r | r, [] => Some r
  | a :: r1', b :: r2' =>
      match bshape_rev r1' r2' with
      | None => None
      | Some r =>
          if a =? b then Some (a :: r)
          else if a =? 1 then Some (b :: r)
          else if b =? 1 then Some (a :: r)
          else None
      end
  end.

Definition broadcast_shape (s1 s2 : list nat) : option (list nat) :=
  option_map (@rev nat) (bshape_rev (rev s1) (rev s2)).

(** Flat position, in an operand of reversed shape [rop], of the element
    that lands at flat position [t] of the result of reversed shape
    [rres]. *)
Fixpoint bidx_rev (rres rop : list nat) (t stride : nat) : nat :=
  match rres, rop with
  | d :: rres', e :: rop' =>
      (if e =? 1 then 0 else t mod d) * stride
      + bidx_rev rres' rop' (t / d) (stride * e)
  | _, _ => 0
  end.

Definition bitem (sh : list nat) (a : ndarray) (t : nat) : num :=
  item a (bidx_rev (rev sh) (rev (shape a)) t 1).

Definition map2 (f : num -> num -> num) (a b : ndarray) : res ndarray :=
  match broadcast_shape (shape a) (shape b) with
  | None => Raise ValueError
  | Some sh =>
      Ok (mkarr sh (map (fun t => f (bitem sh a t) (bitem sh b t))
                        (seq 0 (size sh))))
  end.

(** An array and a Python number. *)
Definition map1 (f : num -> num) (a : ndarray) : ndarray :=
  mkarr (shape a) (map f (data a)).

(** [np.concatenate(arrs, axis=ax)], [ax >= 0]. *)
Definition same_except (ax : nat) (s t : list nat) : bool :=
  shape_eqb (firstn ax s) (firstn ax t)
  && shape_eqb (skipn (S ax) s) (skipn (S ax) t)
  && (length s =? length t).

Definition concatenate (arrs : list ndarray) (ax : nat) : res ndarray :=
  match arrs with
  | [] => Raise ValueError
  | a0 :: _ =>
      if ndim a0 =? 0 then Raise ValueError
      else if negb (forallb (fun a => ndim a =? ndim a0) arrs)
      then Raise ValueError
      else if ndim a0 <=? ax then Raise AxisError
      else if negb (forallb (fun a => same_except ax (shape a0) (shape a)) arrs)
      then Raise ValueError
      else
        let pre := firstn ax (shape a0) in
        let post := skipn (S ax) (shape a0) in
        let inner := size post in
        let block (a : ndarray) := nth ax (shape a) 0 * inner in
        Ok (mkarr
              (pre ++ [list_sum (map (fun a => nth ax (shape a) 0) arrs)]
                   ++ post)
              (flat_map
                 (fun o =>
                    flat_map
                      (fun a =>
                         map (fun j => item a (o * block a + j))
                             (seq 0 (block a)))
                      arrs)
                 (seq 0 (size pre))))
  end.

(** [a[:, r, c, None, :]]: four indices that consume an axis, so at
    least four axes; the axis added by [None] has length 1. *)
Definition index_pixel (a : ndarray) (r c : Z) : res ndarray :=
  match shape a with
  | d0 :: d1 :: d2 :: d3 :: rest =>
      (i <- norm_index r d1 ;;
       j <- norm_index c d2 ;;
       let inner := size (d3 :: rest) in
       Ok (mkarr (d0 :: 1 :: d3 :: rest)
             (flat_map
                (fun n =>
                   map (fun k => item a (((n * d1 + i) * d2 + j) * inner + k))
                       (seq 0 inner))
                (seq 0 d0))))%res
  | _ => Raise IndexError
  end.

(** [a[..., rx, ry, :]] for two slices [rx], [ry] given by their bounds:
    at least three axes, the slices cut the third and second axes from
    the end. *)
Definition index_box (a : ndarray) (rx ry : Z * Z) : res ndarray :=
  match rev (shape a) with
  | c :: w :: h :: rextra =>
      let extra := rev rextra in
      let '(x0, nx) := slice_indices (fst rx) (snd rx) h in
      let '(y0, ny) := slice_indices (fst ry) (snd ry) w in
      Ok (mkarr (extra ++ [nx; ny; c])
            (flat_map
               (fun o =>
                  flat_map
                    (fun i =>
                       flat_map
                         (fun j =>
                            map (fun k =>
                                   item a (((o * h + (x0 + i)) * w + (y0 + j)) * c + k))
                                (seq 0 c))
                         (seq 0 ny))
                    (seq 0 nx))
               (seq 0 (size extra))))
  | _ => Raise IndexError
  end.

(** [np.asanyarray] of a list of lists of arrays, as the reductions apply
    it to a list argument.  The nested lists must be rectangular (a
    [ValueError] otherwise, as NumPy 1.24 and later raise it). *)
Definition array (vs : list (list ndarray)) : res ndarray :=
  match vs with
  | [] => Ok (mkarr [0] [])
  | row0 :: _ =>
      if negb (forallb (fun row => length row =? length row0) vs)
      then Raise ValueError
      else
        match row0 with
        | [] => Ok (mkarr [length vs; 0] [])
        | a0 :: _ =>
            if forallb (forallb (fun a => shape_eqb (shape a) (shape a0))) vs
            then Ok (mkarr (length vs :: length row0 :: shape a0)
                       (flat_map (fun row => flat_map data row) vs))
            else Raise ValueError
        end
  end.

End np.

(** [t[i]] on a tuple of sizes. *)
Definition tuple_get (t : list nat) (i : Z) : res nat :=
  (j <- norm_index i (length t) ;; Ok (nth j t 0))%res.

(** ** Methods: a state and exception monad *)

Definition M (S A : Type) : Type := S -> res A * S.

Definition ret {S A} (a : A) : M S A := fun s => (Ok a, s).

Definition bind {S A B} (m : M S A) (k : A -> M S B) : M S B :=
  fun s =>
    match m s with
    | (Ok a, s') => k a s'
    | (Raise e, s') => (Raise e, s')
    end.

Definition lift {S A} (r : res A) : M S A := fun s => (r, s).
Definition raise {S A} (e : exn) : M S A := fun s => (Raise e, s).
Definition get {S} : M S S := fun s => (Ok s, s).
Definition put {S} (s' : S) : M S unit := fun _ => (Ok tt, s').
Definition modify {S} (f : S -> S) : M S unit := fun s => (Ok tt, f s).

Declare Scope M_scope.
Delimit Scope M_scope with M.
Notation "x <- m ;; k" := (bind m (fun x => k))
  (at level 61, m at next level, right associativity) : M_scope.
Notation "m ;;; k" := (bind m (fun _ => k))
  (at level 61, right associativity) : M_scope.

(** ** Integers: Python's [int] and NumPy's [int64] *)

Inductive pyint : Type :=
| PyInt (z : Z)
| NpInt (z : Z).

Definition int_val (n : pyint) : Z :=
  match n with PyInt z | NpInt z => z end.

Definition wrap64 (z : Z) : Z :=
  ((z + 2 ^ 63) mod 2 ^ 64 - 2 ^ 63)%Z.

(** [a + b]: two Python integers give a Python integer; a NumPy integer
    on either side gives a NumPy integer. *)
Definition int_add (a b : pyint) : pyint :=
  match a, b with
  | PyInt x, PyInt y => PyInt (x + y)
  | _, _ => NpInt (wrap64 (int_val a + int_val b))
  end.

(** [n / d] for a Python float [d]: Python raises on a zero divisor when
    [n] is its own integer; a NumPy integer divides as NumPy does. *)
Definition truediv (n : pyint) (d : Q) : res num :=
  match n with
  | PyInt z =>
      if Qeq_bool d 0 then Raise ZeroDivisionError
      else Ok (fin (inject_Z z / d))
  | NpInt z => Ok (fdiv (of_Z z) (Fin d))
  end.

(** [np.prod] of a tuple of sizes. *)
Definition np_prod (t : list nat) : pyint :=
  NpInt (wrap64 (Z.of_nat (np.size t))).

(** ** [ProcessorBase] *)

Module ProcessorBase.

(** The fields of the object.  [printed] is not a field of the source: it
    records, newest first, the smoothed rates written to standard output. *)
Record t : Type := mk {
  monitor : bool;
  deltas : list (Q * pyint);
  qlen : nat;
  avg_fps : num;
  monitor_freq : Q;
  total_frames : pyint;
  start : Q;
  runtime : Q;
  frames_since_last_call : pyint;
  last_print : Q;
  printed : list num
}.

(** [clock] is the value [time.perf_counter()] returns in the
    constructor. *)
Definition __init__ (clock : Q) (monitor : bool) (qlen : nat) : t :=
  {| monitor := monitor;
     deltas := [];
     qlen := qlen;
     avg_fps := Fin 0;
     monitor_freq := 1 # 2;
     total_frames := PyInt 0;
     start := clock;
     runtime := 0;
     frames_since_last_call := PyInt 0;
     last_print := clock;
     printed := [] |}.

Definition get_fps (self : t) : res num :=
  truediv (total_frames self) (runtime self).

(** [print_perf]: what the line written to standard output shows, when
    [get_fps] has not raised. *)
Definition print_perf (self : t) : res (pyint * Q * num) :=
  (fps <- get_fps self ;; Ok (total_frames self, runtime self, fps))%res.

(** The dummy [__process__] of the base class. *)
Definition __process__ (frames : np.ndarray) : M t unit := ret tt.

(** [deque.appendleft] on a deque of bounded length. *)
Definition appendleft {A} (maxlen : nat) (x : A) (q : list A) : list A :=
  firstn maxlen (x :: q).

(** The body of [if self.monitor:] in [__call__]; [now] is the value
    [time.perf_counter()] returns there. *)
Definition measure (now : Q) (frames : np.ndarray) : M t unit :=
  (n_frames <-
     (if np.ndim frames =? 3 then ret (PyInt 1)
      else if 3 <? np.ndim frames
           then ret (np_prod (tuple_drop_last 3 (np.shape frames)))
           else raise UnboundLocalError) ;;
   self <- get ;;
   let since := int_add (frames_since_last_call self) n_frames in
   let total := int_add (total_frames self) n_frames in
   let delta := Qred (now - last_print self) in
   let self1 :=
     {| monitor := monitor self;
        deltas := deltas self;
        qlen := qlen self;
        avg_fps := avg_fps self;
        monitor_freq := monitor_freq self;
        total_frames := total;
        start := start self;
        runtime := Qred (now - start self);
        frames_since_last_call := since;
        last_print := last_print self;
        printed := printed self |} in
   put self1 ;;;
   if negb (Qle_bool delta (monitor_freq self)) then
     let window := appendleft (qlen self) (delta, since) (deltas self) in
     modify (fun s =>
       {| monitor := monitor s;
          deltas := window;
          qlen := qlen s;
          avg_fps := avg_fps s;
          monitor_freq := monitor_freq s;
          total_frames := total_frames s;
          start := start s;
          runtime := runtime s;
          frames_since_last_call := frames_since_last_call s;
          last_print := last_print s;
          printed := printed s |}) ;;;
     rates <- lift (rmap (fun dn => truediv (snd dn) (fst dn)) window) ;;
     let smoothed := np.mean_of rates in
     modify (fun s =>
       {| monitor := monitor s;
          deltas := deltas s;
          qlen := qlen s;
          avg_fps := avg_fps s;
          monitor_freq := monitor_freq s;
          total_frames := total_frames s;
          start := start s;
          runtime := runtime s;
          frames_since_last_call := PyInt 0;
          last_print := now;
          printed := smoothed :: printed s |})
   else ret tt)%M.

End ProcessorBase.

(** The interface of a processor: the fields it inherits from
    [ProcessorBase] and its own [__process__]. *)
Class Processor (S : Type) : Type := {
  base : S -> ProcessorBase.t;
  with_base : ProcessorBase.t -> S -> S;
  __process__ : np.ndarray -> M S unit
}.

(** A method of the base class run on the inherited fields. *)
Definition on_base {S} `{Processor S} {A} (m : M ProcessorBase.t A)
  : M S A :=
  fun s => let '(r, b) := m (base s) in (r, with_base b s).

(** [ProcessorBase.__call__].  [now] is read only when monitoring is on. *)
Definition __call__ {S} `{Processor S} (now : Q) (frames : np.ndarray)
  : M S unit :=
  (__process__ frames ;;;
   self <- get ;;
   if ProcessorBase.monitor (base self)
   then on_base (ProcessorBase.measure now frames)
   else ret tt)%M.

Definition get_fps {S} `{Processor S} (self : S) : res num :=
  ProcessorBase.get_fps (base self).

#[export] Instance ProcessorBase_Processor : Processor ProcessorBase.t := {
  base := fun s => s;
  with_base := fun b _ => b;
  __process__ := ProcessorBase.__process__
}.

(** ** [OnlineStats] *)

Module OnlineStats.

Record t : Type := mk {
  super : ProcessorBase.t;
  shape : list nat;
  mean : np.ndarray;
  var : np.ndarray;
  count : Z
}.

Definition __init__ (clock : Q) (shape : list nat) (monitor : bool) : t :=
  {| super := ProcessorBase.__init__ clock monitor 10;
     shape := shape;
     mean := np.zeros shape;
     var := np.zeros shape;
     count := 0 |}.

Definition set_mean (m : np.ndarray) (s : t) : t :=
  {| super := super s; shape := shape s; mean := m; var := var s;
     count := count s |}.

Definition set_var (v : np.ndarray) (s : t) : t :=
  {| super := super s; shape := shape s; mean := mean s; var := v;
     count := count s |}.

Definition set_count (c : Z) (s : t) : t :=
  {| super := super s; shape := shape s; mean := mean s; var := var s;
     count := c |}.

(** Array and Python integer. *)
Definition times (a : np.ndarray) (k : Z) : np.ndarray :=
  np.map1 (fun x => fmul x (of_Z k)) a.

Definition int_times (k : Z) (a : np.ndarray) : np.ndarray :=
  np.map1 (fun x => fmul (of_Z k) x) a.

Definition over (a : np.ndarray) (k : Z) : np.ndarray :=
  np.map1 (fun x => fdiv x (of_Z k)) a.

Definition __process__ (data : np.ndarray) : M t unit :=
  (self <- get ;;
   if negb (np.shape_eqb (tuple_suffix (length (shape self)) (np.shape data))
                         (shape self))
   then raise ValueError
   else
     (* the reshaped array is not bound to anything *)
     _ <- lift (np.reshape data (-1 :: map Z.of_nat (shape self))%Z) ;;
     n <- lift (tuple_get (np.shape data) 0) ;;
     let count_b := Z.of_nat n in
     mean_b <- lift (np.mean data 0) ;;
     var_b <- lift (np.var data 0) ;;
     let m1 := times (var self) (count self - 1) in
     let m2 := times var_b (count_b - 1) in
     m12 <- lift (np.map2 fadd m1 m2) ;;
     delta <- lift (np.map2 fsub (mean self) mean_b) ;;
     let cross :=
       over (times (times (np.map1 fsquare delta) count_b) (count self))
            (count_b + count self) in
     M2 <- lift (np.map2 fadd m12 cross) ;;
     total <- lift (np.map2 fadd (int_times count_b mean_b)
                                 (int_times (count self) (mean self))) ;;
     modify (set_mean (over total (count_b + count self))) ;;;
     modify (fun s => set_count (count s + count_b) s) ;;;
     modify (fun s => set_var (over M2 (count s - 1)) s))%M.

End OnlineStats.

#[export] Instance OnlineStats_Processor : Processor OnlineStats.t := {
  base := OnlineStats.super;
  with_base := fun b s =>
    {| OnlineStats.super := b;
       OnlineStats.shape := OnlineStats.shape s;
       OnlineStats.mean := OnlineStats.mean s;
       OnlineStats.var := OnlineStats.var s;
       OnlineStats.count := OnlineStats.count s |};
  __process__ := OnlineStats.__process__
}.

(** ** [PixelCatcher] *)

Module PixelCatcher.

Record t : Type := mk {
  super : ProcessorBase.t;
  pixels : list (Z * Z);
  values : list np.ndarray
}.

Definition __init__ (clock : Q) (pixels : list (Z * Z)) (monitor : bool) : t :=
  {| super := ProcessorBase.__init__ clock monitor 10;
     pixels := pixels;
     values := [] |}.

Definition set_values (v : list np.ndarray) (s : t) : t :=
  {| super := super s; pixels := pixels s; values := v |}.

Definition __process__ (frames : np.ndarray) : M t unit :=
  (self <- get ;;
   vals <- lift (rmap (fun loc => np.index_pixel frames (fst loc) (snd loc))
                      (pixels self)) ;;
   vals <- lift (np.concatenate vals 1) ;;
   modify (fun s => set_values (values s ++ [vals]) s))%M.

Definition extract : M t np.ndarray :=
  (self <- get ;;
   v <- lift (np.concatenate (values self) 0) ;;
   lift (np.reshape v [-1; Z.of_nat (length (pixels self)); 3]%Z))%M.

End PixelCatcher.

#[export] Instance PixelCatcher_Processor : Processor PixelCatcher.t := {
  base := PixelCatcher.super;
  with_base := fun b s =>
    {| PixelCatcher.super := b;
       PixelCatcher.pixels := PixelCatcher.pixels s;
       PixelCatcher.values := PixelCatcher.values s |};
  __process__ := PixelCatcher.__process__
}.

(** ** [BoxCatcher] *)

Module BoxCatcher.

(** A slice is its two bounds; [agg] is an aggregation of an array along
    an axis, applied to the captures once NumPy has made an array of
    them. *)
Record t : Type := mk {
  super : ProcessorBase.t;
  pixels : list (Z * Z);
  values : list (list np.ndarray);
  box_size : Z * Z;
  agg : np.ndarray -> Z -> res np.ndarray;
  ranges : list ((Z * Z) * (Z * Z))
}.

Definition __init__ (clock : Q) (pixels : list (Z * Z)) (box_size : Z * Z)
  (agg : option (np.ndarray -> Z -> res np.ndarray)) (monitor : bool) : t :=
  let off_h := (fst box_size / 2)%Z in
  let off_v := (snd box_size / 2)%Z in
  {| super := ProcessorBase.__init__ clock monitor 10;
     pixels := pixels;
     values := [];
     box_size := box_size;
     agg := match agg with None => np.mean | Some f => f end;
     ranges :=
       map (fun loc =>
              ((fst loc - off_v, fst loc + off_v + 1),
               (snd loc - off_h, snd loc + off_h + 1))%Z)
           pixels |}.

Definition set_values (v : list (list np.ndarray)) (s : t) : t :=
  {| super := super s; pixels := pixels s; values := v;
     box_size := box_size s; agg := agg s; ranges := ranges s |}.

Definition __process__ (frames : np.ndarray) : M t unit :=
  (self <- get ;;
   let extra_dims := tuple_drop_last 3 (np.shape frames) in
   vals <- lift (rmap (fun r =>
                         (box <- np.index_box frames (fst r) (snd r) ;;
                          c <- tuple_get (np.shape frames) (-1) ;;
                          np.reshape box
                            (map Z.of_nat extra_dims ++ [-1; Z.of_nat c])%Z)%res)
                      (ranges self)) ;;
   modify (fun s => set_values (values s ++ [vals]) s))%M.

Definition extract : M t np.ndarray :=
  (self <- get ;;
   captured <- lift (np.array (values self)) ;;
   agg_val <- lift (agg self captured (-2)) ;;
   lift (np.reshape agg_val
           (-1 :: map Z.of_nat (tuple_suffix 2 (np.shape agg_val)))%Z))%M.

End BoxCatcher.

#[export] Instance BoxCatcher_Processor : Processor BoxCatcher.t := {
  base := BoxCatcher.super;
  with_base := fun b s =>
    {| BoxCatcher.super := b;
       BoxCatcher.pixels := BoxCatcher.pixels s;
       BoxCatcher.values := BoxCatcher.values s;
       BoxCatcher.box_size := BoxCatcher.box_size s;
       BoxCatcher.agg := BoxCatcher.agg s;
       BoxCatcher.ranges := BoxCatcher.ranges s |};
  __process__ := BoxCatcher.__process__
}.

(** ** Running a processor on a stream *)

(** The driver hands the batches to the processor one after the other,
    each with the clock value its call reads; a call that raises leaves
    the object as it is at that point, and the driver goes on. *)
Definition run {S} `{Processor S} (calls : list (Q * np.ndarray)) (s : S) : S :=
  fold_left (fun s c => snd (__call__ (fst c) (snd c) s)) calls s.

(** The batches fed to [__process__] in order, up to the first
    exception. *)
Fixpoint feed {S} `{Processor S} (batches : list np.ndarray) : M S unit :=
  match batches with
  | [] => ret tt
  | b :: rest => (__process__ b ;;; feed rest)%M
  end.

(** An array of integers, and the element at a multi-index. *)
Definition ints (sh : list nat) (l : list Z) : np.ndarray :=
  np.mkarr sh (map of_Z l).

Definition ravel (sh idx : list nat) : nat :=
  fold_left (fun acc di => acc * fst di + snd di) (combine sh idx) 0.

Definition at_ (a : np.ndarray) (idx : list nat) : num :=
  np.item a (ravel (np.shape a) idx).

(** * Vocabulary of the properties *)

(** [m] never changes the part [f] of the object. *)
Definition preserves {S X A} (f : S -> X) (m : M S A) : Prop :=
  forall s, f (snd (m s)) = f s.

(** [m] reads the object and writes nothing. *)
Definition readonly {S A} (m : M S A) : Prop := forall s, snd (m s) = s.

(** [m] never raises. *)
Definition total {S A} (m : M S A) : Prop :=
  forall s, exists a, fst (m s) = Ok a.

(** When [m] raises, the object is as it was before the call. *)
Definition atomic {S A} (m : M S A) : Prop :=
  forall s e, fst (m s) = Raise e -> snd (m s) = s.

(** A processor whose [__process__] keeps its hands off the fields of
    the base class. *)
Class ProcessorLaws (S : Type) `{Processor S} : Prop := {
  base_with_base : forall b s, base (with_base b s) = b;
  process_base : forall frames, preserves (base (S := S)) (__process__ frames)
}.

(** The index [i] is valid on an axis of length [n]. *)
Definition in_axis (i : Z) (n : nat) : bool :=
  ((- Z.of_nat n <=? i) && (i <? Z.of_nat n))%Z.

(** The batch has the four axes [PixelCatcher] indexes and the pixel lies
    on its second and third. *)
Definition in_frame (frames : np.ndarray) (loc : Z * Z) : bool :=
  match np.shape frames with
  | _ :: h :: w :: _ :: _ => in_axis (fst loc) h && in_axis (snd loc) w
  | _ => false
  end.

(** Number of frames of a batch: its first dimension. *)
Definition frames_of (b : np.ndarray) : nat := hd 0 (np.shape b).

(** Channel [ch] of the pixel [loc] in frame [n] of a batch of shape
    [(N, H, W, C)], with Python's reading of a negative coordinate. *)
Definition pixel_of (b : np.ndarray) (n : nat) (loc : Z * Z) (ch : nat) : num :=
  match np.shape b with
  | _ :: h :: w :: _ =>
      at_ b [n; Z.to_nat (wrap_index (fst loc) h);
             Z.to_nat (wrap_index (snd loc) w); ch]
  | _ => NaN
  end.

(** The capture of one batch: frame by frame, pixel by pixel, the
    channel vector. *)
Definition capture (pixels : list (Z * Z)) (b : np.ndarray) : np.ndarray :=
  np.mkarr [frames_of b; length pixels; nth 3 (np.shape b) 0]
    (flat_map
       (fun n =>
          flat_map
            (fun loc => map (pixel_of b n loc) (seq 0 (nth 3 (np.shape b) 0)))
            pixels)
       (seq 0 (frames_of b))).

(** One pixel of a batch, as [frames[:, r, c, None, :]] returns it. *)
Definition pixel_column (b : np.ndarray) (loc : Z * Z) : np.ndarray :=
  np.mkarr [frames_of b; 1; nth 3 (np.shape b) 0]
    (flat_map (fun n => map (pixel_of b n loc) (seq 0 (nth 3 (np.shape b) 0)))
              (seq 0 (frames_of b))).

(** [np.concatenate] once its checks are passed. *)
Definition joined (arrs : list np.ndarray) (ax : nat) (a0 : np.ndarray)
  : np.ndarray :=
  let inner := np.size (skipn (S ax) (np.shape a0)) in
  np.mkarr
    (firstn ax (np.shape a0)
     ++ [list_sum (map (fun a => nth ax (np.shape a) 0) arrs)]
     ++ skipn (S ax) (np.shape a0))
    (flat_map
       (fun o =>
          flat_map
            (fun a =>
               map (fun j => np.item a (o * (nth ax (np.shape a) 0 * inner) + j))
                   (seq 0 (nth ax (np.shape a) 0 * inner)))
            arrs)
       (seq 0 (np.size (firstn ax (np.shape a0))))).

(** A batch [PixelCatcher] can sample: four axes, every pixel inside. *)
Definition samples (pixels : list (Z * Z)) (b : np.ndarray) : bool :=
  (length (np.shape b) =? 4) && forallb (in_frame b) pixels.

(** A batch of three-channel frames. *)
Definition rgb (b : np.ndarray) : bool := nth 3 (np.shape b) 0 =? 3.

(** The number of frames fed before batch [k]. *)
Definition offset (batches : list np.ndarray) (k : nat) : nat :=
  list_sum (map frames_of (firstn k batches)).

(** The pixel is inside the frame, with non-negative coordinates. *)
Definition inside (b : np.ndarray) (loc : Z * Z) : bool :=
  match np.shape b with
  | _ :: h :: w :: _ :: _ =>
      ((0 <=? fst loc) && (fst loc <? Z.of_nat h)
       && (0 <=? snd loc) && (snd loc <? Z.of_nat w))%Z
  | _ => false
  end.

(** The slices [BoxCatcher.__init__] computes for a box of size (1, 1). *)
Definition unit_range (loc : Z * Z) : (Z * Z) * (Z * Z) :=
  ((fst loc - 0, fst loc + 0 + 1), (snd loc - 0, snd loc + 0 + 1))%Z.

(** Number of frames of a batch with at least three axes: the product of
    the dimensions before the last three. *)
Definition leading_frames (frames : np.ndarray) : Z :=
  Z.of_nat (np.size (tuple_drop_last 3 (np.shape frames))).

(** What the monitor relies on: a cadence that is not negative, a window
    of positive intervals, no longer than the deque allows. *)
Definition window_ok (b : ProcessorBase.t) : Prop :=
  (0 <= ProcessorBase.monitor_freq b)%Q
  /\ Forall (fun dn => (0 < fst dn)%Q) (ProcessorBase.deltas b)
  /\ length (ProcessorBase.deltas b) <= ProcessorBase.qlen b.

(** The values of element [t] of the data points of a batch, one per
    data point along the first axis. *)
Definition column (data : np.ndarray) (t : nat) : list num :=
  np.lane data (frames_of data) (np.size (tl (np.shape data))) 0 t.

(** The update of [OnlineStats] on one element: [c], [m], [v] are the
    count, mean and variance stored, [n], [mb], [vb] those of the batch. *)
Definition merged_mean (c n : Z) (m mb : num) : num :=
  fdiv (fadd (fmul (of_Z n) mb) (fmul (of_Z c) m)) (of_Z (n + c)).

Definition merged_var (c n : Z) (m v mb vb : num) : num :=
  fdiv
    (fadd (fadd (fmul v (of_Z (c - 1))) (fmul vb (of_Z (n - 1))))
          (fdiv (fmul (fmul (fsquare (fsub m mb)) (of_Z n)) (of_Z c))
                (of_Z (n + c))))
    (of_Z (c + n - 1)).

(** The fields of an [OnlineStats] have the shape it was built for. *)
Definition stats_shaped (s : OnlineStats.t) : Prop :=
  OnlineStats.shape s <> []
  /\ np.size (OnlineStats.shape s) <> 0
  /\ np.shape (OnlineStats.mean s) = OnlineStats.shape s
  /\ np.shape (OnlineStats.var s) = OnlineStats.shape s.

(** A batch of [n] data points of the shape of [s]. *)
Definition batch_for (s : OnlineStats.t) (data : np.ndarray) : Prop :=
  np.shape data = frames_of data :: OnlineStats.shape s.

(** The rows and columns two slices select in the frames of a batch of
    shape [(N, H, W, C)]: first row and number of rows, first column and
    number of columns. *)
Definition region (b : np.ndarray) (r : (Z * Z) * (Z * Z))
  : (nat * nat) * (nat * nat) :=
  (slice_indices (fst (fst r)) (snd (fst r)) (nth 1 (np.shape b) 0),
   slice_indices (fst (snd r)) (snd (snd r)) (nth 2 (np.shape b) 0)).

Definition region_rows (b : np.ndarray) (r : (Z * Z) * (Z * Z)) : nat :=
  snd (fst (region b r)).

Definition region_cols (b : np.ndarray) (r : (Z * Z) * (Z * Z)) : nat :=
  snd (snd (region b r)).

(** The element of a batch of shape [(N, H, W, C)] at frame [f], at row
    [i] and column [j] of the region, in channel [k]. *)
Definition region_item (b : np.ndarray) (r : (Z * Z) * (Z * Z))
  (f i j k : nat) : num :=
  at_ b [f; fst (fst (region b r)) + i; fst (snd (region b r)) + j; k].

(** The capture of one region: frame by frame, the pixels of the region
    row by row, each with its channels. *)
Definition box_capture (b : np.ndarray) (r : (Z * Z) * (Z * Z)) : np.ndarray :=
  np.mkarr [frames_of b; region_rows b r * region_cols b r;
            nth 3 (np.shape b) 0]
    (flat_map
       (fun f =>
          flat_map
            (fun i =>
               flat_map
                 (fun j => map (region_item b r f i j)
                               (seq 0 (nth 3 (np.shape b) 0)))
                 (seq 0 (region_cols b r)))
            (seq 0 (region_rows b r)))
       (seq 0 (frames_of b))).

(** Channel [k] of the pixels of a region in frame [f], row by row. *)
Definition box_values (b : np.ndarray) (r : (Z * Z) * (Z * Z)) (f k : nat)
  : list num :=
  map (fun i => region_item b r f (i / region_cols b r)
                            (i mod region_cols b r) k)
      (seq 0 (region_rows b r * region_cols b r)).

(** Number of indices the slice [x - off : x + off + 1] selects on an
    axis of length [len]. *)
Definition extent (x off : Z) (len : nat) : nat :=
  snd (slice_indices (x - off) (x + off + 1) len).

(** The frames of a list of calls: the leading dimensions of every
    batch, multiplied out and added up. *)
Definition frames_in (calls : list (Q * np.ndarray)) : Z :=
  fold_right (fun c acc => (leading_frames (snd c) + acc)%Z) 0%Z calls.

(** Calls the monitor can count, one after the other from the state
    [s]: every batch has at least three axes and is taken by
    [__process__] in the state the object is in when its call is made. *)
Fixpoint counted {S} `{Processor S} (calls : list (Q * np.ndarray)) (s : S)
  : Prop :=
  match calls with
  | [] => True
  | c :: rest =>
      3 <= np.ndim (snd c)
      /\ fst (__process__ (snd c) s) = Ok tt
      /\ counted rest (snd (__call__ (fst c) (snd c) s))
  end.

(** The same for a single frame of shape [(H, W, C)], with no leading
    dimension. *)
Definition frame_region (b : np.ndarray) (r : (Z * Z) * (Z * Z))
  : (nat * nat) * (nat * nat) :=
  (slice_indices (fst (fst r)) (snd (fst r)) (nth 0 (np.shape b) 0),
   slice_indices (fst (snd r)) (snd (snd r)) (nth 1 (np.shape b) 0)).

Definition frame_rows (b : np.ndarray) (r : (Z * Z) * (Z * Z)) : nat :=
  snd (fst (frame_region b r)).

Definition frame_cols (b : np.ndarray) (r : (Z * Z) * (Z * Z)) : nat :=
  snd (snd (frame_region b r)).

Definition frame_item (b : np.ndarray) (r : (Z * Z) * (Z * Z))
  (i j k : nat) : num :=
  at_ b [fst (fst (frame_region b r)) + i; fst (snd (frame_region b r)) + j; k].

Definition frame_capture (b : np.ndarray) (r : (Z * Z) * (Z * Z))
  : np.ndarray :=
  np.mkarr [frame_rows b r * frame_cols b r; nth 2 (np.shape b) 0]
    (flat_map
       (fun i =>
          flat_map
            (fun j => map (frame_item b r i j) (seq 0 (nth 2 (np.shape b) 0)))
            (seq 0 (frame_cols b r)))
       (seq 0 (frame_rows b r))).

Definition frame_values (b : np.ndarray) (r : (Z * Z) * (Z * Z)) (k : nat)
  : list num :=
  map (fun i => frame_item b r (i / frame_cols b r) (i mod frame_cols b r) k)
      (seq 0 (frame_rows b r * frame_cols b r)).

(** A single frame of [c] channels. *)
Definition single_frame (c : nat) (b : np.ndarray) : bool :=
  (length (np.shape b) =? 3) && (nth 2 (np.shape b) 0 =? c).

(** * Properties *)

(** ** What a method leaves alone *)

Section Frame.
Context {S X : Type} (f : S -> X).

Lemma preserves_ret {A} (a : A) : preserves f (ret a).
Proof. intro s; reflexivity. Qed.

Lemma preserves_lift {A} (r : res A) : preserves f (lift r).
Proof. intro s; reflexivity. Qed.

Lemma preserves_raise {A} (e : exn) : preserves f (@raise S A e).
Proof. intro s; reflexivity. Qed.

Lemma preserves_get : preserves f get.
Proof. intro s; reflexivity. Qed.

Lemma preserves_modify (g : S -> S) :
  (forall s, f (g s) = f s) -> preserves f (modify g).
Proof. intros Hg s; apply Hg. Qed.

Lemma preserves_bind {A B} (m : M S A) (k : A -> M S B) :
  preserves f m -> (forall a, preserves f (k a)) -> preserves f (bind m k).
Proof.
  intros Hm Hk s. unfold bind.
  specialize (Hm s). destruct (m s) as [[a | e] s']; simpl in *.
  - rewrite Hk. exact Hm.
  - exact Hm.
Qed.

Lemma preserves_if {A} (c : bool) (m1 m2 : M S A) :
  preserves f m1 -> preserves f m2 -> preserves f (if c then m1 else m2).
Proof. destruct c; auto. Qed.
End Frame.

Create HintDb frame.
#[export] Hint Resolve preserves_ret preserves_lift preserves_raise
  preserves_get preserves_modify preserves_bind preserves_if : frame.

Ltac frame_solve :=
  repeat first
    [ apply preserves_bind; [ | intro ]
    | apply preserves_if
    | apply preserves_get
    | apply preserves_ret
    | apply preserves_lift
    | apply preserves_raise
    | apply preserves_modify; intros []; reflexivity ].

#[export] Instance ProcessorBase_Laws : ProcessorLaws ProcessorBase.t.
Proof.
  split.
  - reflexivity.
  - intros frames s. reflexivity.
Qed.

#[export] Instance OnlineStats_Laws : ProcessorLaws OnlineStats.t.
Proof.
  split.
  - reflexivity.
  - intros frames. cbn [__process__ OnlineStats_Processor base].
    unfold OnlineStats.__process__. frame_solve.
Qed.

#[export] Instance PixelCatcher_Laws : ProcessorLaws PixelCatcher.t.
Proof.
  split.
  - reflexivity.
  - intros frames. cbn [__process__ PixelCatcher_Processor base].
    unfold PixelCatcher.__process__. frame_solve.
Qed.

#[export] Instance BoxCatcher_Laws : ProcessorLaws BoxCatcher.t.
Proof.
  split.
  - reflexivity.
  - intros frames. cbn [__process__ BoxCatcher_Processor base].
    unfold BoxCatcher.__process__. frame_solve.
Qed.

(** ** Calls without monitoring *)

Section Unmonitored.
Context {S : Type} `{ProcessorLaws S}.

Lemma call_unmonitored (now : Q) (frames : np.ndarray) (s : S) :
  ProcessorBase.monitor (base s) = false ->
  __call__ now frames s = __process__ frames s.
Proof.
  intros Hm. unfold __call__, bind, get.
  pose proof (process_base frames s) as Hb.
  destruct (__process__ frames s) as [[[] | e] s']; simpl in *.
  - rewrite Hb, Hm. reflexivity.
  - reflexivity.
Qed.

Lemma run_unmonitored (calls : list (Q * np.ndarray)) (s : S) :
  ProcessorBase.monitor (base s) = false ->
  base (run calls s) = base s.
Proof.
  revert s. induction calls as [| [now frames] calls IH]; intros s Hm.
  - reflexivity.
  - cbn [run fold_left fst snd].
    rewrite call_unmonitored by exact Hm.
    change (base (run calls (snd (__process__ frames s))) = base s).
    rewrite IH; rewrite (process_base frames s); auto.
Qed.
End Unmonitored.

(** C10 -- a processor built with [monitor=False]: however many batches
    it is called on, a call is exactly the kind-specific [__process__],
    the fields of the base class ([total_frames], [runtime],
    [frames_since_last_call], the window [deltas], ...) stay as the
    constructor left them, so [total_frames] and [runtime] are still 0 and
    [get_fps()] raises [ZeroDivisionError]. *)
Theorem C10_unmonitored_never_measures :
  forall (S : Type) `{ProcessorLaws S} (clock : Q) (qlen : nat)
         (calls : list (Q * np.ndarray)) (s : S),
    base s = ProcessorBase.__init__ clock false qlen ->
    (forall now frames,
        __call__ now frames (run calls s) = __process__ frames (run calls s))
    /\ base (run calls s) = base s
    /\ ProcessorBase.total_frames (base (run calls s)) = PyInt 0
    /\ ProcessorBase.runtime (base (run calls s)) = 0%Q
    /\ ProcessorBase.frames_since_last_call (base (run calls s)) = PyInt 0
    /\ ProcessorBase.deltas (base (run calls s)) = []
    /\ get_fps (run calls s) = Raise ZeroDivisionError.
Proof.
  intros S P L clock qlen calls s Hinit.
  assert (Hm : ProcessorBase.monitor (base s) = false)
    by (rewrite Hinit; reflexivity).
  pose proof (run_unmonitored calls s Hm) as Hrun.
  split.
  - intros now frames. apply call_unmonitored. rewrite Hrun. exact Hm.
  - unfold get_fps. rewrite Hrun, Hinit. repeat split.
Qed.

Lemma C10_witness :
  let s := OnlineStats.__init__ 7 [1] false in
  let calls := [(8%Q, ints [2; 1] [1; 3]%Z); (9%Q, ints [1; 1] [5]%Z)] in
  base s = ProcessorBase.__init__ 7 false 10
  /\ OnlineStats.count (run calls s) = 3%Z
  /\ get_fps (run calls s) = Raise ZeroDivisionError.
Proof.
  intros s calls.
  split; [reflexivity | split; [reflexivity | ]].
  apply (C10_unmonitored_never_measures OnlineStats.t 7 10 calls s).
  reflexivity.
Defined.

(** ** The lifetime rate *)

Lemma fdiv_finite (a b : Q) :
  ~ (b == 0)%Q -> fdiv (Fin a) (Fin b) = fin (a / b).
Proof.
  intros Hb. unfold fdiv.
  destruct (Qeq_bool b 0) eqn:E; [ | reflexivity].
  apply Qeq_bool_eq in E. contradiction.
Qed.

(** C9 (as amended) -- [get_fps()] returns [total_frames / runtime]
    whenever [runtime] is not 0.  When [runtime] is 0 it raises
    [ZeroDivisionError] as long as [total_frames] is a Python integer; once
    a monitored batch with leading dimensions has made [total_frames] a
    NumPy integer, the division by 0 raises nothing and returns [inf],
    [-inf] or [nan]. *)
Theorem C9_get_fps_lifetime_rate :
  forall self : ProcessorBase.t,
    (~ (ProcessorBase.runtime self == 0)%Q ->
     ProcessorBase.get_fps self
     = Ok (fin (inject_Z (int_val (ProcessorBase.total_frames self))
                / ProcessorBase.runtime self)))
    /\ ((ProcessorBase.runtime self == 0)%Q ->
        forall z, ProcessorBase.total_frames self = PyInt z ->
                  ProcessorBase.get_fps self = Raise ZeroDivisionError)
    /\ ((ProcessorBase.runtime self == 0)%Q ->
        forall z, ProcessorBase.total_frames self = NpInt z ->
                  ProcessorBase.get_fps self
                  = Ok match (z ?= 0)%Z with
                       | Eq => NaN
                       | Gt => PInf
                       | Lt => NInf
                       end).
Proof.
  intros self. unfold ProcessorBase.get_fps, truediv.
  repeat split.
  - intros Hr. destruct (ProcessorBase.total_frames self) as [z | z]; cbn [int_val].
    + destruct (Qeq_bool (ProcessorBase.runtime self) 0) eqn:E; [ | reflexivity].
      apply Qeq_bool_eq in E. contradiction.
    + unfold of_Z. rewrite fdiv_finite by exact Hr. reflexivity.
  - intros Hr z Hz. rewrite Hz.
    apply Qeq_eq_bool in Hr. rewrite Hr. reflexivity.
  - intros Hr z Hz. rewrite Hz. unfold of_Z, fdiv.
    apply Qeq_eq_bool in Hr. rewrite Hr.
    unfold Qcompare, inject_Z; cbn [Qnum Qden].
    rewrite !Z.mul_1_r. reflexivity.
Qed.

Lemma C9_witness :
  let idle := ProcessorBase.__init__ 5 true 10 in
  let busy := snd (__call__ 7 (ints [1; 1; 3] [1; 2; 3]%Z) idle) in
  ProcessorBase.get_fps idle = Raise ZeroDivisionError
  /\ ProcessorBase.get_fps busy = Ok (Fin (1 # 2)).
Proof.
  intros idle busy. split.
  - apply (proj1 (proj2 (C9_get_fps_lifetime_rate idle)) (Qeq_refl 0) 0%Z).
    reflexivity.
  - refine (eq_trans (proj1 (C9_get_fps_lifetime_rate busy) _) _).
    + vm_compute. discriminate.
    + reflexivity.
Defined.

(** C9 (as stated) fails: a monitored call on a batch of two frames whose
    clock reading equals the constructor's leaves [runtime] at 0 and
    [total_frames] a NumPy integer, and [get_fps()] then returns [inf]. *)
Lemma C9_counterexample :
  let frames := ints [2; 1; 1; 3] [1; 2; 3; 4; 5; 6]%Z in
  let self := snd (__call__ 5 frames (ProcessorBase.__init__ 5 true 10)) in
  ProcessorBase.runtime self = 0%Q
  /\ ProcessorBase.total_frames self = NpInt 2
  /\ ProcessorBase.get_fps self = Ok PInf.
Proof. repeat split. Qed.

(** ** Online statistics: what the update computes *)

(** C1 -- evaluation of the update where the claim breaks.  A first
    update of a single frame divides the sum of squares 0 by
    [count - 1 = 0] and stores [nan], not 0; and after the frames 1, 1
    and then 3 the stored variance is 4/3, while the population variance
    of the three frames is 8/9. *)
Theorem C1_variance_is_not_population_variance :
  feed [ints [1; 1] [5]%Z] (OnlineStats.__init__ 0 [1] false)
  = (Ok tt,
     {| OnlineStats.super := ProcessorBase.__init__ 0 false 10;
        OnlineStats.shape := [1];
        OnlineStats.mean := np.mkarr [1] [Fin 5];
        OnlineStats.var := np.mkarr [1] [NaN];
        OnlineStats.count := 1 |})
  /\ feed [ints [2; 1] [1; 1]%Z; ints [1; 1] [3]%Z]
          (OnlineStats.__init__ 0 [1] false)
     = (Ok tt,
        {| OnlineStats.super := ProcessorBase.__init__ 0 false 10;
           OnlineStats.shape := [1];
           OnlineStats.mean := np.mkarr [1] [Fin (5 # 3)];
           OnlineStats.var := np.mkarr [1] [Fin (4 # 3)];
           OnlineStats.count := 3 |})
  /\ np.var_of [Fin 1; Fin 1; Fin 3] = Fin (8 # 9).
Proof. repeat split. Qed.

(** C2 -- evaluation of the update where the claim breaks.  The frames
    1, 3, 1, 3 have mean 2 and population variance 1.  Fed as one batch
    the stored variance is 1; fed as two batches of two frames it is 2/3;
    fed as four batches of one frame it is [nan]. *)
Theorem C2_result_depends_on_chunking :
  let fresh := OnlineStats.__init__ 0 [1] false in
  let stats r := (OnlineStats.mean (snd r), OnlineStats.var (snd r),
                  OnlineStats.count (snd r), fst r) in
  np.var_of [Fin 1; Fin 3; Fin 1; Fin 3] = Fin 1
  /\ stats (feed [ints [4; 1] [1; 3; 1; 3]%Z] fresh)
     = (np.mkarr [1] [Fin 2], np.mkarr [1] [Fin 1], 4%Z, Ok tt)
  /\ stats (feed [ints [2; 1] [1; 3]%Z; ints [2; 1] [1; 3]%Z] fresh)
     = (np.mkarr [1] [Fin 2], np.mkarr [1] [Fin (2 # 3)], 4%Z, Ok tt)
  /\ stats (feed [ints [1; 1] [1]%Z; ints [1; 1] [3]%Z;
                  ints [1; 1] [1]%Z; ints [1; 1] [3]%Z] fresh)
     = (np.mkarr [1] [Fin 2], np.mkarr [1] [NaN], 4%Z, Ok tt).
Proof. repeat split. Qed.

(** C3 -- evaluation of the update where the claim breaks.  The
    reshaped batch is thrown away, so the count grows by the first
    dimension of the batch as it came: by 2 for a batch of leading shape
    (2, 3), whose product is 6, and by 2 for a single frame of shape (2,)
    with no leading dimension. *)
Theorem C3_count_grows_by_first_dimension :
  let stats r := (OnlineStats.count (snd r), np.shape (OnlineStats.mean (snd r)),
                  fst r) in
  stats (feed [ints [2; 3; 1] [1; 2; 3; 4; 5; 6]%Z]
              (OnlineStats.__init__ 0 [1] false))
  = (2%Z, [3; 1], Ok tt)
  /\ stats (feed [ints [2] [1; 2]%Z] (OnlineStats.__init__ 0 [2] false))
     = (2%Z, [2], Ok tt).
Proof. repeat split. Qed.

(** ** Failure leaves the object as it was *)

Section Atomic.
Context {S : Type}.

Lemma readonly_get : readonly (@get S).
Proof. intro s; reflexivity. Qed.

Lemma readonly_lift {A} (r : res A) : readonly (@lift S A r).
Proof. intro s; reflexivity. Qed.

Lemma readonly_raise {A} (e : exn) : readonly (@raise S A e).
Proof. intro s; reflexivity. Qed.

Lemma readonly_bind {A B} (m : M S A) (k : A -> M S B) :
  readonly m -> (forall a, readonly (k a)) -> readonly (bind m k).
Proof.
  intros Hm Hk s. unfold bind. specialize (Hm s).
  destruct (m s) as [[a | e] s']; simpl in *; subst; [apply Hk | reflexivity].
Qed.

Lemma total_modify (g : S -> S) : total (modify g).
Proof. intro s; exists tt; reflexivity. Qed.

Lemma total_bind {A B} (m : M S A) (k : A -> M S B) :
  total m -> (forall a, total (k a)) -> total (bind m k).
Proof.
  intros Hm Hk s. unfold bind. destruct (Hm s) as [a Ha].
  destruct (m s) as [[a' | e] s']; simpl in *; [apply Hk | discriminate].
Qed.

Lemma atomic_total {A} (m : M S A) : total m -> atomic m.
Proof. intros Hm s e He. destruct (Hm s) as [a Ha]. congruence. Qed.

Lemma atomic_readonly {A} (m : M S A) : readonly m -> atomic m.
Proof. intros Hm s e _. apply Hm. Qed.

Lemma atomic_bind {A B} (m : M S A) (k : A -> M S B) :
  readonly m -> (forall a, atomic (k a)) -> atomic (bind m k).
Proof.
  intros Hm Hk s e. unfold bind. specialize (Hm s).
  destruct (m s) as [[a | e'] s']; simpl in *; subst;
    [apply Hk | reflexivity].
Qed.

Lemma atomic_if {A} (c : bool) (m1 m2 : M S A) :
  atomic m1 -> atomic m2 -> atomic (if c then m1 else m2).
Proof. destruct c; auto. Qed.
End Atomic.

Ltac atomic_solve :=
  repeat first
    [ apply atomic_if
    | apply atomic_bind;
      [ first [apply readonly_get | apply readonly_lift | apply readonly_raise]
      | intro ]
    | apply atomic_readonly; apply readonly_raise
    | apply atomic_total;
      repeat first [ apply total_modify | apply total_bind; [ | intro ] ] ].

Lemma OnlineStats_process_atomic (data : np.ndarray) :
  atomic (OnlineStats.__process__ data).
Proof. unfold OnlineStats.__process__. atomic_solve. Qed.

Lemma PixelCatcher_process_atomic (frames : np.ndarray) :
  atomic (PixelCatcher.__process__ frames).
Proof. unfold PixelCatcher.__process__. atomic_solve. Qed.

Lemma BoxCatcher_process_atomic (frames : np.ndarray) :
  atomic (BoxCatcher.__process__ frames).
Proof. unfold BoxCatcher.__process__. atomic_solve. Qed.

(** ** Geometry checks *)

Lemma norm_index_in (i : Z) (n : nat) :
  in_axis i n = true -> norm_index i n = Ok (Z.to_nat (wrap_index i n)).
Proof.
  unfold in_axis, norm_index, wrap_index. intros Hin.
  apply andb_true_iff in Hin. destruct Hin as [Hlo Hhi].
  apply Z.leb_le in Hlo. apply Z.ltb_lt in Hhi.
  destruct (i <? 0)%Z eqn:Hneg.
  - apply Z.ltb_lt in Hneg.
    replace ((0 <=? i + Z.of_nat n) && (i + Z.of_nat n <? Z.of_nat n))%Z
      with true; [reflexivity | ].
    symmetry. apply andb_true_iff. split; [apply Z.leb_le | apply Z.ltb_lt]; lia.
  - apply Z.ltb_ge in Hneg.
    replace ((0 <=? i) && (i <? Z.of_nat n))%Z with true; [reflexivity | ].
    symmetry. apply andb_true_iff. split; [apply Z.leb_le | apply Z.ltb_lt]; lia.
Qed.





(** ** Flat buffers: blocks of equal length *)

Lemma nth_flat_map_block {A B} (f : A -> list B) (l : list A) (m p k : nat)
  (d : B) (dx : A) :
  (forall x, In x l -> length (f x) = m) ->
  p < length l -> k < m ->
  nth (p * m + k) (flat_map f l) d = nth k (f (nth p l dx)) d.
Proof.
  revert p. induction l as [| a l IH]; intros p Hlen Hp Hk.
  - cbn in Hp. lia.
  - cbn [flat_map]. destruct p as [| p].
    + cbn [nth Nat.mul Nat.add]. apply app_nth1.
      rewrite Hlen by (left; reflexivity). exact Hk.
    + rewrite app_nth2; rewrite (Hlen a) by (left; reflexivity); [ | lia].
      replace (S p * m + k - m) with (p * m + k) by lia.
      cbn [nth]. apply IH.
      * intros x Hx. apply Hlen. right. exact Hx.
      * cbn in Hp. lia.
      * exact Hk.
Qed.

Lemma flat_map_ext_in {A B} (f g : A -> list B) (l : list A) :
  (forall x, In x l -> f x = g x) -> flat_map f l = flat_map g l.
Proof.
  induction l as [| a l IH]; intros Hfg.
  - reflexivity.
  - cbn [flat_map]. rewrite Hfg by (left; reflexivity).
    rewrite IH by (intros x Hx; apply Hfg; right; exact Hx). reflexivity.
Qed.

Lemma nth_seq_block {B} (f : nat -> list B) (n m p k : nat) (d : B) :
  (forall x, length (f x) = m) ->
  p < n -> k < m ->
  nth (p * m + k) (flat_map f (seq 0 n)) d = nth k (f p) d.
Proof.
  intros Hlen Hp Hk.
  rewrite (nth_flat_map_block f (seq 0 n) m p k d 0).
  - rewrite seq_nth by exact Hp. reflexivity.
  - intros x _. apply Hlen.
  - rewrite length_seq. exact Hp.
  - exact Hk.
Qed.

Lemma nth_map_seq {B} (f : nat -> B) (n k : nat) (d : B) :
  k < n -> nth k (map f (seq 0 n)) d = f k.
Proof.
  intros Hk. rewrite (nth_indep _ d (f 0)) by (rewrite length_map, length_seq; exact Hk).
  rewrite map_nth, seq_nth by exact Hk. reflexivity.
Qed.

Lemma map_nth_seq {B} (l : list B) (d : B) :
  map (fun j => nth j l d) (seq 0 (length l)) = l.
Proof.
  induction l as [| a l IH].
  - reflexivity.
  - cbn [length seq map nth]. f_equal.
    rewrite <- seq_shift, map_map. exact IH.
Qed.

Lemma nth_concat_offset {B} (ls : list (list B)) (k i : nat) (x : list B)
  (d : B) :
  nth_error ls k = Some x -> i < length x ->
  nth (length (concat (firstn k ls)) + i) (concat ls) d = nth i x d.
Proof.
  revert k. induction ls as [| y ls IH]; intros k Hk Hi.
  - destruct k; discriminate.
  - destruct k as [| k].
    + cbn in Hk. injection Hk as ->. cbn. apply app_nth1. exact Hi.
    + cbn in Hk. cbn [firstn concat]. rewrite length_app.
      rewrite app_nth2 by lia.
      replace (length y + length (concat (firstn k ls)) + i - length y)
        with (length (concat (firstn k ls)) + i) by lia.
      apply IH; assumption.
Qed.

(** ** What [PixelCatcher] logs *)

Lemma rmap_ok {A B} (f : A -> res B) (g : A -> B) (l : list A) :
  (forall x, In x l -> f x = Ok (g x)) -> rmap f l = Ok (map g l).
Proof.
  induction l as [| a l IH]; intros Hf.
  - reflexivity.
  - cbn [rmap map]. rewrite Hf by (left; reflexivity). cbn [rbind].
    rewrite IH by (intros x Hx; apply Hf; right; exact Hx). reflexivity.
Qed.

Lemma index_pixel_inside (b : np.ndarray) (n h w c : nat) (loc : Z * Z) :
  np.shape b = [n; h; w; c] ->
  in_frame b loc = true ->
  np.index_pixel b (fst loc) (snd loc) = Ok (pixel_column b loc).
Proof.
  intros Hsh Hin. unfold in_frame in Hin. rewrite Hsh in Hin.
  apply andb_true_iff in Hin. destruct Hin as [Hr Hc].
  unfold np.index_pixel, pixel_column, frames_of. rewrite Hsh.
  rewrite (norm_index_in _ _ Hr), (norm_index_in _ _ Hc).
  cbn [rbind hd nth np.size fold_right]. rewrite Nat.mul_1_r.
  do 2 f_equal. apply flat_map_ext. intros fr. apply map_ext. intros k.
  unfold pixel_of, at_, ravel. rewrite Hsh.
  cbn [combine fold_left fst snd]. rewrite Nat.mul_0_l, Nat.add_0_l.
  reflexivity.
Qed.

Lemma pixel_column_item (b : np.ndarray) (loc : Z * Z) (n k : nat) :
  n < frames_of b -> k < nth 3 (np.shape b) 0 ->
  np.item (pixel_column b loc) (n * (1 * nth 3 (np.shape b) 0) + k)
  = pixel_of b n loc k.
Proof.
  intros Hn Hk. unfold np.item, pixel_column. cbn [np.data].
  rewrite Nat.mul_1_l.
  rewrite nth_seq_block; [ | intros x; rewrite length_map, length_seq; reflexivity
                          | exact Hn | exact Hk].
  apply nth_map_seq. exact Hk.
Qed.

Lemma concatenate_checked (arrs : list np.ndarray) (ax : nat) (a0 : np.ndarray) :
  hd_error arrs = Some a0 ->
  ax < np.ndim a0 ->
  (forall a, In a arrs -> np.ndim a = np.ndim a0) ->
  (forall a, In a arrs -> np.same_except ax (np.shape a0) (np.shape a) = true) ->
  np.concatenate arrs ax = Ok (joined arrs ax a0).
Proof.
  intros Hhd Hax Hnd Hsame.
  destruct arrs as [| a arrs']; [discriminate | ].
  cbn in Hhd. injection Hhd as ->.
  unfold np.concatenate.
  destruct (np.ndim a0 =? 0) eqn:E0; [apply Nat.eqb_eq in E0; lia | ].
  rewrite (proj2 (forallb_forall _ _))
    by (intros x Hx; apply Nat.eqb_eq; apply Hnd; exact Hx).
  cbn [negb].
  destruct (np.ndim a0 <=? ax) eqn:E1; [apply Nat.leb_le in E1; lia | ].
  rewrite (proj2 (forallb_forall _ _)) by exact Hsame.
  reflexivity.
Qed.

Lemma same_except_refl (ax : nat) (s : list nat) :
  np.same_except ax s s = true.
Proof.
  unfold np.same_except, np.shape_eqb.
  destruct (list_eq_dec Nat.eq_dec (firstn ax s) (firstn ax s)); [ | congruence].
  destruct (list_eq_dec Nat.eq_dec (skipn (S ax) s) (skipn (S ax) s));
    [ | congruence].
  rewrite Nat.eqb_refl. reflexivity.
Qed.

Lemma concatenate_pixel_columns (b : np.ndarray) (pixels : list (Z * Z)) :
  pixels <> [] ->
  np.concatenate (map (pixel_column b) pixels) 1 = Ok (capture pixels b).
Proof.
  intros Hne.
  rewrite (concatenate_checked _ 1 (pixel_column b (hd (0, 0)%Z pixels))).
  - unfold joined, capture.
    cbn [pixel_column np.shape firstn skipn app np.size fold_right].
    set (c := nth 3 (np.shape b) 0). do 2 f_equal.
    + do 2 f_equal. rewrite map_map. cbn [pixel_column np.shape nth].
      clear. induction pixels as [| x l IH]; [reflexivity | ].
      simpl. f_equal. exact IH.
    + rewrite !Nat.mul_1_r. apply flat_map_ext_in. intros n Hn. apply in_seq in Hn.
      rewrite flat_map_concat_map, map_map, <- flat_map_concat_map.
      apply flat_map_ext. intros loc.
      cbn [pixel_column np.shape nth]. fold c. rewrite Nat.mul_1_l.
      apply map_ext_in. intros k Hk. apply in_seq in Hk.
      rewrite <- (Nat.mul_1_l c) at 1.
      apply pixel_column_item; [lia | fold c; lia].
  - destruct pixels; [congruence | reflexivity].
  - cbn. lia.
  - intros a Ha. apply in_map_iff in Ha. destruct Ha as [loc [<- _]]. reflexivity.
  - intros a Ha. apply in_map_iff in Ha. destruct Ha as [loc [<- _]].
    apply same_except_refl.
Qed.

Lemma PixelCatcher_process_capture (self : PixelCatcher.t) (b : np.ndarray) :
  length (np.shape b) = 4 ->
  forallb (in_frame b) (PixelCatcher.pixels self) = true ->
  PixelCatcher.pixels self <> [] ->
  PixelCatcher.__process__ b self
  = (Ok tt,
     PixelCatcher.set_values
       (PixelCatcher.values self ++ [capture (PixelCatcher.pixels self) b])
       self).
Proof.
  intros Hrank Hin Hne.
  destruct (np.shape b) as [| n [| h [| w [| c [| ? ?]]]]] eqn:Hsh;
    try discriminate Hrank.
  unfold PixelCatcher.__process__, bind, get, lift, modify.
  rewrite (rmap_ok _ (pixel_column b)).
  - rewrite concatenate_pixel_columns by exact Hne. reflexivity.
  - intros loc Hloc. apply (index_pixel_inside b n h w c); [exact Hsh | ].
    rewrite forallb_forall in Hin. apply Hin. exact Hloc.
Qed.

Lemma feed_captures (batches : list np.ndarray) (self : PixelCatcher.t) :
  PixelCatcher.pixels self <> [] ->
  forallb (samples (PixelCatcher.pixels self)) batches = true ->
  feed batches self
  = (Ok tt,
     PixelCatcher.set_values
       (PixelCatcher.values self
        ++ map (capture (PixelCatcher.pixels self)) batches)
       self).
Proof.
  intros Hne. revert self Hne.
  induction batches as [| b rest IH]; intros self Hne Hall.
  - cbn [feed map]. rewrite app_nil_r. destruct self; reflexivity.
  - cbn [forallb] in Hall. apply andb_true_iff in Hall.
    destruct Hall as [Hb Hrest]. unfold samples in Hb.
    apply andb_true_iff in Hb. destruct Hb as [Hrank Hin].
    apply Nat.eqb_eq in Hrank.
    cbn [feed]. unfold bind at 1.
    cbn [__process__ PixelCatcher_Processor].
    rewrite PixelCatcher_process_capture by assumption.
    rewrite IH by assumption.
    cbn [PixelCatcher.set_values PixelCatcher.values PixelCatcher.pixels
         PixelCatcher.super map].
    rewrite <- app_assoc. reflexivity.
Qed.

(** ** What [PixelCatcher.extract] returns *)

Lemma capture_length (pixels : list (Z * Z)) (b : np.ndarray) :
  length (np.data (capture pixels b))
  = frames_of b * (length pixels * nth 3 (np.shape b) 0).
Proof.
  unfold capture. cbn [np.data].
  rewrite flat_map_constant_length
    with (c := length pixels * nth 3 (np.shape b) 0).
  - rewrite length_seq. reflexivity.
  - intros n _. apply flat_map_constant_length.
    intros loc _. rewrite length_map, length_seq. reflexivity.
Qed.

Lemma joined_axis0 (arrs : list np.ndarray) (a0 : np.ndarray) (tail : list nat) :
  (forall a, In a arrs ->
             np.shape a = frames_of a :: tail
             /\ length (np.data a) = frames_of a * np.size tail) ->
  np.shape a0 = frames_of a0 :: tail ->
  joined arrs 0 a0
  = np.mkarr (list_sum (map frames_of arrs) :: tail) (flat_map np.data arrs).
Proof.
  intros Harrs Ha0. unfold joined. rewrite Ha0.
  cbn [firstn skipn app np.size fold_right seq flat_map].
  rewrite app_nil_r. f_equal.
  - f_equal. f_equal. apply map_ext_in. intros a Ha.
    destruct (Harrs a Ha) as [Hsh _]. rewrite Hsh. reflexivity.
  - apply flat_map_ext_in. intros a Ha.
    destruct (Harrs a Ha) as [Hsh Hlen]. rewrite Hsh. cbn [nth].
    change (fold_right Nat.mul 1 tail) with (np.size tail).
    rewrite <- Hlen. cbn [Nat.mul Nat.add]. apply map_nth_seq.
Qed.

Lemma reshape_frames (v : np.ndarray) (T P : nat) :
  np.shape v = [T; P; 3] -> P <> 0 ->
  np.reshape v [-1; Z.of_nat P; 3]%Z = Ok v.
Proof.
  intros Hsh HP.
  assert (E1 : (Z.of_nat P <? -1)%Z = false) by (apply Z.ltb_ge; lia).
  assert (E2 : (Z.of_nat P =? -1)%Z = false) by (apply Z.eqb_neq; lia).
  assert (Hneg : existsb (fun d => (d <? -1)%Z) [-1; Z.of_nat P; 3]%Z = false).
  { cbn [existsb]. rewrite E1. reflexivity. }
  assert (Hone : np.count_unknown [-1; Z.of_nat P; 3]%Z = 1).
  { unfold np.count_unknown. cbn [filter]. rewrite E2. reflexivity. }
  assert (Hknown : np.known_size [-1; Z.of_nat P; 3]%Z = (Z.of_nat P * 3)%Z).
  { unfold np.known_size. cbn [fold_right]. rewrite E2. reflexivity. }
  assert (Hsize : Z.of_nat (np.size (np.shape v)) = (Z.of_nat T * (Z.of_nat P * 3))%Z).
  { rewrite Hsh. change (np.size [T; P; 3]) with (T * (P * (3 * 1))). lia. }
  assert (Hk : (Z.of_nat P * 3)%Z <> 0%Z) by lia.
  unfold np.reshape. cbv zeta. rewrite Hneg, Hone, Hknown, Hsize.
  rewrite Z.mod_mul by exact Hk. rewrite Z.div_mul by exact Hk.
  destruct (Z.of_nat P * 3 =? 0)%Z eqn:E3;
    [apply Z.eqb_eq in E3; contradiction | ].
  cbn [orb negb Z.eqb Pos.eqb map]. rewrite E2. rewrite !Nat2Z.id.
  destruct v as [sh d]. cbn in Hsh. subst sh. reflexivity.
Qed.

Lemma capture_item (pixels : list (Z * Z)) (b : np.ndarray) (n p ch : nat) :
  n < frames_of b -> p < length pixels -> ch < nth 3 (np.shape b) 0 ->
  nth (n * (length pixels * nth 3 (np.shape b) 0)
       + (p * nth 3 (np.shape b) 0 + ch))
      (np.data (capture pixels b)) NaN
  = pixel_of b n (nth p pixels (0, 0)%Z) ch.
Proof.
  intros Hn Hp Hch. unfold capture. cbn [np.data].
  set (c := nth 3 (np.shape b) 0) in *.
  assert (Hrow : forall loc : Z * Z,
             length (map (pixel_of b n loc) (seq 0 c)) = c)
    by (intros loc; rewrite length_map, length_seq; reflexivity).
  rewrite nth_seq_block.
  - rewrite (nth_flat_map_block _ pixels c p ch NaN (0, 0)%Z);
      [ | intros loc _; apply Hrow | exact Hp | exact Hch].
    apply nth_map_seq. exact Hch.
  - intros x. apply flat_map_constant_length.
    intros loc _. rewrite length_map, length_seq. reflexivity.
  - exact Hn.
  - nia.
Qed.

Lemma captures_length_before (pixels : list (Z * Z))
  (batches : list np.ndarray) (k : nat) :
  forallb rgb batches = true ->
  length (concat (firstn k (map (fun b => np.data (capture pixels b)) batches)))
  = offset batches k * (length pixels * 3).
Proof.
  unfold offset. revert k.
  induction batches as [| b rest IH]; intros k Hrgb.
  - destruct k; reflexivity.
  - destruct k as [| k]; [reflexivity | ].
    cbn [forallb] in Hrgb. apply andb_true_iff in Hrgb.
    destruct Hrgb as [Hb Hrest]. apply Nat.eqb_eq in Hb.
    cbn [map firstn concat]. rewrite length_app, capture_length, Hb.
    rewrite IH by exact Hrest.
    change (list_sum (frames_of b :: map frames_of (firstn k rest)))
      with (frames_of b + list_sum (map frames_of (firstn k rest))).
    lia.
Qed.

Lemma extract_captures (self : PixelCatcher.t) (batches : list np.ndarray) :
  PixelCatcher.pixels self <> [] ->
  batches <> [] ->
  forallb rgb batches = true ->
  PixelCatcher.values self = map (capture (PixelCatcher.pixels self)) batches ->
  PixelCatcher.extract self
  = (Ok (np.mkarr [list_sum (map frames_of batches);
                   length (PixelCatcher.pixels self); 3]
           (concat (map (fun b => np.data (capture (PixelCatcher.pixels self) b))
                        batches))),
     self).
Proof.
  intros Hpix Hne Hrgb Hvals.
  set (pixels := PixelCatcher.pixels self) in *.
  assert (HP : length pixels <> 0) by (destruct pixels; [congruence | discriminate]).
  assert (Hcap : forall a, In a (map (capture pixels) batches) ->
             np.shape a = frames_of a :: [length pixels; 3]
             /\ length (np.data a) = frames_of a * np.size [length pixels; 3]).
  { intros a Ha. apply in_map_iff in Ha. destruct Ha as [b [<- Hb]].
    rewrite forallb_forall in Hrgb. specialize (Hrgb b Hb).
    apply Nat.eqb_eq in Hrgb. split.
    - unfold capture, frames_of at 2. cbn [np.shape hd]. rewrite Hrgb. reflexivity.
    - rewrite capture_length, Hrgb. unfold capture, frames_of at 2.
      cbn [np.shape hd np.size fold_right]. lia. }
  destruct batches as [| b0 rest] eqn:Hbatches; [congruence | ].
  rewrite <- Hbatches in *.
  unfold PixelCatcher.extract, bind, get, lift. rewrite Hvals.
  rewrite (concatenate_checked _ 0 (capture pixels b0)).
  - rewrite (joined_axis0 _ _ [length pixels; 3]).
    + fold pixels. rewrite reshape_frames with (T := list_sum (map frames_of (map (capture pixels) batches))).
      * rewrite !map_map, flat_map_concat_map, map_map.
        reflexivity.
      * reflexivity.
      * exact HP.
    + exact Hcap.
    + apply Hcap. rewrite Hbatches. left. reflexivity.
  - rewrite Hbatches. reflexivity.
  - cbn. lia.
  - intros a Ha. unfold np.ndim.
    rewrite (proj1 (Hcap a Ha)). reflexivity.
  - intros a Ha.
    assert (H0 : In (capture pixels b0) (map (capture pixels) batches))
      by (rewrite Hbatches; left; reflexivity).
    rewrite (proj1 (Hcap a Ha)), (proj1 (Hcap _ H0)).
    unfold np.same_except, np.shape_eqb. cbn [firstn skipn length].
    destruct (list_eq_dec Nat.eq_dec (@nil nat) []); [ | congruence].
    destruct (list_eq_dec Nat.eq_dec [length pixels; 3] [length pixels; 3]);
      [ | congruence].
    reflexivity.
Qed.

Lemma captures_item (pixels : list (Z * Z)) (batches : list np.ndarray)
  (k : nat) (b : np.ndarray) (n p ch : nat) :
  forallb rgb batches = true ->
  nth_error batches k = Some b ->
  n < frames_of b -> p < length pixels -> ch < 3 ->
  nth (((offset batches k + n) * length pixels + p) * 3 + ch)
      (concat (map (fun b => np.data (capture pixels b)) batches)) NaN
  = pixel_of b n (nth p pixels (0, 0)%Z) ch.
Proof.
  intros Hrgb Hk Hn Hp Hch.
  assert (Hb : rgb b = true).
  { rewrite forallb_forall in Hrgb. apply Hrgb.
    eapply nth_error_In. exact Hk. }
  apply Nat.eqb_eq in Hb.
  replace (((offset batches k + n) * length pixels + p) * 3 + ch)
    with (offset batches k * (length pixels * 3)
          + (n * (length pixels * 3) + (p * 3 + ch))) by lia.
  rewrite <- (captures_length_before pixels batches k Hrgb).
  rewrite (nth_concat_offset _ k _ (np.data (capture pixels b))).
  - rewrite <- Hb at 1 2. apply capture_item; [exact Hn | exact Hp | lia].
  - rewrite nth_error_map, Hk. reflexivity.
  - rewrite capture_length, Hb. nia.
Qed.

(** C5 (as amended) -- after K >= 1 updates of a [PixelCatcher] that has
    at least one pixel, with batches of shape (n_i, H_i, W_i, 3) that
    contain every pixel, [extract()] returns an array of shape
    (sum n_i, num_pixels, 3) whose value at frame [f], pixel [p] and
    channel [ch] is the value of the batch at [pixels[p]] in the frame of
    global index [f]; [extract()] leaves the log as it is, so a second
    call returns the same array. *)
Theorem C5_extract_returns_the_sampled_pixels :
  forall (self : PixelCatcher.t) (batches : list np.ndarray),
    PixelCatcher.values self = [] ->
    PixelCatcher.pixels self <> [] ->
    batches <> [] ->
    forallb (samples (PixelCatcher.pixels self)) batches = true ->
    forallb rgb batches = true ->
    exists (s : PixelCatcher.t) (v : np.ndarray),
      feed batches self = (Ok tt, s)
      /\ PixelCatcher.extract s = (Ok v, s)
      /\ (PixelCatcher.extract ;;; PixelCatcher.extract)%M s = (Ok v, s)
      /\ np.shape v = [list_sum (map frames_of batches);
                       length (PixelCatcher.pixels self); 3]
      /\ forall k b n p ch,
          nth_error batches k = Some b ->
          n < frames_of b ->
          p < length (PixelCatcher.pixels self) ->
          ch < 3 ->
          at_ v [offset batches k + n; p; ch]
          = pixel_of b n (nth p (PixelCatcher.pixels self) (0, 0)%Z) ch.
Proof.
  intros self batches Hfresh Hpix Hne Hfit Hrgb.
  set (pixels := PixelCatcher.pixels self) in *.
  set (s := PixelCatcher.set_values (map (capture pixels) batches) self).
  assert (Hextract := extract_captures s batches Hpix Hne Hrgb eq_refl).
  exists s. eexists.
  split; [ | split; [exact Hextract | split; [ | split]]].
  - rewrite feed_captures by assumption. rewrite Hfresh. reflexivity.
  - unfold bind. rewrite Hextract. exact Hextract.
  - reflexivity.
  - intros k b n p ch Hk Hn Hp Hch.
    unfold at_, ravel, np.item.
    cbn [np.shape np.data combine fold_left fst snd PixelCatcher.pixels s
         PixelCatcher.set_values].
    fold pixels. rewrite Nat.mul_0_l, Nat.add_0_l.
    apply captures_item; assumption.
Qed.

Lemma C5_witness :
  let self := PixelCatcher.__init__ 0 [(0, 0); (-1, 1)]%Z false in
  let b1 := ints [2; 2; 2; 3] (map Z.of_nat (seq 0 24)) in
  let b2 := ints [1; 2; 2; 3] (map Z.of_nat (seq 100 12)) in
  exists (s : PixelCatcher.t) (v : np.ndarray),
    feed [b1; b2] self = (Ok tt, s)
    /\ PixelCatcher.extract s = (Ok v, s)
    /\ np.shape v = [3; 2; 3]
    /\ at_ v [2; 1; 0] = Fin 109.
Proof.
  intros self b1 b2.
  destruct (C5_extract_returns_the_sampled_pixels self [b1; b2])
    as [s [v [Hfeed [Hext [_ [Hshape Hvals]]]]]];
    [reflexivity | discriminate | discriminate | reflexivity | reflexivity | ].
  exists s, v.
  split; [exact Hfeed | split; [exact Hext | split; [exact Hshape | ]]].
  apply (Hvals 1 b2 0 1 0); [reflexivity | cbn; lia | cbn; lia | lia].
Defined.

(** C5 (as stated) fails: [extract()] reshapes to three channels whatever
    the batches had.  Three one-channel frames sampled at one pixel come
    back as an array of shape (1, 1, 3), not (3, 1, 1). *)
Lemma C5_counterexample :
  let self := PixelCatcher.__init__ 0 [(0, 0)]%Z false in
  let batch := ints [3; 1; 1; 1] [7; 8; 9]%Z in
  exists s : PixelCatcher.t,
    feed [batch] self = (Ok tt, s)
    /\ PixelCatcher.extract s = (Ok (np.mkarr [1; 1; 3] [Fin 7; Fin 8; Fin 9]), s).
Proof. eexists. split; reflexivity. Qed.

(** ** Reshaping with one dimension left to NumPy *)

Lemma no_negative_size (l : list nat) :
  existsb (fun d => (d <? -1)%Z) (map Z.of_nat l) = false.
Proof.
  induction l as [| x l IH]; [reflexivity | ].
  cbn [map existsb]. rewrite IH.
  replace (Z.of_nat x <? -1)%Z with false; [reflexivity | ].
  symmetry. apply Z.ltb_ge. lia.
Qed.

Lemma no_unknown_size (l : list nat) :
  filter (fun d => (d =? -1)%Z) (map Z.of_nat l) = [].
Proof.
  induction l as [| x l IH]; [reflexivity | ].
  cbn [map filter]. rewrite IH.
  replace (Z.of_nat x =? -1)%Z with false; [reflexivity | ].
  symmetry. apply Z.eqb_neq. lia.
Qed.

Lemma known_size_app (l1 l2 : list Z) :
  np.known_size (l1 ++ l2) = (np.known_size l1 * np.known_size l2)%Z.
Proof.
  induction l1 as [| x l1 IH].
  - cbn [app]. unfold np.known_size at 2. cbn [fold_right].
    destruct (np.known_size l2); reflexivity.
  - cbn [app]. unfold np.known_size in *. cbn [fold_right]. rewrite IH.
    destruct (x =? -1)%Z; [reflexivity | ]. apply Z.mul_assoc.
Qed.

Lemma known_size_sizes (l : list nat) :
  np.known_size (map Z.of_nat l) = Z.of_nat (np.size l).
Proof.
  induction l as [| x l IH]; [reflexivity | ].
  unfold np.known_size in *. cbn [map fold_right np.size]. rewrite IH.
  replace (Z.of_nat x =? -1)%Z with false by (symmetry; apply Z.eqb_neq; lia).
  unfold np.size. lia.
Qed.

Lemma size_app (l1 l2 : list nat) :
  np.size (l1 ++ l2) = np.size l1 * np.size l2.
Proof.
  unfold np.size. induction l1 as [| x l1 IH]; cbn [app fold_right].
  - lia.
  - rewrite IH. lia.
Qed.

Section ReshapeInfer.
Variables (a : np.ndarray) (pre post : list nat).

Let new : list Z := (map Z.of_nat pre ++ [-1] ++ map Z.of_nat post)%Z.

Lemma reshape_infer_checks :
  existsb (fun d => (d <? -1)%Z) new = false
  /\ np.count_unknown new = 1
  /\ np.known_size new = Z.of_nat (np.size (pre ++ post)).
Proof.
  unfold new. repeat split.
  - rewrite !existsb_app, !no_negative_size. reflexivity.
  - unfold np.count_unknown. rewrite !filter_app, !no_unknown_size. reflexivity.
  - rewrite !known_size_app, !known_size_sizes, size_app.
    change (np.known_size [(-1)%Z]) with 1%Z. lia.
Qed.

(** The other dimensions multiply to 0: nothing can be inferred. *)
Lemma reshape_infer_zero :
  np.size (pre ++ post) = 0 -> np.reshape a new = Raise ValueError.
Proof.
  intros Hzero. destruct reshape_infer_checks as [Hneg [Hone Hknown]].
  unfold np.reshape. cbv zeta. rewrite Hneg, Hone, Hknown, Hzero.
  reflexivity.
Qed.

Lemma reshape_infer (T : nat) :
  np.size (pre ++ post) <> 0 ->
  np.size (np.shape a) = T * np.size (pre ++ post) ->
  np.reshape a new = Ok (np.mkarr (pre ++ [T] ++ post) (np.data a)).
Proof.
  intros Hk Hsize. destruct reshape_infer_checks as [Hneg [Hone Hknown]].
  unfold np.reshape. cbv zeta. rewrite Hneg, Hone, Hknown, Hsize.
  set (K := np.size (pre ++ post)) in *.
  rewrite Nat2Z.inj_mul.
  rewrite Z.mod_mul by lia. rewrite Z.div_mul by lia.
  replace (Z.of_nat K =? 0)%Z with false by (symmetry; apply Z.eqb_neq; lia).
  cbn [orb negb Z.eqb]. do 2 f_equal.
  unfold new. rewrite !map_app, !map_map. cbn [map Z.eqb Pos.eqb].
  rewrite Nat2Z.id. f_equal; [ | f_equal];
    (rewrite <- (map_id) ; apply map_ext; intros x;
     replace (Z.of_nat x =? -1)%Z with false
       by (symmetry; apply Z.eqb_neq; lia);
     apply Nat2Z.id).
Qed.
End ReshapeInfer.

(** ** What the updates check *)

Lemma index_box_region (b : np.ndarray) (n h w c : nat)
  (r : (Z * Z) * (Z * Z)) :
  np.shape b = [n; h; w; c] ->
  np.index_box b (fst r) (snd r)
  = Ok (np.mkarr [n; region_rows b r; region_cols b r; c]
          (np.data (box_capture b r))).
Proof.
  intros Hsh. unfold np.index_box, box_capture, region_rows, region_cols,
    region_item, region, frames_of.
  rewrite Hsh. cbn [rev app nth hd fst snd].
  destruct (slice_indices (fst (fst r)) (snd (fst r)) h) as [x0 nx].
  destruct (slice_indices (fst (snd r)) (snd (snd r)) w) as [y0 ny].
  cbn [fst snd np.data np.size fold_right]. rewrite Nat.mul_1_r.
  do 2 f_equal.
  apply flat_map_ext. intros f. apply flat_map_ext. intros i.
  apply flat_map_ext. intros j. apply map_ext. intros k.
  unfold at_, ravel. rewrite Hsh. cbn [combine fold_left fst snd].
  rewrite Nat.mul_0_l, Nat.add_0_l. reflexivity.
Qed.

Lemma BoxCatcher_process_captures (self : BoxCatcher.t) (b : np.ndarray)
  (n h w c : nat) :
  np.shape b = [n; h; w; c] -> n * c <> 0 ->
  BoxCatcher.__process__ b self
  = (Ok tt,
     BoxCatcher.set_values
       (BoxCatcher.values self ++ [map (box_capture b) (BoxCatcher.ranges self)])
       self).
Proof.
  intros Hsh Hnc.
  unfold BoxCatcher.__process__, bind, get, lift, modify.
  rewrite (rmap_ok _ (box_capture b)); [reflexivity | ].
  intros r _. rewrite (index_box_region b n h w c r Hsh).
  cbn [rbind]. rewrite Hsh.
  change (tuple_get [n; h; w; c] (-1)) with (Ok c). cbn [rbind].
  change (tuple_drop_last 3 [n; h; w; c]) with [n].
  change [(-1)%Z; Z.of_nat c] with ([(-1)%Z] ++ map Z.of_nat [c]).
  rewrite (reshape_infer _ [n] [c] (region_rows b r * region_cols b r)).
  - unfold box_capture, frames_of. rewrite Hsh. reflexivity.
  - cbn. lia.
  - cbn. nia.
Qed.






(** ** A box of one pixel *)

Lemma ranges_unit_box (clock : Q) (pixels : list (Z * Z))
  (agg : option (np.ndarray -> Z -> res np.ndarray)) (monitor : bool) :
  BoxCatcher.ranges (BoxCatcher.__init__ clock pixels (1, 1)%Z agg monitor)
  = map unit_range pixels.
Proof. reflexivity. Qed.

Lemma slice_unit (r : Z) (h : nat) :
  (0 <= r < Z.of_nat h)%Z ->
  slice_indices (r - 0) (r + 0 + 1) h = (Z.to_nat r, 1).
Proof.
  intros Hr. unfold slice_indices, slice_bound, wrap_index.
  replace (r - 0 <? 0)%Z with false by (symmetry; apply Z.ltb_ge; lia).
  replace (r + 0 + 1 <? 0)%Z with false by (symmetry; apply Z.ltb_ge; lia).
  f_equal; lia.
Qed.

Lemma inside_bounds (b : np.ndarray) (n h w c : nat) (loc : Z * Z) :
  np.shape b = [n; h; w; c] -> inside b loc = true ->
  (0 <= fst loc < Z.of_nat h)%Z /\ (0 <= snd loc < Z.of_nat w)%Z.
Proof.
  intros Hsh Hin. unfold inside in Hin. rewrite Hsh in Hin.
  repeat (apply andb_true_iff in Hin; destruct Hin as [Hin ?]).
  repeat match goal with
         | H : (_ <=? _)%Z = true |- _ => apply Z.leb_le in H
         | H : (_ <? _)%Z = true |- _ => apply Z.ltb_lt in H
         end.
  lia.
Qed.

Lemma inside_in_frame (b : np.ndarray) (loc : Z * Z) :
  inside b loc = true -> in_frame b loc = true.
Proof.
  unfold inside, in_frame, in_axis.
  destruct (np.shape b) as [| n [| h [| w [| c rest]]]]; try discriminate.
  intros Hin.
  repeat (apply andb_true_iff in Hin; destruct Hin as [Hin ?]).
  repeat match goal with
         | H : (_ <=? _)%Z = true |- _ => apply Z.leb_le in H
         | H : (_ <? _)%Z = true |- _ => apply Z.ltb_lt in H
         end.
  repeat (apply andb_true_iff; split);
    first [apply Z.leb_le | apply Z.ltb_lt]; lia.
Qed.

Lemma index_box_unit (b : np.ndarray) (n h w c : nat) (loc : Z * Z) :
  np.shape b = [n; h; w; c] -> inside b loc = true ->
  np.index_box b (fst (unit_range loc)) (snd (unit_range loc))
  = Ok (np.mkarr [n; 1; 1; c] (np.data (pixel_column b loc))).
Proof.
  intros Hsh Hin. destruct (inside_bounds b n h w c loc Hsh Hin) as [Hr Hc].
  unfold np.index_box, unit_range. rewrite Hsh. cbn [rev app fst snd].
  rewrite (slice_unit _ _ Hr), (slice_unit _ _ Hc).
  cbn [seq flat_map np.size fold_right]. do 2 f_equal.
  unfold pixel_column, frames_of. rewrite Hsh. cbn [np.data hd nth].
  rewrite Nat.mul_1_r. apply flat_map_ext. intros o.
  rewrite !app_nil_r. apply map_ext. intros k.
  unfold pixel_of, at_, ravel, wrap_index. rewrite Hsh.
  replace (fst loc <? 0)%Z with false by (symmetry; apply Z.ltb_ge; lia).
  replace (snd loc <? 0)%Z with false by (symmetry; apply Z.ltb_ge; lia).
  cbn [combine fold_left fst snd]. f_equal. lia.
Qed.

Lemma rmap_map {A B C} (f : B -> res C) (g : A -> B) (l : list A) :
  rmap f (map g l) = rmap (fun x => f (g x)) l.
Proof.
  induction l as [| a l IH]; [reflexivity | ].
  cbn [map rmap]. rewrite IH. reflexivity.
Qed.

Lemma BoxCatcher_process_unit (self : BoxCatcher.t) (pixels : list (Z * Z))
  (b : np.ndarray) (n h w c : nat) :
  BoxCatcher.ranges self = map unit_range pixels ->
  np.shape b = [n; h; w; c] -> n * c <> 0 ->
  forallb (inside b) pixels = true ->
  BoxCatcher.__process__ b self
  = (Ok tt,
     BoxCatcher.set_values
       (BoxCatcher.values self ++ [map (pixel_column b) pixels]) self).
Proof.
  intros Hranges Hsh Hnc Hin.
  unfold BoxCatcher.__process__, bind, get, lift, modify.
  rewrite Hranges, rmap_map, (rmap_ok _ (pixel_column b)); [reflexivity | ].
  intros loc Hloc. rewrite forallb_forall in Hin.
  rewrite (index_box_unit b n h w c) by auto.
  cbn [rbind]. rewrite Hsh.
  change (tuple_get [n; h; w; c] (-1)) with (Ok c). cbn [rbind].
  change (tuple_drop_last 3 [n; h; w; c]) with [n].
  change [(-1)%Z; Z.of_nat c] with ([(-1)%Z] ++ map Z.of_nat [c]).
  rewrite (reshape_infer _ [n] [c] 1).
  - unfold pixel_column, frames_of. rewrite Hsh. reflexivity.
  - cbn. lia.
  - cbn. lia.
Qed.

Lemma mean_of_one (x : num) : same_num (np.mean_of [x]) x.
Proof.
  unfold np.mean_of, np.fsum. cbn [fold_left length].
  destruct x as [q | | |]; try exact I.
  unfold fadd, fdiv, fin, of_nat, of_Z.
  change (inject_Z (Z.of_nat 1)) with 1%Q.
  change (Qeq_bool 1 0) with false. cbv iota. unfold same_num.
  rewrite !Qred_correct. field.
Qed.

Lemma array_single_row (cols : list np.ndarray) (sh : list nat) :
  cols <> [] ->
  (forall a, In a cols -> np.shape a = sh) ->
  np.array [cols]
  = Ok (np.mkarr (1 :: length cols :: sh) (flat_map np.data cols)).
Proof.
  intros Hne Hsh. unfold np.array.
  cbn [forallb]. rewrite Nat.eqb_refl. cbn [negb andb].
  destruct cols as [| a0 cols'] eqn:Hcols; [congruence | ].
  rewrite <- Hcols in *.
  assert (Hall : forallb (fun a => np.shape_eqb (np.shape a) (np.shape a0)) cols
                 = true).
  { apply forallb_forall. intros a Ha. unfold np.shape_eqb.
    rewrite (Hsh a Ha), (Hsh a0) by (rewrite Hcols; left; reflexivity).
    destruct (list_eq_dec Nat.eq_dec sh sh); [reflexivity | congruence]. }
  rewrite Hall. cbn [andb length flat_map].
  rewrite (Hsh a0) by (rewrite Hcols; left; reflexivity).
  rewrite app_nil_r. reflexivity.
Qed.

Lemma pixel_column_length (b : np.ndarray) (loc : Z * Z) :
  length (np.data (pixel_column b loc)) = frames_of b * nth 3 (np.shape b) 0.
Proof.
  unfold pixel_column. cbn [np.data].
  rewrite flat_map_constant_length with (c := nth 3 (np.shape b) 0).
  - rewrite length_seq. reflexivity.
  - intros n _. rewrite length_map, length_seq. reflexivity.
Qed.

Lemma BoxCatcher_extract_unit (self : BoxCatcher.t) (pixels : list (Z * Z))
  (b : np.ndarray) (n h w : nat) :
  BoxCatcher.values self = [map (pixel_column b) pixels] ->
  BoxCatcher.agg self = np.mean ->
  pixels <> [] ->
  np.shape b = [n; h; w; 3] -> n <> 0 ->
  exists v : np.ndarray,
    BoxCatcher.extract self = (Ok v, self)
    /\ np.shape v = [length pixels; n; 3]
    /\ forall p f ch,
        p < length pixels -> f < n -> ch < 3 ->
        at_ v [p; f; ch]
        = np.mean_of [pixel_of b f (nth p pixels (0, 0)%Z) ch].
Proof.
  intros Hvals Hagg Hpix Hsh Hn.
  set (cols := map (pixel_column b) pixels).
  assert (Hcols : forall a, In a cols -> np.shape a = [n; 1; 3]).
  { intros a Ha. apply in_map_iff in Ha. destruct Ha as [loc [<- _]].
    unfold pixel_column, frames_of. rewrite Hsh. reflexivity. }
  assert (Hlen : length cols = length pixels) by apply length_map.
  unfold BoxCatcher.extract, bind, get, lift. rewrite Hvals, Hagg.
  fold cols. rewrite (array_single_row cols [n; 1; 3]);
    [ | destruct pixels; [congruence | discriminate] | exact Hcols].
  rewrite Hlen.
  set (stacked := np.mkarr [1; length pixels; n; 1; 3] (flat_map np.data cols)).
  change (np.mean stacked (-2))
    with (Ok (np.reduce_axis np.mean_of 3 stacked)).
  set (agg_val := np.reduce_axis np.mean_of 3 stacked).
  assert (Hshape : np.shape agg_val = [1; length pixels; n; 3]) by reflexivity.
  cbv iota beta. rewrite Hshape.
  change (tuple_suffix 2 [1; length pixels; n; 3]) with [n; 3].
  change ((-1)%Z :: map Z.of_nat [n; 3])
    with (map Z.of_nat [] ++ [(-1)%Z] ++ map Z.of_nat [n; 3]).
  rewrite (reshape_infer agg_val [] [n; 3] (length pixels));
    [ | cbn; lia | rewrite Hshape; cbn; lia].
  eexists. split; [reflexivity | split; [reflexivity | ]].
  intros p f ch Hp Hf Hch.
  unfold at_, ravel, np.item.
  cbn [np.shape np.data app combine fold_left fst snd agg_val np.reduce_axis
       stacked firstn skipn nth np.size fold_right].
  replace (((0 * length pixels + p) * n + f) * 3 + ch)
    with ((p * n + f) * (3 * 1) + ch) by lia.
  rewrite nth_seq_block;
    [ | intros x; rewrite length_map, length_seq; reflexivity | nia | lia].
  rewrite nth_map_seq by lia.
  unfold np.lane. cbn [seq map]. f_equal. f_equal.
  unfold np.item. cbn [np.data].
  replace (((p * n + f) * 1 + 0) * (3 * 1) + ch)
    with (p * (n * 3) + (f * (1 * 3) + ch)) by lia.
  assert (Hb3 : nth 3 (np.shape b) 0 = 3) by (rewrite Hsh; reflexivity).
  assert (Hbn : frames_of b = n) by (unfold frames_of; rewrite Hsh; reflexivity).
  rewrite (nth_flat_map_block np.data cols (n * 3) p _ NaN (pixel_column b (0, 0)%Z)).
  - unfold cols. rewrite map_nth.
    rewrite <- Hb3 at 1. apply pixel_column_item; [lia | rewrite Hb3; lia].
  - intros a Ha. apply in_map_iff in Ha. destruct Ha as [loc [<- _]].
    rewrite pixel_column_length, Hb3, Hbn. reflexivity.
  - lia.
  - nia.
Qed.

(** X18 -- after one update with a batch of shape (N, H, W, 3), N >= 1,
    and a non-empty list of pixels that lie inside the frame with
    non-negative coordinates, a [BoxCatcher] with box size (1, 1) and the
    default aggregation (the mean) and a [PixelCatcher] with the same
    pixels extract the same values: the box result has shape
    (num_pixels, N, 3), the pixel result (N, num_pixels, 3), and the
    element [p, f, ch] of the first is the element [f, p, ch] of the
    second (the mean of one value is that value). *)
Theorem unit_box_mean_is_the_pixel :
  forall (pixels : list (Z * Z)) (b : np.ndarray) (n h w : nat)
         (clock clock' : Q) (monitor monitor' : bool),
    pixels <> [] ->
    np.shape b = [n; h; w; 3] ->
    n <> 0 ->
    forallb (inside b) pixels = true ->
    exists (sb : BoxCatcher.t) (vb : np.ndarray)
           (sp : PixelCatcher.t) (vp : np.ndarray),
      feed [b] (BoxCatcher.__init__ clock pixels (1, 1)%Z None monitor)
      = (Ok tt, sb)
      /\ BoxCatcher.extract sb = (Ok vb, sb)
      /\ feed [b] (PixelCatcher.__init__ clock' pixels monitor') = (Ok tt, sp)
      /\ PixelCatcher.extract sp = (Ok vp, sp)
      /\ np.shape vb = [length pixels; n; 3]
      /\ np.shape vp = [n; length pixels; 3]
      /\ forall p f ch,
          p < length pixels -> f < n -> ch < 3 ->
          same_num (at_ vb [p; f; ch]) (at_ vp [f; p; ch]).
Proof.
  intros pixels b n h w clock clock' monitor monitor' Hpix Hsh Hn Hin.
  set (box := BoxCatcher.__init__ clock pixels (1, 1)%Z None monitor).
  set (pix := PixelCatcher.__init__ clock' pixels monitor').
  set (sb := BoxCatcher.set_values [map (pixel_column b) pixels] box).
  set (sp := PixelCatcher.set_values (map (capture pixels) [b]) pix).
  assert (Hfit : forallb (samples pixels) [b] = true).
  { cbn [forallb]. unfold samples. rewrite Hsh. cbn [length Nat.eqb andb].
    rewrite andb_true_r. apply forallb_forall. intros loc Hloc.
    apply inside_in_frame. rewrite forallb_forall in Hin. auto. }
  assert (Hrgb : forallb rgb [b] = true).
  { cbn [forallb]. unfold rgb. rewrite Hsh. reflexivity. }
  destruct (BoxCatcher_extract_unit sb pixels b n h w)
    as [vb [Hvb [Hshape_b Hitems_b]]]; try assumption; try reflexivity.
  assert (Hvp := extract_captures sp [b] Hpix ltac:(discriminate) Hrgb eq_refl).
  exists sb, vb, sp. eexists.
  split; [ | split; [exact Hvb | split; [ | split; [exact Hvp | ]]]].
  - cbn [feed]. unfold bind. cbn [__process__ BoxCatcher_Processor].
    rewrite (BoxCatcher_process_unit box pixels b n h w 3);
      [reflexivity | reflexivity | exact Hsh | lia | exact Hin].
  - rewrite feed_captures by assumption. reflexivity.
  - split; [exact Hshape_b | split].
    + cbn [np.shape map list_sum frames_of]. unfold frames_of.
      rewrite Hsh. cbn. rewrite Nat.add_0_r. reflexivity.
    + intros p f ch Hp Hf Hch.
      rewrite (Hitems_b p f ch Hp Hf Hch).
      unfold at_ at 1. unfold ravel, np.item.
      cbn [np.shape np.data combine fold_left fst snd].
      rewrite Nat.mul_0_l, Nat.add_0_l.
      change (PixelCatcher.pixels sp) with pixels.
      replace ((f * length pixels + p) * 3 + ch)
        with (((offset [b] 0 + f) * length pixels + p) * 3 + ch)
        by reflexivity.
      rewrite (captures_item pixels [b] 0 b f p ch);
        [ | exact Hrgb | reflexivity
          | unfold frames_of; rewrite Hsh; exact Hf | exact Hp | exact Hch].
      apply mean_of_one.
Qed.

Lemma unit_box_mean_is_the_pixel_witness :
  let pixels := [(0, 0); (1, 1)]%Z in
  let b := ints [2; 2; 2; 3] (map Z.of_nat (seq 0 24)) in
  exists (sb : BoxCatcher.t) (vb : np.ndarray)
         (sp : PixelCatcher.t) (vp : np.ndarray),
    feed [b] (BoxCatcher.__init__ 0 pixels (1, 1)%Z None false) = (Ok tt, sb)
    /\ BoxCatcher.extract sb = (Ok vb, sb)
    /\ feed [b] (PixelCatcher.__init__ 0 pixels false) = (Ok tt, sp)
    /\ PixelCatcher.extract sp = (Ok vp, sp)
    /\ same_num (at_ vb [1; 0; 2]) (at_ vp [0; 1; 2]).
Proof.
  intros pixels b.
  destruct (unit_box_mean_is_the_pixel pixels b 2 2 2 0 0 false false)
    as [sb [vb [sp [vp [H1 [H2 [H3 [H4 [_ [_ H5]]]]]]]]]];
    [discriminate | reflexivity | discriminate | reflexivity | ].
  exists sb, vb, sp, vp.
  repeat split; try assumption.
  apply H5; cbn; lia.
Defined.

(** Why the coordinates are asked to be non-negative: [PixelCatcher]
    reads row -1 as the last row, while the slice [-1 : 0] of the box is
    empty and its mean is [nan]. *)
Example unit_box_at_a_negative_coordinate :
  let pixels := [(-1, 0)]%Z in
  let b := ints [1; 2; 1; 3] [1; 2; 3; 4; 5; 6]%Z in
  exists (sb : BoxCatcher.t) (sp : PixelCatcher.t),
    feed [b] (BoxCatcher.__init__ 0 pixels (1, 1)%Z None false) = (Ok tt, sb)
    /\ feed [b] (PixelCatcher.__init__ 0 pixels false) = (Ok tt, sp)
    /\ BoxCatcher.extract sb = (Ok (np.mkarr [1; 1; 3] [NaN; NaN; NaN]), sb)
    /\ PixelCatcher.extract sp
       = (Ok (np.mkarr [1; 1; 3] [Fin 4; Fin 5; Fin 6]), sp).
Proof. do 2 eexists. repeat split. Qed.

(** ** Two updates of a [BoxCatcher] *)

(** C6 -- evaluation of [extract()] where the claim breaks.  Two pixels,
    a box of size (1, 1), two batches of two frames each: the result has
    shape (4, 2, 3), calls and pixels merged on the first axis and the
    two frames of one call on the second, not (num_pixels, total_frames,
    C) = (2, 4, 3).  When the two batches have two frames and one frame,
    the captures do not stack and [extract()] raises. *)
Theorem C6_extract_merges_calls_with_pixels :
  let box := BoxCatcher.__init__ 0 [(0, 0); (1, 1)]%Z (1, 1)%Z None false in
  let b2 := ints [2; 2; 2; 3] (map Z.of_nat (seq 0 24)) in
  let b1 := ints [1; 2; 2; 3] (map Z.of_nat (seq 0 12)) in
  (exists (s : BoxCatcher.t) (v : np.ndarray),
      feed [b2; b2] box = (Ok tt, s)
      /\ BoxCatcher.extract s = (Ok v, s)
      /\ np.shape v = [4; 2; 3])
  /\ (exists s : BoxCatcher.t,
         feed [b2; b1] box = (Ok tt, s)
         /\ BoxCatcher.extract s = (Raise ValueError, s)).
Proof.
  split.
  - do 2 eexists. repeat split.
  - eexists. split; reflexivity.
Qed.

(** C8 -- evaluation of the two [extract()] where the claim breaks.  Two
    pixels inside the frame, a box of size (1, 1), the same two batches
    of two frames each given to a [BoxCatcher] and to a [PixelCatcher].
    The pixel result has shape (total_frames, num_pixels, C) = (4, 2, 3).
    The box result has shape (4, 2, 3) as well, but its first axis is
    call and pixel merged and its second the frame within a call: it is
    not the (num_pixels, total_frames, C) = (2, 4, 3) array of the same
    values.  Pixel 1 in frame 2 (the first frame of the second batch,
    values 33, 34, 35) is the element [2, 1] of the pixel result and the
    element [3, 0] of the box result; at the same index [0, 1] the two
    results hold (9, 10, 11) and (12, 13, 14). *)
Theorem C8_unit_box_differs_from_the_pixels_after_two_updates :
  let pixels := [(0, 0); (1, 1)]%Z in
  let b1 := ints [2; 2; 2; 3] (map Z.of_nat (seq 0 24)) in
  let b2 := ints [2; 2; 2; 3] (map Z.of_nat (seq 24 24)) in
  exists (sb : BoxCatcher.t) (vb : np.ndarray)
         (sp : PixelCatcher.t) (vp : np.ndarray),
    feed [b1; b2] (BoxCatcher.__init__ 0 pixels (1, 1)%Z None false)
    = (Ok tt, sb)
    /\ BoxCatcher.extract sb = (Ok vb, sb)
    /\ feed [b1; b2] (PixelCatcher.__init__ 0 pixels false) = (Ok tt, sp)
    /\ PixelCatcher.extract sp = (Ok vp, sp)
    /\ vp = ints [4; 2; 3]
              [0; 1; 2; 9; 10; 11; 12; 13; 14; 21; 22; 23;
               24; 25; 26; 33; 34; 35; 36; 37; 38; 45; 46; 47]%Z
    /\ vb = ints [4; 2; 3]
              [0; 1; 2; 12; 13; 14; 9; 10; 11; 21; 22; 23;
               24; 25; 26; 36; 37; 38; 33; 34; 35; 45; 46; 47]%Z
    /\ np.shape vb <> [length pixels; 4; 3]
    /\ at_ vp [2; 1; 0] = Fin 33
    /\ at_ vb [3; 0; 0] = Fin 33
    /\ at_ vp [0; 1; 0] = Fin 9
    /\ at_ vb [0; 1; 0] = Fin 12.
Proof.
  do 4 eexists.
  repeat match goal with |- _ /\ _ => split end;
    try reflexivity; discriminate.
Qed.

(** ** Batches without frames *)

Lemma preserves_bind_lift {S X A B} (f : S -> X) (r : res A) (k : A -> M S B) :
  (forall a, r = Ok a -> preserves f (k a)) ->
  preserves f (bind (lift r) k).
Proof.
  intros Hk s. unfold bind, lift. destruct r as [a | e].
  - apply Hk. reflexivity.
  - reflexivity.
Qed.

Lemma tuple_get_first (t : list nat) (n : nat) :
  tuple_get t 0 = Ok n -> n = hd 0 t.
Proof.
  destruct t as [| x t]; cbn.
  - discriminate.
  - unfold tuple_get, norm_index. cbn. congruence.
Qed.

Lemma OnlineStats_empty_batch_count (self : OnlineStats.t) (data : np.ndarray) :
  frames_of data = 0 ->
  OnlineStats.count (snd (OnlineStats.__process__ data self))
  = OnlineStats.count self.
Proof.
  intros Hzero. revert self.
  change (preserves OnlineStats.count (OnlineStats.__process__ data)).
  unfold OnlineStats.__process__.
  apply preserves_bind; [apply preserves_get | intros self].
  apply preserves_if; [apply preserves_raise | ].
  apply preserves_bind; [apply preserves_lift | intros _].
  apply preserves_bind_lift. intros n Hn.
  apply tuple_get_first in Hn. fold (frames_of data) in Hn.
  rewrite Hzero in Hn. subst n.
  repeat first
    [ apply preserves_bind; [ | intro ]
    | apply preserves_lift
    | apply preserves_modify; intros []; cbn; lia ].
Qed.

Lemma BoxCatcher_empty_batch (self : BoxCatcher.t) (e : np.ndarray)
  (h w c : nat) :
  np.shape e = [0; h; w; c] ->
  BoxCatcher.ranges self <> [] ->
  BoxCatcher.__process__ e self = (Raise ValueError, self).
Proof.
  intros Hsh Hne. unfold BoxCatcher.__process__, bind, get, lift.
  destruct (BoxCatcher.ranges self) as [| r rest]; [congruence | ].
  cbn [rmap]. unfold np.index_box. rewrite Hsh. cbn [rev app].
  destruct (slice_indices (fst (fst r)) (snd (fst r)) h) as [x0 nx].
  destruct (slice_indices (fst (snd r)) (snd (snd r)) w) as [y0 ny].
  cbn [rbind]. change (tuple_get [0; h; w; c] (-1)) with (Ok c).
  cbn [rbind]. change (tuple_drop_last 3 [0; h; w; c]) with [0].
  change [(-1)%Z; Z.of_nat c] with ([(-1)%Z] ++ map Z.of_nat [c]).
  rewrite (reshape_infer_zero _ [0] [c]) by reflexivity.
  reflexivity.
Qed.

Lemma capture_empty (pixels : list (Z * Z)) (e : np.ndarray) :
  frames_of e = 0 -> rgb e = true ->
  capture pixels e = np.mkarr [0; length pixels; 3] [].
Proof.
  intros Hzero Hrgb. apply Nat.eqb_eq in Hrgb.
  unfold capture. rewrite Hzero, Hrgb. reflexivity.
Qed.

Lemma capture_no_frames (pixels : list (Z * Z)) (e : np.ndarray) :
  frames_of e = 0 ->
  capture pixels e = np.mkarr [0; length pixels; nth 3 (np.shape e) 0] [].
Proof. intros Hzero. unfold capture. rewrite Hzero. reflexivity. Qed.

(** C7 (as amended) -- a batch of shape (0, H, W, C), with no frame.  A
    [PixelCatcher] with at least one pixel, all of them inside the
    frame, logs it like any other batch: one empty capture of shape
    (0, num_pixels, C) is appended.  When C = 3 and the sampler, fresh
    from the constructor, was fed at least one three-channel batch
    before, [extract()] returns the same array after the empty batch as
    before it.  A [BoxCatcher] with at least one region raises
    [ValueError] and is left as it was; without regions it logs an empty
    entry.  [OnlineStats] keeps its count on a batch whose first
    dimension is 0. *)
Theorem C7_batch_without_frames :
  (forall (self : PixelCatcher.t) (e : np.ndarray) (h w c : nat),
      PixelCatcher.pixels self <> [] ->
      np.shape e = [0; h; w; c] ->
      forallb (in_frame e) (PixelCatcher.pixels self) = true ->
      PixelCatcher.__process__ e self
      = (Ok tt,
         PixelCatcher.set_values
           (PixelCatcher.values self
            ++ [np.mkarr [0; length (PixelCatcher.pixels self); c] []])
           self))
  /\ (forall (self : PixelCatcher.t) (batches : list np.ndarray)
             (e : np.ndarray) (h w : nat),
         PixelCatcher.values self = [] ->
         PixelCatcher.pixels self <> [] ->
         batches <> [] ->
         forallb (samples (PixelCatcher.pixels self)) batches = true ->
         forallb rgb batches = true ->
         np.shape e = [0; h; w; 3] ->
         forallb (in_frame e) (PixelCatcher.pixels self) = true ->
         exists (s s' : PixelCatcher.t) (v : np.ndarray),
           feed batches self = (Ok tt, s)
           /\ PixelCatcher.__process__ e s = (Ok tt, s')
           /\ PixelCatcher.extract s = (Ok v, s)
           /\ PixelCatcher.extract s' = (Ok v, s'))
  /\ (forall (self : BoxCatcher.t) (e : np.ndarray) (h w c : nat),
         np.shape e = [0; h; w; c] ->
         BoxCatcher.ranges self <> [] ->
         BoxCatcher.__process__ e self = (Raise ValueError, self))
  /\ (forall (self : BoxCatcher.t) (e : np.ndarray),
         BoxCatcher.ranges self = [] ->
         BoxCatcher.__process__ e self
         = (Ok tt,
            BoxCatcher.set_values (BoxCatcher.values self ++ [[]]) self))
  /\ (forall (self : OnlineStats.t) (data : np.ndarray),
         frames_of data = 0 ->
         OnlineStats.count (snd (OnlineStats.__process__ data self))
         = OnlineStats.count self).
Proof.
  split; [ | split; [ | split; [ | split]]].
  - intros self e h w c Hpix Hsh Hin.
    rewrite PixelCatcher_process_capture;
      [ | rewrite Hsh; reflexivity | exact Hin | exact Hpix].
    rewrite capture_no_frames by (unfold frames_of; rewrite Hsh; reflexivity).
    rewrite Hsh. reflexivity.
  - intros self batches e h w Hfresh Hpix Hne Hfit Hrgb Hsh Hin.
    assert (Hzero : frames_of e = 0)
      by (unfold frames_of; rewrite Hsh; reflexivity).
    assert (Hrgb_e : rgb e = true) by (unfold rgb; rewrite Hsh; reflexivity).
    set (pixels := PixelCatcher.pixels self) in *.
    set (s := PixelCatcher.set_values (map (capture pixels) batches) self).
    set (s' := PixelCatcher.set_values
                 (PixelCatcher.values s ++ [capture pixels e]) s).
    exists s, s'. eexists.
    split; [ | split; [ | split]].
    + rewrite feed_captures by assumption. rewrite Hfresh. reflexivity.
    + apply PixelCatcher_process_capture;
        [rewrite Hsh; reflexivity | exact Hin | exact Hpix].
    + apply (extract_captures s batches Hpix Hne Hrgb eq_refl).
    + rewrite (extract_captures s' (batches ++ [e])).
      * change (PixelCatcher.pixels s') with pixels.
        rewrite !map_app, list_sum_app, concat_app. cbn [map list_sum concat].
        rewrite (capture_empty pixels e Hzero Hrgb_e), Hzero.
        cbn [np.data app]. rewrite app_nil_r, !Nat.add_0_r. reflexivity.
      * exact Hpix.
      * destruct batches; [congruence | discriminate].
      * rewrite forallb_app, Hrgb. cbn [forallb]. rewrite Hrgb_e. reflexivity.
      * unfold s', s. cbn [PixelCatcher.set_values PixelCatcher.values
                            PixelCatcher.pixels].
        rewrite map_app. reflexivity.
  - intros self e h w c. apply BoxCatcher_empty_batch.
  - intros self e Hnil.
    unfold BoxCatcher.__process__, bind, get, lift, modify.
    rewrite Hnil. reflexivity.
  - intros self data. apply OnlineStats_empty_batch_count.
Qed.

Lemma C7_witness :
  let pix := PixelCatcher.__init__ 0 [(0, 0)]%Z false in
  let box := BoxCatcher.__init__ 0 [(0, 0)]%Z (1, 1)%Z None false in
  let nobox := BoxCatcher.__init__ 0 [] (1, 1)%Z None false in
  let stats := snd (feed [ints [2; 1] [1; 3]%Z] (OnlineStats.__init__ 0 [1] false)) in
  let b := ints [2; 1; 1; 3] [1; 2; 3; 4; 5; 6]%Z in
  let e := ints [0; 1; 1; 3] [] in
  let e1 := ints [0; 1; 1; 1] [] in
  PixelCatcher.__process__ e1 pix
  = (Ok tt, PixelCatcher.set_values [np.mkarr [0; 1; 1] []] pix)
  /\ (exists (s s' : PixelCatcher.t) (v : np.ndarray),
         feed [b] pix = (Ok tt, s)
         /\ PixelCatcher.__process__ e s = (Ok tt, s')
         /\ PixelCatcher.extract s = (Ok v, s)
         /\ PixelCatcher.extract s' = (Ok v, s'))
  /\ BoxCatcher.__process__ e box = (Raise ValueError, box)
  /\ BoxCatcher.__process__ e nobox
     = (Ok tt, BoxCatcher.set_values [[]] nobox)
  /\ OnlineStats.count (snd (OnlineStats.__process__ (ints [0; 1] []) stats)) = 2%Z.
Proof.
  intros pix box nobox stats b e e1.
  pose proof C7_batch_without_frames as [Hlog [Hpix [Hbox [Hnobox Hstats]]]].
  split; [ | split; [ | split; [ | split]]].
  - apply (Hlog pix e1 1 1 1); [discriminate | reflexivity | reflexivity].
  - destruct (Hpix pix [b] e 1 1) as [s [s' [v [H1 [H2 [H3 H4]]]]]];
      try reflexivity; try discriminate.
    exists s, s', v. repeat split; assumption.
  - apply (Hbox box e 1 1 3); [reflexivity | discriminate].
  - apply (Hnobox nobox e). reflexivity.
  - rewrite (Hstats stats (ints [0; 1] [])); reflexivity.
Defined.

(** C7 (as stated) fails: a batch without frames is logged by
    [PixelCatcher] like any other, so its log grows by one (empty)
    capture. *)
Lemma C7_counterexample :
  let pix := PixelCatcher.__init__ 0 [(0, 0)]%Z false in
  let e := ints [0; 1; 1; 3] [] in
  PixelCatcher.values pix = []
  /\ PixelCatcher.__process__ e pix
     = (Ok tt, PixelCatcher.set_values [np.mkarr [0; 1; 3] []] pix).
Proof. split; reflexivity. Qed.

(** What the amended C7 leaves out: an empty batch turns the mean and the
    variance of [OnlineStats] into [nan]. *)
Example OnlineStats_empty_batch_spoils_mean :
  feed [ints [2; 1] [1; 3]%Z; ints [0; 1] []] (OnlineStats.__init__ 0 [1] false)
  = (Ok tt,
     {| OnlineStats.super := ProcessorBase.__init__ 0 false 10;
        OnlineStats.shape := [1];
        OnlineStats.mean := np.mkarr [1] [NaN];
        OnlineStats.var := np.mkarr [1] [NaN];
        OnlineStats.count := 2 |}).
Proof. reflexivity. Qed.

(** * Further properties of the code *)

(** ** The monitor *)

Lemma wrap64_small (z : Z) :
  (- 2 ^ 63 <= z < 2 ^ 63)%Z -> wrap64 z = z.
Proof.
  intros Hz. unfold wrap64. rewrite Z.mod_small; lia.
Qed.

Lemma measure_frames (now : Q) (frames : np.ndarray) (b : ProcessorBase.t) :
  3 <= np.ndim frames ->
  (0 <= int_val (ProcessorBase.total_frames b))%Z ->
  (int_val (ProcessorBase.total_frames b) + leading_frames frames < 2 ^ 63)%Z ->
  let b' := snd (ProcessorBase.measure now frames b) in
  int_val (ProcessorBase.total_frames b')
  = (int_val (ProcessorBase.total_frames b) + leading_frames frames)%Z
  /\ ProcessorBase.runtime b' = Qred (now - ProcessorBase.start b)
  /\ ProcessorBase.start b' = ProcessorBase.start b.
Proof.
  intros Hnd Hpos Hfit.
  assert (Hlead : (0 <= leading_frames frames)%Z) by (unfold leading_frames; lia).
  assert (Hn : exists n,
             (if np.ndim frames =? 3 then ret (PyInt 1)
              else if 3 <? np.ndim frames
                   then ret (np_prod (tuple_drop_last 3 (np.shape frames)))
                   else raise UnboundLocalError)
             = @ret ProcessorBase.t pyint n
             /\ int_val n = leading_frames frames).
  { destruct (np.ndim frames =? 3) eqn:E3.
    - exists (PyInt 1). split; [reflexivity | ].
      apply Nat.eqb_eq in E3. unfold leading_frames, tuple_drop_last.
      unfold np.ndim in E3. rewrite E3. reflexivity.
    - apply Nat.eqb_neq in E3.
      replace (3 <? np.ndim frames) with true
        by (symmetry; apply Nat.ltb_lt; lia).
      eexists. split; [reflexivity | ].
      unfold np_prod. cbn [int_val]. apply wrap64_small.
      unfold leading_frames in *. lia. }
  destruct Hn as [n [Hret Hval]].
  unfold ProcessorBase.measure. rewrite Hret.
  assert (Hadd : int_val (int_add (ProcessorBase.total_frames b) n)
                 = (int_val (ProcessorBase.total_frames b) + leading_frames frames)%Z).
  { rewrite <- Hval.
    destruct (ProcessorBase.total_frames b) as [x | x], n as [y | y];
      cbn [int_add int_val] in *; try reflexivity; apply wrap64_small; lia. }
  unfold bind, ret, get, put, modify, lift. cbn [fst snd].
  destruct (negb _); cbn [fst snd];
    [ destruct (rmap _ _) | ]; cbn [snd ProcessorBase.total_frames
                                     ProcessorBase.runtime ProcessorBase.start];
    auto.
Qed.

Section Monitored.
Context {S : Type} `{ProcessorLaws S}.

(** A call with monitoring on, once [__process__] has returned. *)
Lemma call_monitored (now : Q) (frames : np.ndarray) (s : S) :
  ProcessorBase.monitor (base s) = true ->
  fst (__process__ frames s) = Ok tt ->
  __call__ now frames s
  = (fst (ProcessorBase.measure now frames (base s)),
     with_base (snd (ProcessorBase.measure now frames (base s)))
               (snd (__process__ frames s))).
Proof.
  intros Hm Hok. unfold __call__, bind, get, on_base.
  pose proof (process_base frames s) as Hb.
  destruct (__process__ frames s) as [[[] | e] s1]; cbn [fst snd] in *;
    [ | discriminate].
  rewrite Hb, Hm. cbv beta. rewrite Hb.
  destruct (ProcessorBase.measure now frames (base s)) as [r b].
  reflexivity.
Qed.

Lemma call_failed_process (now : Q) (frames : np.ndarray) (s : S) (e : exn) :
  fst (__process__ frames s) = Raise e ->
  __call__ now frames s = __process__ frames s.
Proof.
  intros He. unfold __call__, bind.
  destruct (__process__ frames s) as [[[] | e'] s1]; cbn [fst] in *;
    [discriminate | reflexivity].
Qed.
End Monitored.

(** X1 -- with monitoring on, a call whose [__process__] returns, on a
    batch with at least three axes, adds the product of the leading
    dimensions (1 for a single frame) to [total_frames] and sets
    [runtime] to the time since the constructor; [int64] does not wrap as
    long as the new total is below 2^63. *)
Theorem monitored_call_counts_leading_frames :
  forall (S : Type) `{ProcessorLaws S} (now : Q) (frames : np.ndarray) (s : S),
    ProcessorBase.monitor (base s) = true ->
    fst (__process__ frames s) = Ok tt ->
    3 <= np.ndim frames ->
    (0 <= int_val (ProcessorBase.total_frames (base s)))%Z ->
    (int_val (ProcessorBase.total_frames (base s)) + leading_frames frames
     < 2 ^ 63)%Z ->
    let s' := snd (__call__ now frames s) in
    int_val (ProcessorBase.total_frames (base s'))
    = (int_val (ProcessorBase.total_frames (base s)) + leading_frames frames)%Z
    /\ ProcessorBase.runtime (base s')
       = Qred (now - ProcessorBase.start (base s)).
Proof.
  intros S P L now frames s Hm Hok Hnd Hpos Hfit.
  rewrite call_monitored by assumption. cbn [snd].
  rewrite base_with_base.
  destruct (measure_frames now frames (base s) Hnd Hpos Hfit) as [Ht [Hr _]].
  split; assumption.
Qed.

Lemma monitored_call_counts_leading_frames_witness :
  let s := OnlineStats.__init__ 10 [1; 1; 1] true in
  let frames := ints [2; 3; 1; 1; 1] [1; 2; 3; 4; 5; 6]%Z in
  let s' := snd (__call__ 12 frames s) in
  ProcessorBase.total_frames (base s') = NpInt 6
  /\ int_val (ProcessorBase.total_frames (base s')) = 6%Z
  /\ ProcessorBase.runtime (base s') = 2%Q.
Proof.
  intros s frames s'.
  split; [reflexivity | ].
  assert (Hw := monitored_call_counts_leading_frames OnlineStats.t 12 frames s).
  exact (Hw eq_refl eq_refl ltac:(cbn; lia) ltac:(cbn; lia) ltac:(cbn; lia)).
Defined.

Lemma measure_without_axes (now : Q) (frames : np.ndarray)
  (b : ProcessorBase.t) :
  np.ndim frames < 3 ->
  ProcessorBase.measure now frames b = (Raise UnboundLocalError, b).
Proof.
  intros Hnd. unfold ProcessorBase.measure.
  replace (np.ndim frames =? 3) with false
    by (symmetry; apply Nat.eqb_neq; lia).
  replace (3 <? np.ndim frames) with false
    by (symmetry; apply Nat.ltb_ge; lia).
  reflexivity.
Qed.

(** X2 -- with monitoring on, a batch with fewer than three axes makes
    the call raise [UnboundLocalError] ([n_frames] was never bound), but
    only after [__process__] has run: the object keeps the update and no
    frame is counted. *)
Theorem monitored_call_below_three_axes :
  forall (S : Type) `{ProcessorLaws S} (now : Q) (frames : np.ndarray) (s : S),
    (forall x : S, with_base (base x) x = x) ->
    ProcessorBase.monitor (base s) = true ->
    np.ndim frames < 3 ->
    fst (__process__ frames s) = Ok tt ->
    __call__ now frames s
    = (Raise UnboundLocalError, snd (__process__ frames s))
    /\ base (snd (__call__ now frames s)) = base s.
Proof.
  intros S P L now frames s Hwb Hm Hnd Hok.
  rewrite call_monitored by assumption.
  rewrite measure_without_axes by exact Hnd. cbn [fst snd].
  rewrite <- (process_base frames s) at 1 2. rewrite Hwb.
  split; [reflexivity | apply process_base].
Qed.

Lemma monitored_call_below_three_axes_witness :
  let s := OnlineStats.__init__ 0 [1] true in
  let data := ints [2; 1] [1; 3]%Z in
  fst (__call__ 1 data s) = Raise UnboundLocalError
  /\ OnlineStats.count (snd (__call__ 1 data s)) = 2%Z
  /\ ProcessorBase.total_frames (base (snd (__call__ 1 data s))) = PyInt 0.
Proof.
  intros s data.
  destruct (monitored_call_below_three_axes OnlineStats.t 1 data s)
    as [Hcall Hbase];
    [intros []; reflexivity | reflexivity | cbn; lia | reflexivity | ].
  rewrite Hcall. repeat split.
Defined.

Lemma Forall_firstn {A} (P : A -> Prop) (n : nat) (l : list A) :
  Forall P l -> Forall P (firstn n l).
Proof.
  revert n. induction l as [| x l IH]; intros n Hl.
  - destruct n; constructor.
  - destruct n as [| n]; [constructor | ].
    inversion Hl; subst. cbn [firstn]. constructor; auto.
Qed.

Lemma appendleft_window (q : nat) (x : Q * pyint) (l : list (Q * pyint)) :
  (0 < fst x)%Q ->
  Forall (fun dn => (0 < fst dn)%Q) l ->
  Forall (fun dn => (0 < fst dn)%Q) (ProcessorBase.appendleft q x l)
  /\ length (ProcessorBase.appendleft q x l) <= q.
Proof.
  intros Hx Hl. unfold ProcessorBase.appendleft. split.
  - apply Forall_firstn. constructor; assumption.
  - apply firstn_le_length.
Qed.

Lemma Qle_bool_false_lt (a b : Q) : Qle_bool a b = false -> (b < a)%Q.
Proof.
  intros Hf. apply Qnot_le_lt. intros Hle.
  apply Qle_bool_iff in Hle. congruence.
Qed.

Lemma measure_window_ok (now : Q) (frames : np.ndarray) (b : ProcessorBase.t) :
  window_ok b -> window_ok (snd (ProcessorBase.measure now frames b)).
Proof.
  intros [Hfreq [Hpos Hlen]]. unfold ProcessorBase.measure.
  destruct (np.ndim frames =? 3); [ | destruct (3 <? np.ndim frames)];
    unfold bind, ret, raise, get, put, modify, lift; cbn [fst snd];
    try (repeat split; assumption);
    (destruct (Qle_bool (Qred (now - ProcessorBase.last_print b))
                        (ProcessorBase.monitor_freq b)) eqn:E;
     cbn [negb fst snd];
     [ repeat split; assumption
     | apply Qle_bool_false_lt in E;
       assert (Hd : (0 < Qred (now - ProcessorBase.last_print b))%Q)
         by (eapply Qle_lt_trans; eassumption);
       match goal with
       | |- context [ProcessorBase.appendleft ?q ?x ?l] =>
           destruct (appendleft_window q x l Hd Hpos) as [Hw1 Hw2]
       end;
       destruct (rmap _ _); cbn [snd]; repeat split; assumption ]).
Qed.

(** The fields the monitor reads and never writes. *)
Lemma measure_config (now : Q) (frames : np.ndarray) (b : ProcessorBase.t) :
  let b' := snd (ProcessorBase.measure now frames b) in
  ProcessorBase.monitor b' = ProcessorBase.monitor b
  /\ ProcessorBase.qlen b' = ProcessorBase.qlen b
  /\ ProcessorBase.monitor_freq b' = ProcessorBase.monitor_freq b
  /\ ProcessorBase.start b' = ProcessorBase.start b.
Proof.
  unfold ProcessorBase.measure.
  destruct (np.ndim frames =? 3); [ | destruct (3 <? np.ndim frames)];
    unfold bind, ret, raise, get, put, modify, lift; cbn [fst snd];
    try (repeat split; reflexivity);
    (destruct (negb _); cbn [fst snd];
     [destruct (rmap _ _) | ]; repeat split; reflexivity).
Qed.

Section Window.
Context {S : Type} `{ProcessorLaws S}.

(** The inherited fields after a call: untouched, or what the monitor
    made of them. *)
Lemma call_base (now : Q) (frames : np.ndarray) (s : S) :
  base (snd (__call__ now frames s)) = base s
  \/ base (snd (__call__ now frames s))
     = snd (ProcessorBase.measure now frames (base s)).
Proof.
  destruct (fst (__process__ frames s)) as [[] | e] eqn:Hp.
  - destruct (ProcessorBase.monitor (base s)) eqn:Hm.
    + right. rewrite call_monitored by assumption. cbn [snd].
      apply base_with_base.
    + left. rewrite call_unmonitored by exact Hm. apply process_base.
  - left. rewrite (call_failed_process now frames s e Hp). apply process_base.
Qed.

Lemma run_window_ok (calls : list (Q * np.ndarray)) (s : S) :
  window_ok (base s) -> window_ok (base (run calls s)).
Proof.
  revert s. induction calls as [| [now frames] calls IH]; intros s Hw.
  - exact Hw.
  - cbn [run fold_left fst snd]. apply IH.
    destruct (call_base now frames s) as [-> | ->];
      [exact Hw | apply measure_window_ok; exact Hw].
Qed.

Lemma run_config (calls : list (Q * np.ndarray)) (s : S) :
  ProcessorBase.monitor (base (run calls s)) = ProcessorBase.monitor (base s)
  /\ ProcessorBase.qlen (base (run calls s)) = ProcessorBase.qlen (base s)
  /\ ProcessorBase.monitor_freq (base (run calls s))
     = ProcessorBase.monitor_freq (base s)
  /\ ProcessorBase.start (base (run calls s)) = ProcessorBase.start (base s).
Proof.
  revert s. induction calls as [| [now frames] calls IH]; intros s.
  - repeat split.
  - cbn [run fold_left fst snd].
    destruct (IH (snd (__call__ now frames s))) as [H1 [H2 [H3 H4]]].
    unfold run in H1, H2, H3, H4. rewrite H1, H2, H3, H4.
    destruct (call_base now frames s) as [-> | ->];
      [repeat split | apply measure_config].
Qed.
End Window.

(** X3 -- however many calls are made and whatever they raise, the
    window of the monitor never holds more than [qlen] intervals, and
    every interval stored in it is positive. *)
Theorem monitor_window_stays_bounded :
  forall (S : Type) `{ProcessorLaws S} (clock : Q) (monitor : bool)
         (qlen : nat) (calls : list (Q * np.ndarray)) (s : S),
    base s = ProcessorBase.__init__ clock monitor qlen ->
    length (ProcessorBase.deltas (base (run calls s))) <= qlen
    /\ Forall (fun dn => (0 < fst dn)%Q)
              (ProcessorBase.deltas (base (run calls s))).
Proof.
  intros S P L clock monitor qlen calls s Hinit.
  assert (Hw : window_ok (base s)).
  { rewrite Hinit. repeat split; cbn; [discriminate | constructor | lia]. }
  destruct (run_window_ok calls s Hw) as [_ [Hpos Hlen]].
  destruct (run_config calls s) as [_ [Hq _]].
  rewrite Hq, Hinit in Hlen. split; assumption.
Qed.

Lemma monitor_window_stays_bounded_witness :
  let s := ProcessorBase.__init__ 0 true 2 in
  let frame := ints [1; 1; 3] [1; 2; 3]%Z in
  let calls := [(1%Q, frame); (2%Q, frame); (3%Q, frame); (4%Q, frame)] in
  ProcessorBase.deltas (run calls s) = [(1%Q, PyInt 1); (1%Q, PyInt 1)]
  /\ length (ProcessorBase.deltas (base (run calls s))) <= 2.
Proof.
  intros s frame calls. split; [reflexivity | ].
  apply (monitor_window_stays_bounded ProcessorBase.t 0 true 2 calls s).
  reflexivity.
Defined.

Lemma rmap_total {A B} (f : A -> res B) (l : list A) :
  Forall (fun x => exists y, f x = Ok y) l -> exists ys, rmap f l = Ok ys.
Proof.
  induction 1 as [| x l [y Hy] _ [ys Hys]].
  - exists []. reflexivity.
  - exists (y :: ys). cbn [rmap]. rewrite Hy. cbn [rbind]. rewrite Hys.
    reflexivity.
Qed.

Lemma truediv_positive (n : pyint) (d : Q) :
  (0 < d)%Q -> exists y, truediv n d = Ok y.
Proof.
  intros Hd. unfold truediv. destruct n as [z | z]; [ | eexists; reflexivity].
  destruct (Qeq_bool d 0) eqn:E; [ | eexists; reflexivity].
  apply Qeq_bool_eq in E. rewrite E in Hd. discriminate.
Qed.

Lemma measure_returns (now : Q) (frames : np.ndarray) (b : ProcessorBase.t) :
  3 <= np.ndim frames -> window_ok b ->
  fst (ProcessorBase.measure now frames b) = Ok tt.
Proof.
  intros Hnd [Hfreq [Hpos Hlen]]. unfold ProcessorBase.measure.
  destruct (np.ndim frames =? 3) eqn:E3;
    [ | replace (3 <? np.ndim frames) with true
          by (symmetry; apply Nat.ltb_lt; apply Nat.eqb_neq in E3; lia)];
    unfold bind, ret, get, put, modify, lift; cbn [fst snd];
    (destruct (Qle_bool (Qred (now - ProcessorBase.last_print b))
                        (ProcessorBase.monitor_freq b)) eqn:E;
     cbn [negb fst snd]; [reflexivity | ];
     apply Qle_bool_false_lt in E;
     assert (Hd : (0 < Qred (now - ProcessorBase.last_print b))%Q)
       by (eapply Qle_lt_trans; eassumption);
     match goal with
     | |- context [ProcessorBase.appendleft ?q ?x ?l] =>
         destruct (appendleft_window q x l Hd Hpos) as [Hw1 _];
         destruct (rmap_total (fun dn => truediv (snd dn) (fst dn))
                     (ProcessorBase.appendleft q x l)) as [ys Hys]
     end;
     [ eapply Forall_impl; [ | exact Hw1];
       intros dn Hdn; apply truediv_positive; exact Hdn
     | rewrite Hys; reflexivity ]).
Qed.

(** X4 -- in every state reached from the constructor with monitoring
    on, a call on a batch with at least three axes raises only if
    [__process__] does: the smoothed rate never divides by a zero
    interval. *)
Theorem monitored_call_raises_only_from_process :
  forall (S : Type) `{ProcessorLaws S} (clock : Q) (qlen : nat)
         (calls : list (Q * np.ndarray)) (s : S)
         (now : Q) (frames : np.ndarray),
    base s = ProcessorBase.__init__ clock true qlen ->
    3 <= np.ndim frames ->
    fst (__process__ frames (run calls s)) = Ok tt ->
    fst (__call__ now frames (run calls s)) = Ok tt.
Proof.
  intros S P L clock qlen calls s now frames Hinit Hnd Hok.
  assert (Hw : window_ok (base s)).
  { rewrite Hinit. repeat split; cbn; [discriminate | constructor | lia]. }
  destruct (run_config calls s) as [Hm _].
  rewrite call_monitored; [ | rewrite Hm, Hinit; reflexivity | exact Hok].
  cbn [fst]. apply measure_returns; [exact Hnd | ].
  apply run_window_ok. exact Hw.
Qed.

Lemma monitored_call_raises_only_from_process_witness :
  let s := PixelCatcher.__init__ 0 [(0, 0)]%Z true in
  let batch := ints [2; 1; 1; 3] [1; 2; 3; 4; 5; 6]%Z in
  fst (__call__ 3 batch (run [(1%Q, batch); (2%Q, batch)] s)) = Ok tt.
Proof.
  intros s batch.
  apply (monitored_call_raises_only_from_process PixelCatcher.t 0 10
           [(1%Q, batch); (2%Q, batch)] s 3 batch);
    [reflexivity | cbn; lia | reflexivity].
Defined.

Lemma failed_call (S : Type) `{ProcessorLaws S} (now : Q)
  (frames : np.ndarray) (s : S) (e : exn) :
  atomic (__process__ frames) ->
  fst (__process__ frames s) = Raise e ->
  __call__ now frames s = (Raise e, s).
Proof.
  intros Hat He. rewrite (call_failed_process now frames s e He).
  specialize (Hat s e He).
  destruct (__process__ frames s) as [r s1]. cbn [fst snd] in *.
  subst. reflexivity.
Qed.

(** X5 -- when [__process__] of [OnlineStats], [PixelCatcher] or
    [BoxCatcher] raises, the call raises the same exception and leaves
    the whole object as it was, monitoring on or off: the batch is not
    counted in [total_frames] and the clock is not read. *)
Theorem failed_call_changes_nothing :
  (forall (self : OnlineStats.t) (now : Q) (data : np.ndarray) (e : exn),
      fst (OnlineStats.__process__ data self) = Raise e ->
      __call__ now data self = (Raise e, self))
  /\ (forall (self : PixelCatcher.t) (now : Q) (frames : np.ndarray) (e : exn),
         fst (PixelCatcher.__process__ frames self) = Raise e ->
         __call__ now frames self = (Raise e, self))
  /\ (forall (self : BoxCatcher.t) (now : Q) (frames : np.ndarray) (e : exn),
         fst (BoxCatcher.__process__ frames self) = Raise e ->
         __call__ now frames self = (Raise e, self)).
Proof.
  split; [ | split]; intros self now frames e He.
  - apply (failed_call OnlineStats.t); [apply OnlineStats_process_atomic | exact He].
  - apply (failed_call PixelCatcher.t); [apply PixelCatcher_process_atomic | exact He].
  - apply (failed_call BoxCatcher.t); [apply BoxCatcher_process_atomic | exact He].
Qed.

Lemma failed_call_changes_nothing_witness :
  let stats := OnlineStats.__init__ 0 [2; 2; 3] true in
  let pix := PixelCatcher.__init__ 0 [(5, 5)]%Z true in
  let box := BoxCatcher.__init__ 0 [(0, 0)]%Z (1, 1)%Z None true in
  __call__ 1 (ints [1; 2; 2; 1] [1; 2; 3; 4]%Z) stats = (Raise ValueError, stats)
  /\ __call__ 1 (ints [1; 2; 2; 1] [1; 2; 3; 4]%Z) pix = (Raise IndexError, pix)
  /\ __call__ 1 (ints [1; 1] [1]%Z) box = (Raise IndexError, box).
Proof.
  intros stats pix box.
  pose proof failed_call_changes_nothing as [H1 [H2 H3]].
  split; [ | split].
  - apply H1. reflexivity.
  - apply H2. reflexivity.
  - apply H3. reflexivity.
Defined.

(** ** Online statistics, element by element *)

Lemma size_rev (sh : list nat) : np.size (rev sh) = np.size sh.
Proof.
  induction sh as [| d sh IH]; [reflexivity | ].
  cbn [rev]. rewrite size_app, IH. unfold np.size. cbn [fold_right]. lia.
Qed.

Lemma bidx_rev_same (r : list nat) (t stride : nat) :
  t < np.size r -> np.bidx_rev r r t stride = stride * t.
Proof.
  revert t stride. induction r as [| e r IH]; intros t stride Ht.
  - cbn in Ht. cbn [np.bidx_rev]. lia.
  - cbn [np.size fold_right] in Ht.
    change (fold_right Nat.mul 1 r) with (np.size r) in Ht.
    assert (He : e <> 0) by (intros ->; lia).
    assert (Hq : t / e < np.size r)
      by (apply Nat.Div0.div_lt_upper_bound; lia).
    cbn [np.bidx_rev]. rewrite IH by exact Hq.
    pose proof (Nat.div_mod_eq t e) as Hdm.
    destruct (e =? 1) eqn:E1.
    + apply Nat.eqb_eq in E1. subst e.
      rewrite Nat.div_1_r in *. lia.
    + nia.
Qed.

Lemma bshape_rev_same (r : list nat) : np.bshape_rev r r = Some r.
Proof.
  induction r as [| a r IH]; [reflexivity | ].
  cbn [np.bshape_rev]. rewrite IH, Nat.eqb_refl. reflexivity.
Qed.

Lemma map2_same_shape (f : num -> num -> num) (a b : np.ndarray)
  (sh : list nat) :
  np.shape a = sh -> np.shape b = sh ->
  np.map2 f a b
  = Ok (np.mkarr sh (map (fun t => f (np.item a t) (np.item b t))
                         (seq 0 (np.size sh)))).
Proof.
  intros Ha Hb. unfold np.map2, np.broadcast_shape.
  rewrite Ha, Hb, bshape_rev_same. cbn [option_map]. rewrite rev_involutive.
  do 2 f_equal. apply map_ext_in. intros t Ht. apply in_seq in Ht.
  unfold np.bitem. rewrite Ha, Hb.
  rewrite bidx_rev_same by (rewrite size_rev; lia).
  rewrite Nat.mul_1_l. reflexivity.
Qed.

Lemma item_map1 (g : num -> num) (a : np.ndarray) (t : nat) :
  g NaN = NaN -> np.item (np.map1 g a) t = g (np.item a t).
Proof.
  intros Hg. unfold np.item, np.map1. cbn [np.data].
  rewrite <- Hg at 1. apply map_nth.
Qed.

Lemma map1_tabulate {A} (g : num -> num) (sh : list nat) (F : A -> num)
  (l : list A) :
  np.map1 g (np.mkarr sh (map F l)) = np.mkarr sh (map (fun t => g (F t)) l).
Proof. unfold np.map1. cbn [np.shape np.data]. rewrite map_map. reflexivity. Qed.

Lemma item_tabulate (sh : list nat) (F : nat -> num) (N t : nat) :
  t < N -> np.item (np.mkarr sh (map F (seq 0 N))) t = F t.
Proof. intros Ht. unfold np.item. cbn [np.data]. apply nth_map_seq. exact Ht. Qed.

Lemma reduce_first_axis (f : list num -> num) (data : np.ndarray)
  (n : nat) (sh : list nat) :
  np.shape data = n :: sh ->
  np.reduce_axis f 0 data
  = np.mkarr sh (map (fun t => f (column data t)) (seq 0 (np.size sh))).
Proof.
  intros Hsh. unfold np.reduce_axis, column, frames_of. rewrite Hsh.
  cbn [firstn skipn nth app np.size fold_right seq flat_map hd tl].
  rewrite app_nil_r. reflexivity.
Qed.

Lemma tuple_suffix_batch (n : nat) (sh : list nat) :
  sh <> [] -> tuple_suffix (length sh) (n :: sh) = sh.
Proof.
  intros Hne. unfold tuple_suffix.
  destruct sh as [| d sh]; [congruence | ].
  cbn [length Nat.eqb].
  replace (S (S (length sh)) - S (length sh)) with 1 by lia.
  reflexivity.
Qed.

Lemma first_axis_checks (n : nat) (sh : list nat) :
  tuple_get (n :: sh) 0 = Ok n /\ norm_axis 0 (length (n :: sh)) = Ok 0.
Proof.
  unfold tuple_get, norm_index, norm_axis, wrap_index.
  cbn [Z.ltb Z.compare length].
  replace ((0 <=? 0) && (0 <? Z.of_nat (S (length sh))))%Z with true
    by (symmetry; apply andb_true_iff; split;
        [apply Z.leb_le | apply Z.ltb_lt]; lia).
  split; reflexivity.
Qed.

Lemma OnlineStats_process_elementwise (s : OnlineStats.t) (data : np.ndarray) :
  stats_shaped s -> batch_for s data ->
  let sh := OnlineStats.shape s in
  let c := OnlineStats.count s in
  let n := Z.of_nat (frames_of data) in
  OnlineStats.__process__ data s
  = (Ok tt,
     {| OnlineStats.super := OnlineStats.super s;
        OnlineStats.shape := sh;
        OnlineStats.mean :=
          np.mkarr sh
            (map (fun t =>
                    merged_mean c n (np.item (OnlineStats.mean s) t)
                                (np.mean_of (column data t)))
                 (seq 0 (np.size sh)));
        OnlineStats.var :=
          np.mkarr sh
            (map (fun t =>
                    merged_var c n
                      (np.item (OnlineStats.mean s) t)
                      (np.item (OnlineStats.var s) t)
                      (np.mean_of (column data t))
                      (np.var_of (column data t)))
                 (seq 0 (np.size sh)));
        OnlineStats.count := c + n |}).
Proof.
  intros [Hne [Hsize [Hmean Hvar]]] Hdata sh c n.
  unfold batch_for in Hdata. fold sh in Hne, Hsize, Hmean, Hvar, Hdata.
  destruct (first_axis_checks (frames_of data) sh) as [Hget Haxis].
  unfold OnlineStats.__process__, bind, get, lift, raise, modify.
  fold sh. rewrite Hdata, (tuple_suffix_batch _ _ Hne).
  unfold np.shape_eqb at 1.
  destruct (list_eq_dec Nat.eq_dec sh sh) as [_ | Hx]; [ | congruence].
  cbn [negb].
  change ((-1)%Z :: map Z.of_nat sh)
    with (map Z.of_nat [] ++ [(-1)%Z] ++ map Z.of_nat sh).
  rewrite (reshape_infer data [] sh (frames_of data));
    [ | exact Hsize | rewrite Hdata; reflexivity].
  rewrite Hget.
  unfold np.mean, np.var, np.ndim. rewrite Hdata, Haxis. cbn [rbind].
  rewrite !(reduce_first_axis _ data (frames_of data) sh Hdata).
  fold n c.
  rewrite (map2_same_shape _ _ _ sh) by (cbn [OnlineStats.times np.map1 np.shape]; assumption || reflexivity).
  rewrite (map2_same_shape _ _ _ sh) by (cbn [np.shape]; assumption || reflexivity).
  rewrite (map2_same_shape _ _ _ sh) by reflexivity.
  rewrite (map2_same_shape _ _ _ sh)
    by (cbn [OnlineStats.int_times np.map1 np.shape]; assumption || reflexivity).
  unfold OnlineStats.set_mean, OnlineStats.set_count, OnlineStats.set_var.
  cbn [fst snd OnlineStats.super OnlineStats.shape OnlineStats.mean
       OnlineStats.var OnlineStats.count].
  f_equal. unfold OnlineStats.over. rewrite !map1_tabulate.
  f_equal; try lia; f_equal; apply map_ext_in; intros t Ht;
    apply in_seq in Ht; cbn [Nat.add] in Ht; destruct Ht as [_ Ht].
  - unfold merged_mean, OnlineStats.int_times.
    rewrite !item_map1 by reflexivity.
    rewrite item_tabulate by exact Ht.
    reflexivity.
  - unfold merged_var, OnlineStats.times.
    repeat first [ rewrite item_tabulate by exact Ht
                 | rewrite item_map1 by reflexivity ].
    reflexivity.
Qed.

(** ** The first data point *)

Lemma column_single (b : np.ndarray) (sh : list nat) (t : nat) :
  np.shape b = 1 :: sh -> column b t = [np.item b t].
Proof.
  intros Hsh. unfold column, np.lane, frames_of. rewrite Hsh. reflexivity.
Qed.

Lemma merged_mean_single (x : num) :
  same_num (merged_mean 0 1 (Fin 0) (np.mean_of [x])) x.
Proof.
  unfold merged_mean, np.mean_of, np.fsum. cbn [fold_left length].
  destruct x as [q | | |]; try exact I.
  unfold fadd, fmul, fdiv, fin, of_nat, of_Z.
  change (inject_Z (Z.of_nat 1)) with 1%Q. change (inject_Z (1 + 0)) with 1%Q.
  change (inject_Z 1) with 1%Q. change (inject_Z 0) with 0%Q.
  change (Qeq_bool 1 0) with false. cbv iota. unfold same_num.
  rewrite !Qred_correct. field.
Qed.

Lemma inject_Z_nonzero (z : Z) : z <> 0%Z -> ~ (inject_Z z == 0)%Q.
Proof. intros Hz. unfold Qeq, inject_Z. cbn [Qnum Qden]. lia. Qed.

Lemma fadd_fin (a b : Q) : fadd (Fin a) (Fin b) = Fin (Qred (a + b)).
Proof. reflexivity. Qed.

Lemma fsub_fin (a b : Q) : fsub (Fin a) (Fin b) = Fin (Qred (a - b)).
Proof. reflexivity. Qed.

Lemma fmul_fin (a b : Q) : fmul (Fin a) (Fin b) = Fin (Qred (a * b)).
Proof. reflexivity. Qed.

Lemma fdiv_fin (a b : Q) :
  ~ (b == 0)%Q -> fdiv (Fin a) (Fin b) = Fin (Qred (a / b)).
Proof. apply fdiv_finite. Qed.

Lemma merged_var_first_one (qm qv : Q) :
  merged_var 0 1 (Fin 0) (Fin 0) (Fin qm) (Fin qv) = NaN.
Proof.
  unfold merged_var, fsquare, of_Z.
  change (0 + 1 - 1)%Z with 0%Z. change (1 + 0)%Z with 1%Z.
  change (1 - 1)%Z with 0%Z. change (0 - 1)%Z with (-1)%Z.
  assert (H1 : ~ (inject_Z 1 == 0)%Q) by (apply inject_Z_nonzero; lia).
  rewrite fsub_fin, !fmul_fin, (fdiv_fin _ _ H1), !fadd_fin.
  unfold fdiv. change (Qeq_bool (inject_Z 0) 0) with true. cbv iota.
  match goal with
  | |- match (?a ?= 0)%Q with _ => _ end = _ =>
      assert (Hz : (a == 0)%Q)
  end.
  { rewrite !Qred_correct. change (inject_Z 0) with 0%Q.
    change (inject_Z 1) with 1%Q. field. }
  apply Qeq_alt in Hz. rewrite Hz. reflexivity.
Qed.

(** Whatever the mean and the variance of the batch are, also [inf] or
    [nan]: the sum of squares is 0 or [nan], and is divided by 0. *)
Lemma merged_var_single (mb vb : num) :
  merged_var 0 1 (Fin 0) (Fin 0) mb vb = NaN.
Proof.
  destruct mb as [qm | | |], vb as [qv | | |];
    first [apply merged_var_first_one | reflexivity].
Qed.

(** X7 -- the first update of a fresh [OnlineStats] with a batch that
    holds exactly one data point of its shape, whatever its values: the
    update returns, the count is 1, every element of the mean is that
    element of the data point, and every element of the variance is
    [nan]: the sum of squares, 0 or [nan], divided by [count - 1 = 0].
    Rounding plays no part in it: the mean of one value is the value, and
    the quotient is [nan] whether or not a square overflows. *)
Theorem single_first_point_has_no_variance :
  forall (clock : Q) (sh : list nat) (monitor : bool) (b : np.ndarray),
    sh <> [] -> np.size sh <> 0 ->
    np.shape b = 1 :: sh ->
    exists s : OnlineStats.t,
      OnlineStats.__process__ b (OnlineStats.__init__ clock sh monitor)
      = (Ok tt, s)
      /\ OnlineStats.count s = 1%Z
      /\ np.shape (OnlineStats.mean s) = sh
      /\ np.shape (OnlineStats.var s) = sh
      /\ forall t, t < np.size sh ->
           same_num (np.item (OnlineStats.mean s) t) (np.item b t)
           /\ np.item (OnlineStats.var s) t = NaN.
Proof.
  intros clock sh monitor b Hne Hsize Hsh.
  set (s0 := OnlineStats.__init__ clock sh monitor).
  assert (Hshaped : stats_shaped s0) by (repeat split; assumption).
  assert (Hone : frames_of b = 1) by (unfold frames_of; rewrite Hsh; reflexivity).
  assert (Hb : batch_for s0 b) by (unfold batch_for; rewrite Hone; exact Hsh).
  pose proof (OnlineStats_process_elementwise s0 b Hshaped Hb) as Hstep.
  cbv zeta in Hstep. rewrite Hone in Hstep.
  eexists. split; [exact Hstep | ].
  split; [reflexivity | split; [reflexivity | split; [reflexivity | ]]].
  intros t Ht. cbn [OnlineStats.mean OnlineStats.var].
  rewrite !item_tabulate by exact Ht.
  assert (Hzero : np.item (np.zeros sh) t = Fin 0).
  { unfold np.item, np.zeros. cbn [np.data]. apply nth_repeat_lt. exact Ht. }
  cbn [s0 OnlineStats.__init__ OnlineStats.count OnlineStats.mean
       OnlineStats.var OnlineStats.shape].
  rewrite Hzero, (column_single b sh t Hsh).
  split; [apply merged_mean_single | apply merged_var_single].
Qed.

Lemma single_first_point_has_no_variance_witness :
  let b := ints [1; 2] [5; 7]%Z in
  exists s : OnlineStats.t,
    OnlineStats.__process__ b (OnlineStats.__init__ 0 [2] false) = (Ok tt, s)
    /\ OnlineStats.count s = 1%Z
    /\ same_num (np.item (OnlineStats.mean s) 1) (Fin 7)
    /\ np.item (OnlineStats.var s) 0 = NaN
    /\ np.item (OnlineStats.var s) 1 = NaN.
Proof.
  intros b.
  destruct (single_first_point_has_no_variance 0 [2] false b)
    as [s [Hs [Hcount [_ [_ Hitems]]]]].
  - discriminate.
  - discriminate.
  - reflexivity.
  - exists s. split; [exact Hs | split; [exact Hcount | ]].
    split; [apply (proj1 (Hitems 1 ltac:(cbn; lia))) | ].
    split; [apply (proj2 (Hitems 0 ltac:(cbn; lia)))
           | apply (proj2 (Hitems 1 ltac:(cbn; lia)))].
Defined.

(** ** [nan] never leaves *)

Lemma merged_var_nan (c n : Z) (m mb vb : num) :
  merged_var c n m NaN mb vb = NaN.
Proof. reflexivity. Qed.

Lemma fadd_nan_r (x : num) : fadd x NaN = NaN.
Proof. destruct x; reflexivity. Qed.

Lemma fmul_nan_r (x : num) : fmul x NaN = NaN.
Proof. destruct x; reflexivity. Qed.

Lemma merged_mean_nan (c n : Z) (mb : num) : merged_mean c n NaN mb = NaN.
Proof.
  unfold merged_mean. rewrite fmul_nan_r, fadd_nan_r. reflexivity.
Qed.

Lemma merged_var_nan_mean (c n : Z) (v mb vb : num) :
  merged_var c n NaN v mb vb = NaN.
Proof.
  unfold merged_var, fsquare. change (fsub NaN mb) with NaN.
  change (fmul NaN NaN) with NaN. change (fmul NaN (of_Z n)) with NaN.
  change (fmul NaN (of_Z c)) with NaN.
  change (fdiv NaN (of_Z (n + c))) with NaN.
  rewrite fadd_nan_r. reflexivity.
Qed.

(** X8 -- [OnlineStats] never raises on a batch of data points of its
    shape, and [nan] never leaves it: an element of the variance that is
    [nan] stays [nan] through every later update, and so does an element
    of the mean, which turns the variance into [nan] as well. *)
Theorem nan_is_absorbing :
  forall (batches : list np.ndarray) (s : OnlineStats.t) (t : nat),
    stats_shaped s ->
    Forall (batch_for s) batches ->
    t < np.size (OnlineStats.shape s) ->
    exists s' : OnlineStats.t,
      feed batches s = (Ok tt, s')
      /\ (np.item (OnlineStats.var s) t = NaN ->
          np.item (OnlineStats.var s') t = NaN)
      /\ (np.item (OnlineStats.mean s) t = NaN ->
          np.item (OnlineStats.mean s') t = NaN
          /\ (batches <> [] -> np.item (OnlineStats.var s') t = NaN)).
Proof.
  induction batches as [| b rest IH]; intros s t Hshaped Hall Ht.
  - exists s. split; [reflexivity | ]. split; [auto | ].
    intros Hm. split; [exact Hm | congruence].
  - inversion Hall as [| ? ? Hb Hrest]; subst.
    pose proof (OnlineStats_process_elementwise s b Hshaped Hb) as Hstep.
    cbv zeta in Hstep.
    match type of Hstep with _ = (_, ?x) => set (s1 := x) in * end.
    assert (Hshaped1 : stats_shaped s1)
      by (destruct Hshaped as [? [? _]]; repeat split; assumption).
    destruct (IH s1 t Hshaped1 Hrest Ht) as [s' [Hfeed [Hvar Hmean]]].
    exists s'. cbn [feed]. unfold bind at 1.
    cbn [__process__ OnlineStats_Processor]. rewrite Hstep.
    split; [exact Hfeed | ].
    assert (Hv1 : np.item (OnlineStats.var s) t = NaN ->
                  np.item (OnlineStats.var s1) t = NaN).
    { intros Hv. cbn [s1 OnlineStats.var].
      rewrite item_tabulate by exact Ht. rewrite Hv. apply merged_var_nan. }
    assert (Hm1 : np.item (OnlineStats.mean s) t = NaN ->
                  np.item (OnlineStats.mean s1) t = NaN
                  /\ np.item (OnlineStats.var s1) t = NaN).
    { intros Hm. cbn [s1 OnlineStats.var OnlineStats.mean].
      rewrite !item_tabulate by exact Ht. rewrite Hm. split.
      - apply merged_mean_nan.
      - apply merged_var_nan_mean. }
    split.
    + intros Hv. apply Hvar. apply Hv1. exact Hv.
    + intros Hm. destruct (Hm1 Hm) as [Hm' Hv'].
      split; [apply Hmean; exact Hm' | intros _; apply Hvar; exact Hv'].
Qed.

Lemma nan_is_absorbing_witness :
  let s := snd (feed [ints [1; 1] [5]%Z] (OnlineStats.__init__ 0 [1] false)) in
  let later := [ints [2; 1] [1; 3]%Z; ints [3; 1] [2; 4; 6]%Z] in
  np.item (OnlineStats.var s) 0 = NaN
  /\ exists s' : OnlineStats.t,
       feed later s = (Ok tt, s')
       /\ np.item (OnlineStats.var s') 0 = NaN.
Proof.
  intros s later. split; [reflexivity | ].
  destruct (nan_is_absorbing later s 0) as [s' [Hfeed [Hvar _]]].
  - repeat split; discriminate.
  - repeat constructor.
  - cbn. lia.
  - exists s'. split; [exact Hfeed | apply Hvar; reflexivity].
Defined.

(** ** The count *)

Lemma OnlineStats_process_count (s : OnlineStats.t) (data : np.ndarray) :
  fst (OnlineStats.__process__ data s) = Ok tt ->
  OnlineStats.count (snd (OnlineStats.__process__ data s))
  = (OnlineStats.count s + Z.of_nat (frames_of data))%Z.
Proof.
  unfold OnlineStats.__process__, bind, get, lift, raise, modify.
  destruct (negb _); cbn [fst snd]; [discriminate | ].
  destruct (np.reshape _ _); cbn [fst snd]; [ | discriminate].
  destruct (tuple_get (np.shape data) 0) as [n | e] eqn:Hn; cbn [fst snd];
    [ | discriminate].
  apply tuple_get_first in Hn. fold (frames_of data) in Hn. subst n.
  repeat (match goal with
          | |- context [match ?r with Ok _ => _ | Raise _ => _ end] =>
              destruct r
          end; cbn [fst snd]; try discriminate).
  intros _. reflexivity.
Qed.

(** X9 -- whenever a stream of updates of [OnlineStats] goes through,
    the count has grown by the sum of the first dimensions of the
    batches, whatever their other dimensions. *)
Theorem count_adds_first_dimensions :
  forall (batches : list np.ndarray) (s s' : OnlineStats.t),
    feed batches s = (Ok tt, s') ->
    OnlineStats.count s'
    = (OnlineStats.count s + Z.of_nat (list_sum (map frames_of batches)))%Z.
Proof.
  induction batches as [| b rest IH]; intros s s' Hfeed.
  - cbn in Hfeed. injection Hfeed as <-.
    cbn [map list_sum fold_right Z.of_nat]. lia.
  - cbn [feed] in Hfeed. unfold bind at 1 in Hfeed.
    cbn [__process__ OnlineStats_Processor] in Hfeed.
    pose proof (OnlineStats_process_count s b) as Hstep.
    destruct (OnlineStats.__process__ b s) as [[[] | e] s1];
      cbn [fst snd] in *; [ | discriminate].
    rewrite (IH s1 s' Hfeed), Hstep by reflexivity.
    change (list_sum (map frames_of (b :: rest)))
      with (frames_of b + list_sum (map frames_of rest)).
    lia.
Qed.

Lemma count_adds_first_dimensions_witness :
  let batches := [ints [2; 3; 1] [1; 2; 3; 4; 5; 6]%Z;
                  ints [4; 1] [1; 2; 3; 4]%Z] in
  OnlineStats.count (snd (feed batches (OnlineStats.__init__ 0 [1] false)))
  = 6%Z.
Proof.
  intros batches.
  apply (count_adds_first_dimensions batches
           (OnlineStats.__init__ 0 [1] false)
           (snd (feed batches (OnlineStats.__init__ 0 [1] false)))).
  reflexivity.
Defined.

(** ** What [BoxCatcher] logs *)

Lemma box_capture_item (b : np.ndarray) (r : (Z * Z) * (Z * Z))
  (f i j k : nat) :
  f < frames_of b -> i < region_rows b r -> j < region_cols b r ->
  k < nth 3 (np.shape b) 0 ->
  nth ((f * (region_rows b r * region_cols b r) + (i * region_cols b r + j))
       * nth 3 (np.shape b) 0 + k)
      (np.data (box_capture b r)) NaN
  = region_item b r f i j k.
Proof.
  intros Hf Hi Hj Hk. unfold box_capture. cbn [np.data].
  set (c := nth 3 (np.shape b) 0) in *.
  set (nx := region_rows b r) in *. set (ny := region_cols b r) in *.
  assert (Hpix : forall f i j,
             length (map (region_item b r f i j) (seq 0 c)) = c)
    by (intros; rewrite length_map, length_seq; reflexivity).
  assert (Hrow : forall f i,
             length (flat_map (fun j => map (region_item b r f i j) (seq 0 c))
                              (seq 0 ny)) = ny * c).
  { intros f0 i0.
    rewrite flat_map_constant_length with (c := c);
      [rewrite length_seq; reflexivity | intros; apply Hpix]. }
  assert (Hframe : forall f,
             length (flat_map
                       (fun i => flat_map
                                   (fun j => map (region_item b r f i j) (seq 0 c))
                                   (seq 0 ny))
                       (seq 0 nx)) = nx * (ny * c)).
  { intros f0.
    rewrite flat_map_constant_length with (c := ny * c);
      [rewrite length_seq; reflexivity | intros; apply Hrow]. }
  replace ((f * (nx * ny) + (i * ny + j)) * c + k)
    with (f * (nx * (ny * c)) + (i * (ny * c) + (j * c + k))) by nia.
  assert (H1 : j * c + k < ny * c).
  { apply Nat.lt_le_trans with ((j + 1) * c); [lia | ].
    apply Nat.mul_le_mono_r. lia. }
  assert (H2 : i * (ny * c) + (j * c + k) < nx * (ny * c)).
  { apply Nat.lt_le_trans with ((i + 1) * (ny * c)); [lia | ].
    apply Nat.mul_le_mono_r. lia. }
  rewrite nth_seq_block; [ | exact Hframe | exact Hf | exact H2].
  rewrite nth_seq_block; [ | apply Hrow | exact Hi | exact H1].
  rewrite nth_seq_block; [ | apply Hpix | exact Hj | exact Hk].
  apply nth_map_seq. exact Hk.
Qed.

(** X10 -- an update of [BoxCatcher] with a batch of shape (N, H, W, C),
    N and C not 0, never raises: it appends to the log one capture per
    region, of shape (N, rows * columns, C), that holds the raw values of
    the region, pixel by pixel in row-major order. *)
Theorem box_update_keeps_the_region_values :
  forall (self : BoxCatcher.t) (b : np.ndarray) (n h w c : nat),
    np.shape b = [n; h; w; c] -> n * c <> 0 ->
    exists row : list np.ndarray,
      BoxCatcher.__process__ b self
      = (Ok tt, BoxCatcher.set_values (BoxCatcher.values self ++ [row]) self)
      /\ length row = length (BoxCatcher.ranges self)
      /\ forall p r,
          nth_error (BoxCatcher.ranges self) p = Some r ->
          exists a : np.ndarray,
            nth_error row p = Some a
            /\ np.shape a = [n; region_rows b r * region_cols b r; c]
            /\ forall f i j k,
                f < n -> i < region_rows b r -> j < region_cols b r -> k < c ->
                at_ a [f; i * region_cols b r + j; k] = region_item b r f i j k.
Proof.
  intros self b n h w c Hsh Hnc.
  exists (map (box_capture b) (BoxCatcher.ranges self)).
  split; [apply (BoxCatcher_process_captures self b n h w c Hsh Hnc) | ].
  split; [apply length_map | ].
  intros p r Hp. exists (box_capture b r).
  split; [rewrite nth_error_map, Hp; reflexivity | ].
  assert (Hn : frames_of b = n) by (unfold frames_of; rewrite Hsh; reflexivity).
  assert (Hc : nth 3 (np.shape b) 0 = c) by (rewrite Hsh; reflexivity).
  split.
  - unfold box_capture. cbn [np.shape]. rewrite Hn, Hc. reflexivity.
  - intros f i j k Hf Hi Hj Hk.
    unfold at_, ravel, np.item.
    cbn [box_capture np.shape combine fold_left fst snd].
    rewrite Nat.mul_0_l, Nat.add_0_l.
    apply box_capture_item; [rewrite Hn | | | rewrite Hc]; assumption.
Qed.

Lemma box_update_keeps_the_region_values_witness :
  let box := BoxCatcher.__init__ 0 [(1, 1)]%Z (3, 3)%Z None false in
  let b := ints [1; 3; 3; 1] [1; 2; 3; 4; 5; 6; 7; 8; 9]%Z in
  exists row : list np.ndarray,
    BoxCatcher.__process__ b box = (Ok tt, BoxCatcher.set_values [row] box)
    /\ length row = 1.
Proof.
  intros box b.
  destruct (box_update_keeps_the_region_values box b 1 3 3 1)
    as [row [Hrow [Hlen _]]]; [reflexivity | discriminate | ].
  exists row. split; [exact Hrow | exact Hlen].
Defined.

(** ** The regions of [BoxCatcher] *)

Lemma extent_inside (x off : Z) (len : nat) :
  (0 <= off <= x)%Z -> (x + off < Z.of_nat len)%Z ->
  slice_indices (x - off) (x + off + 1) len
  = (Z.to_nat (x - off), Z.to_nat (2 * off + 1)).
Proof.
  intros Hlo Hhi. unfold slice_indices, slice_bound, wrap_index.
  replace (x - off <? 0)%Z with false by (symmetry; apply Z.ltb_ge; lia).
  replace (x + off + 1 <? 0)%Z with false by (symmetry; apply Z.ltb_ge; lia).
  f_equal; lia.
Qed.

Lemma extent_clipped (x off : Z) (len : nat) :
  (0 <= off <= x)%Z -> (x < Z.of_nat len <= x + off)%Z ->
  slice_indices (x - off) (x + off + 1) len
  = (Z.to_nat (x - off), Z.to_nat (Z.of_nat len - (x - off))).
Proof.
  intros Hlo Hhi. unfold slice_indices, slice_bound, wrap_index.
  replace (x - off <? 0)%Z with false by (symmetry; apply Z.ltb_ge; lia).
  replace (x + off + 1 <? 0)%Z with false by (symmetry; apply Z.ltb_ge; lia).
  f_equal; lia.
Qed.

Lemma extent_wrapped (x off : Z) (len : nat) :
  (0 <= x < off)%Z -> (2 * off + 1 <= Z.of_nat len)%Z ->
  extent x off len = 0.
Proof.
  intros Hlo Hhi. unfold extent, slice_indices, slice_bound, wrap_index.
  replace (x - off <? 0)%Z with true by (symmetry; apply Z.ltb_lt; lia).
  replace (x + off + 1 <? 0)%Z with false by (symmetry; apply Z.ltb_ge; lia).
  cbn [snd]. lia.
Qed.

(** X11 -- the region [BoxCatcher.__init__] builds around a pixel
    (row, col) for [box_size = (s0, s1)] spans the rows
    [row - s1 // 2 .. row + s1 // 2] and the columns
    [col - s0 // 2 .. col + s0 // 2].  In a frame it has
    [2 * (s // 2) + 1] indices along an axis when it fits (an even size
    gives one more than asked); it is cut at the far edge of the frame
    when it sticks out there; and it is empty when it sticks out at the
    near edge of a frame at least as long as the box, because the
    negative start of the slice counts from the far edge. *)
Theorem box_regions :
  forall (clock : Q) (pixels : list (Z * Z)) (s0 s1 : Z)
         (agg : option (np.ndarray -> Z -> res np.ndarray)) (monitor : bool)
         (b : np.ndarray) (p : nat) (row col : Z),
    nth_error pixels p = Some (row, col) ->
    exists r : (Z * Z) * (Z * Z),
      nth_error
        (BoxCatcher.ranges (BoxCatcher.__init__ clock pixels (s0, s1) agg monitor))
        p = Some r
      /\ region_rows b r = extent row (s1 / 2) (nth 1 (np.shape b) 0)
      /\ region_cols b r = extent col (s0 / 2) (nth 2 (np.shape b) 0)
      /\ forall (x off : Z) (len : nat),
          (0 <= off)%Z ->
          ((off <= x)%Z -> (x + off < Z.of_nat len)%Z ->
           extent x off len = Z.to_nat (2 * off + 1))
          /\ ((off <= x)%Z -> (x < Z.of_nat len <= x + off)%Z ->
              extent x off len = Z.to_nat (Z.of_nat len - (x - off)))
          /\ ((0 <= x < off)%Z -> (2 * off + 1 <= Z.of_nat len)%Z ->
              extent x off len = 0).
Proof.
  intros clock pixels s0 s1 agg monitor b p row col Hp.
  eexists. split.
  - cbn [BoxCatcher.__init__ BoxCatcher.ranges].
    rewrite nth_error_map, Hp. reflexivity.
  - split; [reflexivity | split; [reflexivity | ]].
    intros x off len Hoff. split; [ | split].
    + intros Hx Hfit. unfold extent.
      rewrite extent_inside by lia. reflexivity.
    + intros Hx Hout. unfold extent.
      rewrite extent_clipped by lia. reflexivity.
    + apply extent_wrapped.
Qed.

Lemma box_regions_witness :
  let b := ints [1; 5; 5; 1] (map Z.of_nat (seq 0 25)) in
  let ranges :=
    BoxCatcher.ranges
      (BoxCatcher.__init__ 0 [(2, 2); (4, 2); (0, 2)]%Z (2, 4)%Z None false) in
  map (fun r => (region_rows b r, region_cols b r)) ranges
  = [(5, 3); (3, 3); (0, 3)]
  /\ extent 2 1 5 = 3.
Proof.
  intros b ranges. split; [reflexivity | ].
  destruct (box_regions 0 [(2, 2)]%Z 2 4 None false b 0 2 2 eq_refl)
    as [r [_ [_ [_ Hcases]]]].
  apply (proj1 (Hcases 2%Z 1%Z 5 ltac:(lia))); lia.
Defined.

(** ** The mean over a box *)

Lemma box_capture_length (b : np.ndarray) (r : (Z * Z) * (Z * Z)) :
  length (np.data (box_capture b r))
  = frames_of b
    * (region_rows b r * (region_cols b r * nth 3 (np.shape b) 0)).
Proof.
  unfold box_capture. cbn [np.data].
  rewrite flat_map_constant_length
    with (c := region_rows b r * (region_cols b r * nth 3 (np.shape b) 0)).
  - rewrite length_seq. reflexivity.
  - intros f _.
    rewrite flat_map_constant_length
      with (c := region_cols b r * nth 3 (np.shape b) 0).
    + rewrite length_seq. reflexivity.
    + intros i _.
      rewrite flat_map_constant_length with (c := nth 3 (np.shape b) 0).
      * rewrite length_seq. reflexivity.
      * intros j _. rewrite length_map, length_seq. reflexivity.
Qed.

(** X12 -- one update of a fresh [BoxCatcher] with the default
    aggregation and at least one region, a batch of shape (N, H, W, C),
    N and C not 0, and regions that all hold the same number of pixels:
    [extract()] returns an array of shape (num_pixels, N, C) whose
    element [p, f, k] is the mean of channel [k] over the region of
    pixel [p] in frame [f]. *)
Theorem box_extract_is_the_mean_over_the_region :
  forall (self : BoxCatcher.t) (b : np.ndarray) (n h w c area : nat),
    BoxCatcher.values self = [] ->
    BoxCatcher.agg self = np.mean ->
    BoxCatcher.ranges self <> [] ->
    np.shape b = [n; h; w; c] -> n * c <> 0 ->
    (forall r, In r (BoxCatcher.ranges self) ->
               region_rows b r * region_cols b r = area) ->
    exists (s : BoxCatcher.t) (v : np.ndarray),
      feed [b] self = (Ok tt, s)
      /\ BoxCatcher.extract s = (Ok v, s)
      /\ np.shape v = [length (BoxCatcher.ranges self); n; c]
      /\ forall p r f k,
          nth_error (BoxCatcher.ranges self) p = Some r ->
          f < n -> k < c ->
          at_ v [p; f; k] = np.mean_of (box_values b r f k).
Proof.
  intros self b n h w c area Hfresh Hagg Hne Hsh Hnc Harea.
  set (ranges := BoxCatcher.ranges self) in *.
  set (row := map (box_capture b) ranges).
  set (s := BoxCatcher.set_values [row] self).
  assert (Hn : frames_of b = n) by (unfold frames_of; rewrite Hsh; reflexivity).
  assert (Hc : nth 3 (np.shape b) 0 = c) by (rewrite Hsh; reflexivity).
  assert (Hrow : forall a, In a row -> np.shape a = [n; area; c]).
  { intros a Ha. apply in_map_iff in Ha. destruct Ha as [r [<- Hr]].
    unfold box_capture. cbn [np.shape]. rewrite Hn, Hc, (Harea r Hr).
    reflexivity. }
  assert (Hlen : length row = length ranges) by apply length_map.
  exists s. eexists. split; [ | split; [ | split]].
  - cbn [feed]. unfold bind. cbn [__process__ BoxCatcher_Processor].
    rewrite (BoxCatcher_process_captures self b n h w c Hsh Hnc).
    rewrite Hfresh. reflexivity.
  - unfold BoxCatcher.extract, bind, get, lift.
    cbn [s BoxCatcher.set_values BoxCatcher.values BoxCatcher.agg].
    rewrite Hagg.
    rewrite (array_single_row row [n; area; c]);
      [ | unfold row; destruct ranges; [congruence | discriminate] | exact Hrow].
    rewrite Hlen.
    set (stacked := np.mkarr [1; length ranges; n; area; c]
                             (flat_map np.data row)).
    change (np.mean stacked (-2))
      with (Ok (np.reduce_axis np.mean_of 3 stacked)).
    set (agg_val := np.reduce_axis np.mean_of 3 stacked).
    assert (Hshape : np.shape agg_val = [1; length ranges; n; c]) by reflexivity.
    cbv iota beta. rewrite Hshape.
    change (tuple_suffix 2 [1; length ranges; n; c]) with [n; c].
    change ((-1)%Z :: map Z.of_nat [n; c])
      with (map Z.of_nat [] ++ [(-1)%Z] ++ map Z.of_nat [n; c]).
    rewrite (reshape_infer agg_val [] [n; c] (length ranges));
      [reflexivity | cbn; lia | rewrite Hshape; cbn; lia].
  - reflexivity.
  - intros p r f k Hp Hf Hk.
    assert (Hpl : p < length ranges)
      by (apply nth_error_Some; rewrite Hp; discriminate).
    assert (Hr : In r ranges) by (eapply nth_error_In; exact Hp).
    unfold at_, ravel, np.item.
    cbn [np.shape np.data app combine fold_left fst snd np.reduce_axis
         firstn skipn nth np.size fold_right].
    replace (((0 * length ranges + p) * n + f) * c + k)
      with ((p * n + f) * (c * 1) + k) by lia.
    rewrite nth_seq_block;
      [ | intros x; rewrite length_map, length_seq; reflexivity | nia | lia].
    rewrite nth_map_seq by lia.
    f_equal. unfold np.lane, box_values. rewrite (Harea r Hr).
    apply map_ext_in. intros i Hi. apply in_seq in Hi.
    assert (Hcols : region_cols b r <> 0).
    { intros Hz. specialize (Harea r Hr). rewrite Hz in Harea. lia. }
    unfold np.item. cbn [np.data].
    replace (((p * n + f) * area + i) * (c * 1) + k)
      with (p * (n * (area * c)) + ((f * area + i) * c + k)) by lia.
    assert (Hin : (f * area + i) * c + k < n * (area * c)).
    { apply Nat.lt_le_trans with ((f * area + i + 1) * c); [lia | ].
      rewrite (Nat.mul_assoc n area c). apply Nat.mul_le_mono_r.
      apply Nat.le_trans with ((f + 1) * area); [lia | ].
      apply Nat.mul_le_mono_r. lia. }
    rewrite (nth_flat_map_block np.data row (n * (area * c)) p _ NaN
               (box_capture b r)); [ | | lia | exact Hin].
    + unfold row. rewrite map_nth.
      rewrite (nth_error_nth _ _ _ Hp).
      pose proof (Nat.div_mod_eq i (region_cols b r)) as Hdm.
      pose proof (Nat.mod_upper_bound i (region_cols b r) Hcols) as Hmod.
      assert (Hdiv : i / region_cols b r < region_rows b r).
      { apply Nat.Div0.div_lt_upper_bound.
        rewrite (Nat.mul_comm (region_cols b r)), (Harea r Hr). lia. }
      rewrite <- (Harea r Hr), <- Hc.
      replace i with (i / region_cols b r * region_cols b r
                      + i mod region_cols b r) at 1 by lia.
      apply box_capture_item; [lia | exact Hdiv | exact Hmod | lia].
    + intros a Ha. apply in_map_iff in Ha. destruct Ha as [r' [<- Hr']].
      rewrite box_capture_length, Hn, Hc.
      rewrite <- (Harea r' Hr'). ring.
Qed.

Lemma box_extract_is_the_mean_over_the_region_witness :
  let box := BoxCatcher.__init__ 0 [(1, 1)]%Z (3, 3)%Z None false in
  let b := ints [1; 3; 3; 1] [1; 2; 3; 4; 5; 6; 7; 8; 9]%Z in
  exists (s : BoxCatcher.t) (v : np.ndarray),
    feed [b] box = (Ok tt, s)
    /\ BoxCatcher.extract s = (Ok v, s)
    /\ at_ v [0; 0; 0] = Fin 5.
Proof.
  intros box b.
  destruct (box_extract_is_the_mean_over_the_region box b 1 3 3 1 9)
    as [s [v [Hfeed [Hext [_ Hmean]]]]];
    [reflexivity | reflexivity | discriminate | reflexivity | discriminate | | ].
  - intros r [<- | []]. reflexivity.
  - exists s, v. split; [exact Hfeed | split; [exact Hext | ]].
    apply (Hmean 0 ((0, 3), (0, 3))%Z 0 0); [reflexivity | lia | lia].
Defined.

(** ** The logs only grow *)

Lemma PixelCatcher_process_appends (s : PixelCatcher.t) (frames : np.ndarray) :
  fst (PixelCatcher.__process__ frames s) = Ok tt ->
  exists a, snd (PixelCatcher.__process__ frames s)
            = PixelCatcher.set_values (PixelCatcher.values s ++ [a]) s.
Proof.
  unfold PixelCatcher.__process__, bind, get, lift, modify.
  destruct (rmap _ _) as [vals | e]; cbn [fst snd]; [ | discriminate].
  destruct (np.concatenate vals 1) as [a | e]; cbn [fst snd]; [ | discriminate].
  intros _. exists a. reflexivity.
Qed.

Lemma BoxCatcher_process_appends (s : BoxCatcher.t) (frames : np.ndarray) :
  fst (BoxCatcher.__process__ frames s) = Ok tt ->
  exists row, snd (BoxCatcher.__process__ frames s)
              = BoxCatcher.set_values (BoxCatcher.values s ++ [row]) s.
Proof.
  unfold BoxCatcher.__process__, bind, get, lift, modify.
  destruct (rmap _ _) as [vals | e]; cbn [fst snd]; [ | discriminate].
  intros _. exists vals. reflexivity.
Qed.

(** X13 -- the logs are append-only: whenever a stream of updates of a
    [PixelCatcher] or a [BoxCatcher] goes through, the log afterwards is
    the log before followed by one new entry per batch, and the pixels
    (and regions) are unchanged. *)
Theorem logs_are_append_only :
  (forall (batches : list np.ndarray) (s s' : PixelCatcher.t),
      feed batches s = (Ok tt, s') ->
      PixelCatcher.pixels s' = PixelCatcher.pixels s
      /\ exists new,
          PixelCatcher.values s' = PixelCatcher.values s ++ new
          /\ length new = length batches)
  /\ (forall (batches : list np.ndarray) (s s' : BoxCatcher.t),
         feed batches s = (Ok tt, s') ->
         BoxCatcher.pixels s' = BoxCatcher.pixels s
         /\ BoxCatcher.ranges s' = BoxCatcher.ranges s
         /\ exists new,
             BoxCatcher.values s' = BoxCatcher.values s ++ new
             /\ length new = length batches).
Proof.
  split.
  - induction batches as [| b rest IH]; intros s s' Hfeed.
    + cbn in Hfeed. injection Hfeed as <-.
      split; [reflexivity | exists []; rewrite app_nil_r; split; reflexivity].
    + cbn [feed] in Hfeed. unfold bind at 1 in Hfeed.
      cbn [__process__ PixelCatcher_Processor] in Hfeed.
      pose proof (PixelCatcher_process_appends s b) as Hstep.
      destruct (PixelCatcher.__process__ b s) as [[[] | e] s1];
        cbn [fst snd] in *; [ | discriminate].
      destruct (Hstep eq_refl) as [a ->].
      destruct (IH _ _ Hfeed) as [Hpix [new [Hvals Hlen]]].
      split; [exact Hpix | ].
      exists (a :: new). cbn [PixelCatcher.set_values PixelCatcher.values] in Hvals.
      rewrite Hvals, <- app_assoc. split; [reflexivity | cbn; lia].
  - induction batches as [| b rest IH]; intros s s' Hfeed.
    + cbn in Hfeed. injection Hfeed as <-.
      split; [reflexivity | split; [reflexivity | ]].
      exists []. rewrite app_nil_r. split; reflexivity.
    + cbn [feed] in Hfeed. unfold bind at 1 in Hfeed.
      cbn [__process__ BoxCatcher_Processor] in Hfeed.
      pose proof (BoxCatcher_process_appends s b) as Hstep.
      destruct (BoxCatcher.__process__ b s) as [[[] | e] s1];
        cbn [fst snd] in *; [ | discriminate].
      destruct (Hstep eq_refl) as [row ->].
      destruct (IH _ _ Hfeed) as [Hpix [Hranges [new [Hvals Hlen]]]].
      split; [exact Hpix | split; [exact Hranges | ]].
      exists (row :: new). cbn [BoxCatcher.set_values BoxCatcher.values] in Hvals.
      rewrite Hvals, <- app_assoc. split; [reflexivity | cbn; lia].
Qed.

Lemma logs_are_append_only_witness :
  let pix := PixelCatcher.__init__ 0 [(0, 0)]%Z false in
  let b := ints [1; 1; 1; 3] [1; 2; 3]%Z in
  length (PixelCatcher.values (snd (feed [b; b; b] pix))) = 3.
Proof.
  intros pix b.
  assert (Hfeed : feed [b; b; b] pix = (Ok tt, snd (feed [b; b; b] pix)))
    by reflexivity.
  destruct (proj1 logs_are_append_only [b; b; b] pix _ Hfeed)
    as [_ [new [Hvals Hlen]]].
  rewrite Hvals. cbn [PixelCatcher.values pix PixelCatcher.__init__ app].
  exact Hlen.
Defined.

(** ** Nothing to extract *)

(** X14 -- [extract()] before any update raises and leaves the object as
    it was: [PixelCatcher] raises [ValueError] ([np.concatenate] of no
    array), [BoxCatcher] with the default aggregation raises [AxisError]
    (axis -2 of an array of one dimension).  A [PixelCatcher] without
    pixels raises [ValueError] on every update. *)
Theorem nothing_to_extract :
  (forall self : PixelCatcher.t,
      PixelCatcher.values self = [] ->
      PixelCatcher.extract self = (Raise ValueError, self))
  /\ (forall self : BoxCatcher.t,
         BoxCatcher.values self = [] ->
         BoxCatcher.agg self = np.mean ->
         BoxCatcher.extract self = (Raise AxisError, self))
  /\ (forall (self : PixelCatcher.t) (frames : np.ndarray),
         PixelCatcher.pixels self = [] ->
         PixelCatcher.__process__ frames self = (Raise ValueError, self)).
Proof.
  split; [ | split].
  - intros self Hv. unfold PixelCatcher.extract, bind, get, lift.
    rewrite Hv. reflexivity.
  - intros self Hv Hagg. unfold BoxCatcher.extract, bind, get, lift.
    rewrite Hv, Hagg. reflexivity.
  - intros self frames Hp. unfold PixelCatcher.__process__, bind, get, lift.
    rewrite Hp. reflexivity.
Qed.

Lemma nothing_to_extract_witness :
  PixelCatcher.extract (PixelCatcher.__init__ 0 [(1, 2)]%Z false)
  = (Raise ValueError, PixelCatcher.__init__ 0 [(1, 2)]%Z false)
  /\ BoxCatcher.extract (BoxCatcher.__init__ 0 [(1, 2)]%Z (3, 3)%Z None false)
     = (Raise AxisError, BoxCatcher.__init__ 0 [(1, 2)]%Z (3, 3)%Z None false).
Proof.
  pose proof nothing_to_extract as [Hp [Hb _]].
  split; [apply Hp | apply Hb]; reflexivity.
Defined.

(** ** The lifetime rate of a run *)

Lemma truediv_nonzero (n : pyint) (d : Q) :
  ~ (d == 0)%Q -> truediv n d = Ok (fin (inject_Z (int_val n) / d)).
Proof.
  intros Hd. unfold truediv. destruct n as [z | z]; cbn [int_val].
  - destruct (Qeq_bool d 0) eqn:E; [ | reflexivity].
    apply Qeq_bool_eq in E. contradiction.
  - unfold of_Z. f_equal. apply fdiv_finite. exact Hd.
Qed.

Lemma frames_in_nonneg (calls : list (Q * np.ndarray)) :
  (0 <= frames_in calls)%Z.
Proof.
  induction calls as [| c rest IH]; cbn [frames_in fold_right]; [lia | ].
  fold (frames_in rest). unfold leading_frames. lia.
Qed.

Section Run.
Context {S : Type} `{ProcessorLaws S}.

Lemma run_counts (calls : list (Q * np.ndarray)) (s : S) (d : Q * np.ndarray) :
  ProcessorBase.monitor (base s) = true ->
  (0 <= int_val (ProcessorBase.total_frames (base s)))%Z ->
  counted calls s ->
  (int_val (ProcessorBase.total_frames (base s)) + frames_in calls < 2 ^ 63)%Z ->
  int_val (ProcessorBase.total_frames (base (run calls s)))
  = (int_val (ProcessorBase.total_frames (base s)) + frames_in calls)%Z
  /\ (calls <> [] ->
      ProcessorBase.runtime (base (run calls s))
      = Qred (fst (last calls d) - ProcessorBase.start (base s))).
Proof.
  revert s. induction calls as [| [now frames] rest IH];
    intros s Hm Hpos Hall Hfit.
  - cbn [run fold_left frames_in fold_right]. split; [lia | congruence].
  - cbn [counted fst snd] in Hall. destruct Hall as [Hnd [Hok Hrest]].
    cbn [frames_in fold_right snd] in Hfit. fold (frames_in rest) in Hfit.
    pose proof (frames_in_nonneg rest) as Hrestpos.
    assert (Hlead : (0 <= leading_frames frames)%Z)
      by (unfold leading_frames; lia).
    cbn [run fold_left fst snd].
    change (fold_left (fun s c => snd (__call__ (fst c) (snd c) s)) rest
                      (snd (__call__ now frames s)))
      with (run rest (snd (__call__ now frames s))).
    set (s1 := snd (__call__ now frames s)) in *.
    assert (Hs1 : base s1 = snd (ProcessorBase.measure now frames (base s))).
    { unfold s1. rewrite call_monitored by assumption.
      cbn [snd]. apply base_with_base. }
    destruct (measure_frames now frames (base s) Hnd Hpos ltac:(lia))
      as [Htot [Hrun Hstart]].
    destruct (measure_config now frames (base s)) as [Hmon _].
    rewrite <- Hs1 in Htot, Hrun, Hstart, Hmon.
    destruct (IH s1) as [IHtot IHrun];
      [congruence | lia | exact Hrest | lia | ].
    split.
    + rewrite IHtot, Htot. cbn [frames_in fold_right snd].
      fold (frames_in rest). lia.
    + intros _. destruct rest as [| c rest'].
      * cbn [run fold_left last fst]. exact Hrun.
      * rewrite IHrun by discriminate. rewrite Hstart. reflexivity.
Qed.
End Run.

(** X15 -- a processor built with monitoring on and called on batches
    with at least three axes, each of them taken by its [__process__] in
    the state the object is in at that call: after the calls,
    [total_frames] is the number of frames of all the batches (below
    2^63), [runtime] is the time from the constructor to the last call,
    and [get_fps()] returns the one divided by the other when that time
    is not 0. *)
Theorem lifetime_rate_of_a_run :
  forall (S : Type) `{ProcessorLaws S} (clock : Q) (qlen : nat)
         (calls : list (Q * np.ndarray)) (s : S) (d : Q * np.ndarray),
    base s = ProcessorBase.__init__ clock true qlen ->
    calls <> [] ->
    counted calls s ->
    (frames_in calls < 2 ^ 63)%Z ->
    let now := fst (last calls d) in
    int_val (ProcessorBase.total_frames (base (run calls s))) = frames_in calls
    /\ ProcessorBase.runtime (base (run calls s)) = Qred (now - clock)
    /\ (~ (now - clock == 0)%Q ->
        get_fps (run calls s)
        = Ok (fin (inject_Z (frames_in calls) / (now - clock)))).
Proof.
  intros S P L clock qlen calls s d Hinit Hne Hall Hfit now.
  destruct (run_counts calls s d) as [Htot Hrun].
  - rewrite Hinit. reflexivity.
  - rewrite Hinit. cbn. lia.
  - exact Hall.
  - rewrite Hinit. cbn [ProcessorBase.__init__ ProcessorBase.total_frames int_val].
    lia.
  - rewrite Hinit in Htot, Hrun.
    cbn [ProcessorBase.__init__ ProcessorBase.total_frames
         ProcessorBase.start int_val] in Htot, Hrun.
    specialize (Hrun Hne). fold now in Hrun.
    split; [rewrite Htot; lia | split; [exact Hrun | ]].
    intros Hnz. unfold get_fps, ProcessorBase.get_fps.
    rewrite truediv_nonzero by (rewrite Hrun, Qred_correct; exact Hnz).
    rewrite Htot, Hrun. f_equal. unfold fin. f_equal.
    apply Qred_complete. rewrite Qred_correct.
    replace (0 + frames_in calls)%Z with (frames_in calls) by lia.
    reflexivity.
Qed.

Lemma lifetime_rate_of_a_run_witness :
  let s := OnlineStats.__init__ 0 [1; 1; 1] true in
  let batch := ints [50; 1; 1; 1] (repeat 0%Z 50) in
  let pix := PixelCatcher.__init__ 0 [(0, 0)]%Z true in
  let frames := ints [2; 1; 1; 3] [1; 2; 3; 4; 5; 6]%Z in
  get_fps (run [(1%Q, batch); (2%Q, batch)] s) = Ok (Fin 50)
  /\ int_val (ProcessorBase.total_frames
                (base (run [(1%Q, frames); (4%Q, frames)] pix))) = 4%Z.
Proof.
  intros s batch pix frames. split.
  - refine (proj2 (proj2 (lifetime_rate_of_a_run OnlineStats.t 0 10
                            [(1%Q, batch); (2%Q, batch)] s (0%Q, batch)
                            eq_refl _ _ _)) _).
    + discriminate.
    + cbn [counted fst snd]. repeat split; try (cbn; lia); vm_compute; reflexivity.
    + cbn. lia.
    + cbn. discriminate.
  - refine (proj1 (lifetime_rate_of_a_run PixelCatcher.t 0 10
                     [(1%Q, frames); (4%Q, frames)] pix (0%Q, frames)
                     eq_refl _ _ _)).
    + discriminate.
    + cbn [counted fst snd]. repeat split; try (cbn; lia); vm_compute; reflexivity.
    + cbn. lia.
Defined.

(** ** Statistics of scalars *)

(** X16 -- an [OnlineStats] built for scalar data points ([shape = ()])
    takes no batch at all: [data.shape[-0:]] is the whole shape of the
    batch, so every batch with an axis fails the shape check with
    [ValueError], and a batch without axes fails at [data.shape[0]] with
    [IndexError]; the object is unchanged. *)
Theorem scalar_statistics_take_nothing :
  forall (self : OnlineStats.t) (data : np.ndarray),
    OnlineStats.shape self = [] ->
    OnlineStats.__process__ data self
    = (Raise (if np.ndim data =? 0 then IndexError else ValueError), self).
Proof.
  intros self data Hsh.
  unfold OnlineStats.__process__, bind, get, lift, raise.
  rewrite Hsh. cbn [length tuple_suffix Nat.eqb map].
  unfold np.ndim. destruct (np.shape data) as [| n rest] eqn:Hd.
  - cbn [np.shape_eqb length Nat.eqb negb].
    unfold np.shape_eqb.
    destruct (list_eq_dec Nat.eq_dec (@nil nat) []) as [_ | Hx]; [ | congruence].
    cbn [negb]. unfold np.reshape. rewrite Hd. reflexivity.
  - unfold np.shape_eqb.
    destruct (list_eq_dec Nat.eq_dec (n :: rest) []) as [Hx | _];
      [discriminate | ].
    reflexivity.
Qed.

Lemma scalar_statistics_take_nothing_witness :
  let s := OnlineStats.__init__ 0 [] false in
  OnlineStats.__process__ (ints [3] [1; 2; 3]%Z) s = (Raise ValueError, s)
  /\ OnlineStats.__process__ (ints [] [1]%Z) s = (Raise IndexError, s).
Proof.
  intros s. split.
  - apply (scalar_statistics_take_nothing s (ints [3] [1; 2; 3]%Z)). reflexivity.
  - apply (scalar_statistics_take_nothing s (ints [] [1]%Z)). reflexivity.
Defined.

(** ** [BoxCatcher], one frame at a time *)

Lemma index_box_frame (b : np.ndarray) (h w c : nat) (r : (Z * Z) * (Z * Z)) :
  np.shape b = [h; w; c] ->
  np.index_box b (fst r) (snd r)
  = Ok (np.mkarr [frame_rows b r; frame_cols b r; c]
          (np.data (frame_capture b r))).
Proof.
  intros Hsh. unfold np.index_box, frame_capture, frame_rows, frame_cols,
    frame_item, frame_region.
  rewrite Hsh. cbn [rev app nth fst snd].
  destruct (slice_indices (fst (fst r)) (snd (fst r)) h) as [x0 nx].
  destruct (slice_indices (fst (snd r)) (snd (snd r)) w) as [y0 ny].
  cbn [fst snd np.data np.size fold_right seq flat_map app].
  rewrite app_nil_r. do 2 f_equal.
  apply flat_map_ext. intros i.
  apply flat_map_ext. intros j. apply map_ext. intros k.
  unfold at_, ravel. rewrite Hsh. cbn [combine fold_left fst snd].
  rewrite Nat.mul_0_l, Nat.add_0_l. reflexivity.
Qed.

Lemma BoxCatcher_process_frame (self : BoxCatcher.t) (b : np.ndarray)
  (c : nat) :
  single_frame c b = true -> c <> 0 ->
  BoxCatcher.__process__ b self
  = (Ok tt,
     BoxCatcher.set_values
       (BoxCatcher.values self
        ++ [map (frame_capture b) (BoxCatcher.ranges self)])
       self).
Proof.
  intros Hframe Hc. unfold single_frame in Hframe.
  apply andb_true_iff in Hframe. destruct Hframe as [Hrank Hch].
  apply Nat.eqb_eq in Hrank. apply Nat.eqb_eq in Hch.
  destruct (np.shape b) as [| h [| w [| c' [| ? ?]]]] eqn:Hsh;
    try discriminate Hrank.
  cbn [nth] in Hch. subst c'.
  unfold BoxCatcher.__process__, bind, get, lift, modify.
  rewrite (rmap_ok _ (frame_capture b)); [reflexivity | ].
  intros r _. rewrite (index_box_frame b h w c r Hsh).
  cbn [rbind]. rewrite Hsh.
  change (tuple_get [h; w; c] (-1)) with (Ok c). cbn [rbind].
  change (tuple_drop_last 3 [h; w; c]) with (@nil nat).
  change (map Z.of_nat [] ++ [(-1)%Z; Z.of_nat c])
    with (map Z.of_nat [] ++ [(-1)%Z] ++ map Z.of_nat [c]).
  rewrite (reshape_infer _ [] [c] (frame_rows b r * frame_cols b r)).
  - unfold frame_capture. rewrite Hsh. reflexivity.
  - cbn. lia.
  - cbn. nia.
Qed.

Lemma feed_frames (frames : list np.ndarray) (self : BoxCatcher.t) (c : nat) :
  forallb (single_frame c) frames = true -> c <> 0 ->
  feed frames self
  = (Ok tt,
     BoxCatcher.set_values
       (BoxCatcher.values self
        ++ map (fun b => map (frame_capture b) (BoxCatcher.ranges self)) frames)
       self).
Proof.
  intros Hall Hc. revert self.
  induction frames as [| b rest IH]; intros self.
  - cbn [feed map]. rewrite app_nil_r. destruct self; reflexivity.
  - cbn [forallb] in Hall. apply andb_true_iff in Hall.
    destruct Hall as [Hb Hrest].
    cbn [feed]. unfold bind at 1. cbn [__process__ BoxCatcher_Processor].
    rewrite (BoxCatcher_process_frame self b c Hb Hc).
    rewrite (IH Hrest).
    cbn [BoxCatcher.set_values BoxCatcher.values BoxCatcher.ranges map].
    rewrite <- app_assoc. reflexivity.
Qed.

Lemma array_rows (rows : list (list np.ndarray)) (P : nat) (sh : list nat) :
  rows <> [] -> P <> 0 ->
  (forall row, In row rows -> length row = P) ->
  (forall row a, In row rows -> In a row -> np.shape a = sh) ->
  np.array rows
  = Ok (np.mkarr (length rows :: P :: sh)
          (flat_map (fun row => flat_map np.data row) rows)).
Proof.
  intros Hne HP Hlen Hsh. unfold np.array.
  destruct rows as [| row0 rest] eqn:Hrows; [congruence | ].
  rewrite <- Hrows in *.
  assert (H0 : In row0 rows) by (rewrite Hrows; left; reflexivity).
  assert (Hsame : forallb (fun row => length row =? length row0) rows = true).
  { apply forallb_forall. intros row Hrow. apply Nat.eqb_eq.
    rewrite (Hlen row Hrow), (Hlen row0 H0). reflexivity. }
  rewrite Hsame. cbn [negb].
  destruct row0 as [| a0 row0'] eqn:Hrow0.
  - specialize (Hlen [] H0). cbn in Hlen. congruence.
  - rewrite <- Hrow0 in *.
    assert (Ha0 : In a0 row0) by (rewrite Hrow0; left; reflexivity).
    assert (Hall : forallb (forallb (fun a => np.shape_eqb (np.shape a)
                                                          (np.shape a0)))
                           rows = true).
    { apply forallb_forall. intros row Hrow.
      apply forallb_forall. intros a Ha. unfold np.shape_eqb.
      rewrite (Hsh row a Hrow Ha), (Hsh row0 a0 H0 Ha0).
      destruct (list_eq_dec Nat.eq_dec sh sh); [reflexivity | congruence]. }
    rewrite Hall, (Hlen row0 H0), (Hsh row0 a0 H0 Ha0). reflexivity.
Qed.

Lemma frame_capture_length (b : np.ndarray) (r : (Z * Z) * (Z * Z)) :
  length (np.data (frame_capture b r))
  = frame_rows b r * (frame_cols b r * nth 2 (np.shape b) 0).
Proof.
  unfold frame_capture. cbn [np.data].
  rewrite flat_map_constant_length
    with (c := frame_cols b r * nth 2 (np.shape b) 0).
  - rewrite length_seq. reflexivity.
  - intros i _.
    rewrite flat_map_constant_length with (c := nth 2 (np.shape b) 0).
    + rewrite length_seq. reflexivity.
    + intros j _. rewrite length_map, length_seq. reflexivity.
Qed.

Lemma frame_capture_item (b : np.ndarray) (r : (Z * Z) * (Z * Z))
  (i j k : nat) :
  i < frame_rows b r -> j < frame_cols b r -> k < nth 2 (np.shape b) 0 ->
  nth ((i * frame_cols b r + j) * nth 2 (np.shape b) 0 + k)
      (np.data (frame_capture b r)) NaN
  = frame_item b r i j k.
Proof.
  intros Hi Hj Hk. unfold frame_capture. cbn [np.data].
  set (c := nth 2 (np.shape b) 0) in *.
  set (nx := frame_rows b r) in *. set (ny := frame_cols b r) in *.
  assert (Hpix : forall i j,
             length (map (frame_item b r i j) (seq 0 c)) = c)
    by (intros; rewrite length_map, length_seq; reflexivity).
  assert (Hrow : forall i,
             length (flat_map (fun j => map (frame_item b r i j) (seq 0 c))
                              (seq 0 ny)) = ny * c).
  { intros i0.
    rewrite flat_map_constant_length with (c := c);
      [rewrite length_seq; reflexivity | intros; apply Hpix]. }
  replace ((i * ny + j) * c + k) with (i * (ny * c) + (j * c + k)) by nia.
  assert (H1 : j * c + k < ny * c).
  { apply Nat.lt_le_trans with ((j + 1) * c); [lia | ].
    apply Nat.mul_le_mono_r. lia. }
  rewrite nth_seq_block; [ | apply Hrow | exact Hi | exact H1].
  rewrite nth_seq_block; [ | apply Hpix | exact Hj | exact Hk].
  apply nth_map_seq. exact Hk.
Qed.

(** X17 -- a fresh [BoxCatcher] with the default aggregation and at
    least one region, fed K >= 1 single frames of shape (H, W, C), C not
    0, one per call, with regions that all hold the same number of
    pixels: [extract()] returns an array of shape (K, num_pixels, C),
    frames first, whose element [f, p, k] is the mean of channel [k]
    over the region of pixel [p] in the frame of call [f]. *)
Theorem box_extract_frame_by_frame :
  forall (self : BoxCatcher.t) (frames : list np.ndarray) (c area : nat),
    BoxCatcher.values self = [] ->
    BoxCatcher.agg self = np.mean ->
    BoxCatcher.ranges self <> [] ->
    frames <> [] ->
    forallb (single_frame c) frames = true -> c <> 0 ->
    (forall b r, In b frames -> In r (BoxCatcher.ranges self) ->
                 frame_rows b r * frame_cols b r = area) ->
    exists (s : BoxCatcher.t) (v : np.ndarray),
      feed frames self = (Ok tt, s)
      /\ BoxCatcher.extract s = (Ok v, s)
      /\ np.shape v = [length frames; length (BoxCatcher.ranges self); c]
      /\ forall f b p r k,
          nth_error frames f = Some b ->
          nth_error (BoxCatcher.ranges self) p = Some r ->
          k < c ->
          at_ v [f; p; k] = np.mean_of (frame_values b r k).
Proof.
  intros self frames c area Hfresh Hagg Hne Hframes Hall Hc Harea.
  set (ranges := BoxCatcher.ranges self) in *.
  set (rows := map (fun b => map (frame_capture b) ranges) frames).
  set (s := BoxCatcher.set_values rows self).
  set (P := length ranges).
  assert (HP : P <> 0) by (unfold P; destruct ranges; [congruence | discriminate]).
  assert (Hch : forall b, In b frames -> nth 2 (np.shape b) 0 = c).
  { intros b Hb. rewrite forallb_forall in Hall. specialize (Hall b Hb).
    unfold single_frame in Hall. apply andb_true_iff in Hall.
    destruct Hall as [_ Hall]. apply Nat.eqb_eq in Hall. exact Hall. }
  assert (Hrowlen : forall row, In row rows -> length row = P).
  { intros row Hrow. apply in_map_iff in Hrow. destruct Hrow as [b [<- _]].
    apply length_map. }
  assert (Hshapes : forall row a, In row rows -> In a row ->
                                  np.shape a = [area; c]).
  { intros row a Hrow Ha. apply in_map_iff in Hrow.
    destruct Hrow as [b [<- Hb]]. apply in_map_iff in Ha.
    destruct Ha as [r [<- Hr]]. unfold frame_capture. cbn [np.shape].
    rewrite (Harea b r Hb Hr), (Hch b Hb). reflexivity. }
  assert (HK : length rows = length frames) by apply length_map.
  exists s. eexists. split; [ | split; [ | split]].
  - rewrite (feed_frames frames self c Hall Hc), Hfresh. reflexivity.
  - unfold BoxCatcher.extract, bind, get, lift.
    cbn [s BoxCatcher.set_values BoxCatcher.values BoxCatcher.agg].
    rewrite Hagg.
    rewrite (array_rows rows P [area; c]);
      [ | unfold rows; destruct frames; [congruence | discriminate]
        | exact HP | exact Hrowlen | exact Hshapes].
    rewrite HK.
    set (stacked := np.mkarr [length frames; P; area; c]
                             (flat_map (fun row => flat_map np.data row) rows)).
    change (np.mean stacked (-2))
      with (Ok (np.reduce_axis np.mean_of 2 stacked)).
    set (agg_val := np.reduce_axis np.mean_of 2 stacked).
    assert (Hshape : np.shape agg_val = [length frames; P; c]) by reflexivity.
    cbv iota beta. rewrite Hshape.
    change (tuple_suffix 2 [length frames; P; c]) with [P; c].
    change ((-1)%Z :: map Z.of_nat [P; c])
      with (map Z.of_nat [] ++ [(-1)%Z] ++ map Z.of_nat [P; c]).
    rewrite (reshape_infer agg_val [] [P; c] (length frames));
      [reflexivity | cbn; nia | rewrite Hshape; cbn; lia].
  - reflexivity.
  - intros f b p r k Hf Hp Hk.
    assert (Hfl : f < length frames)
      by (apply nth_error_Some; rewrite Hf; discriminate).
    assert (Hpl : p < P)
      by (apply nth_error_Some; rewrite Hp; discriminate).
    assert (Hb : In b frames) by (eapply nth_error_In; exact Hf).
    assert (Hr : In r ranges) by (eapply nth_error_In; exact Hp).
    unfold at_, ravel, np.item.
    cbn [np.shape np.data app combine fold_left fst snd np.reduce_axis
         firstn skipn nth np.size fold_right].
    replace (((0 * length frames + f) * P + p) * c + k)
      with ((f * P + p) * (c * 1) + k) by lia.
    rewrite nth_seq_block;
      [ | intros x; rewrite length_map, length_seq; reflexivity | nia | lia].
    rewrite nth_map_seq by lia.
    f_equal. unfold np.lane, frame_values. rewrite (Harea b r Hb Hr).
    apply map_ext_in. intros i Hi. apply in_seq in Hi.
    assert (Hcols : frame_cols b r <> 0).
    { intros Hz. specialize (Harea b r Hb Hr). rewrite Hz in Harea. lia. }
    unfold np.item. cbn [np.data].
    replace (((f * P + p) * area + i) * (c * 1) + k)
      with (f * (P * (area * c)) + (p * (area * c) + (i * c + k))) by lia.
    assert (Hin1 : i * c + k < area * c).
    { apply Nat.lt_le_trans with ((i + 1) * c); [lia | ].
      apply Nat.mul_le_mono_r. lia. }
    assert (Hin2 : p * (area * c) + (i * c + k) < P * (area * c)).
    { apply Nat.lt_le_trans with ((p + 1) * (area * c)); [lia | ].
      apply Nat.mul_le_mono_r. lia. }
    assert (Hcaplen : forall b' r', In b' frames -> In r' ranges ->
               length (np.data (frame_capture b' r')) = area * c).
    { intros b' r' Hb' Hr'.
      rewrite frame_capture_length, (Hch b' Hb'), <- (Harea b' r' Hb' Hr').
      ring. }
    rewrite (nth_flat_map_block (fun row => flat_map np.data row) rows
               (P * (area * c)) f _ NaN (map (frame_capture b) ranges));
      [ | | lia | exact Hin2].
    + unfold rows.
      rewrite (map_nth (fun b => map (frame_capture b) ranges) frames b f).
      rewrite (nth_error_nth _ _ _ Hf).
      rewrite (nth_flat_map_block np.data (map (frame_capture b) ranges)
                 (area * c) p _ NaN (frame_capture b r));
        [ | | rewrite length_map; exact Hpl | exact Hin1].
      * rewrite map_nth, (nth_error_nth _ _ _ Hp).
        pose proof (Nat.div_mod_eq i (frame_cols b r)) as Hdm.
        pose proof (Nat.mod_upper_bound i (frame_cols b r) Hcols) as Hmod.
        assert (Hdiv : i / frame_cols b r < frame_rows b r).
        { apply Nat.Div0.div_lt_upper_bound.
          rewrite (Nat.mul_comm (frame_cols b r)), (Harea b r Hb Hr). lia. }
        rewrite <- (Hch b Hb).
        replace i with (i / frame_cols b r * frame_cols b r
                        + i mod frame_cols b r) at 1 by lia.
        apply frame_capture_item;
          [exact Hdiv | exact Hmod | rewrite (Hch b Hb); exact Hk].
      * intros a Ha. apply in_map_iff in Ha. destruct Ha as [r' [<- Hr']].
        apply Hcaplen; assumption.
    + intros row Hrow. apply in_map_iff in Hrow. destruct Hrow as [b' [<- Hb']].
      rewrite flat_map_constant_length with (c := area * c).
      * rewrite length_map. reflexivity.
      * intros a Ha. apply in_map_iff in Ha. destruct Ha as [r' [<- Hr']].
        apply Hcaplen; assumption.
Qed.

Lemma box_extract_frame_by_frame_witness :
  let box := BoxCatcher.__init__ 0 [(1, 1)]%Z (3, 3)%Z None false in
  let f1 := ints [3; 3; 1] [1; 2; 3; 4; 5; 6; 7; 8; 9]%Z in
  let f2 := ints [3; 3; 1] [2; 2; 2; 2; 2; 2; 2; 2; 2]%Z in
  exists (s : BoxCatcher.t) (v : np.ndarray),
    feed [f1; f2] box = (Ok tt, s)
    /\ BoxCatcher.extract s = (Ok v, s)
    /\ np.shape v = [2; 1; 1]
    /\ at_ v [1; 0; 0] = Fin 2.
Proof.
  intros box f1 f2.
  destruct (box_extract_frame_by_frame box [f1; f2] 1 9)
    as [s [v [Hfeed [Hext [Hshape Hmean]]]]];
    [reflexivity | reflexivity | discriminate | discriminate | reflexivity
    | discriminate | | ].
  - intros b r [<- | [<- | []]] [<- | []]; reflexivity.
  - exists s, v. split; [exact Hfeed | split; [exact Hext | split; [exact Hshape | ]]].
    apply (Hmean 1 f2 0 ((0, 3), (0, 3))%Z 0); [reflexivity | reflexivity | lia].
Defined.
